(** * The graphic editor of [components/graphic-editor.tsx]

    A shallow embedding of the editor component: the document model
    ([DrawingElement], [CanvasState]), the viewport transform, the hit test,
    the undo/redo history and the pointer-driven handlers, followed by the
    properties checked against it.

    Conventions of the embedding.

    - A JavaScript [number] is an exact rational ([Q]).  The model agrees with
      the code wherever the code divides by a non-zero number and no rounding
      occurs; equalities between computed numbers are stated with [==], the
      equality of rationals.  Where rounding decides a property, the
      arithmetic is repeated on binary64 numbers ([Double]).
    - An optional field ([width?: number]) is an [option]; [a || b] on numbers
      and strings is written out with JavaScript's falsy values ([0], the
      empty string, [undefined]).
    - A text the user types is the sequence of its UTF-16 code units
      ([JS.utf16]), so that [trim] sees every white space character of the
      language; identifiers, colours, font families and MIME types, which
      are only compared, are [string]s.
    - React state: a handler runs inside one render.  Every state variable it
      reads is the value of that render (its closure); every [setX(v)] is
      queued and applied, in order, to the pending state, and a functional
      update [setX(prev => ...)] receives the pending value.  A handler is
      therefore a function from the rendered state to a transformer of the
      pending state, and [render] runs it. *)

From Stdlib Require Import QArith Qminmax ZArith NArith List String Ascii Bool Arith Lia Lqa.
From Corelib Require Import PrimFloat.
Import ListNotations.
Open Scope Q_scope.

(** ** JavaScript values *)

Module JS.

(** [a < b], [a <= b], [a === b] on numbers. *)
Definition ltb (a b : Q) : bool := negb (Qle_bool b a).
Definition leb (a b : Q) : bool := Qle_bool a b.
Definition eqb (a b : Q) : bool := Qeq_bool a b.

(** [a || b] where [a] is an optional number: [undefined] and [0] are falsy. *)
Definition orNum (a : option Q) (b : Q) : Q :=
  match a with
  | Some v => if eqb v 0 then b else v
  | None => b
  end.

(** [a || b] where [a] is an optional string: [undefined] and the empty
    string are falsy. *)
Definition orStr (a : option string) (b : string) : string :=
  match a with
  | Some EmptyString => b
  | Some v => v
  | None => b
  end.

(** Truthiness of [string | null | undefined]. *)
Definition truthyStr (a : option string) : bool :=
  match a with
  | Some EmptyString => false
  | Some _ => true
  | None => false
  end.

(** Truthiness of an optional boolean ([!element.visible] is its negation). *)
Definition truthyBool (a : option bool) : bool :=
  match a with
  | Some b => b
  | None => false
  end.

(** [a % n], the remainder of the division truncated towards zero. *)
Definition trunc (q : Q) : Z := Z.quot (Qnum q) (Zpos (Qden q)).
Definition rem (a n : Q) : Q := a - n * inject_Z (trunc (a / n)).

(** A JavaScript string as the sequence of its UTF-16 code units. *)
Definition utf16 : Type := list N.

(** The code units of a string of ASCII characters. *)
Definition ofString (s : string) : utf16 :=
  map N_of_ascii (list_ascii_of_string s).

(** The code units [String.prototype.trim] removes: the WhiteSpace and
    LineTerminator code points of ECMAScript, that is TAB, LF, VT, FF, CR,
    SPACE, NO-BREAK SPACE, OGHAM SPACE MARK (U+1680), U+2000 to U+200A, LINE
    and PARAGRAPH SEPARATOR (U+2028, U+2029), NARROW NO-BREAK SPACE (U+202F),
    MEDIUM MATHEMATICAL SPACE (U+205F), IDEOGRAPHIC SPACE (U+3000) and ZERO
    WIDTH NO-BREAK SPACE (U+FEFF).  All of them lie in the basic plane, so
    each is one code unit. *)
Definition isWhite (c : N) : bool :=
  ((9 <=? c) && (c <=? 13) || (c =? 32) || (c =? 160) || (c =? 5760)
   || (8192 <=? c) && (c <=? 8202) || (c =? 8232) || (c =? 8233)
   || (c =? 8239) || (c =? 8287) || (c =? 12288) || (c =? 65279))%N%bool.

Fixpoint trimStart (s : utf16) : utf16 :=
  match s with
  | [] => []
  | c :: r => if isWhite c then trimStart r else s
  end.

(** [s.trim()]: white space removed at both ends. *)
Definition trim (s : utf16) : utf16 :=
  List.rev (trimStart (List.rev (trimStart s))).

(** [s.startsWith(p)]. *)
Definition startsWith (s p : string) : bool := String.prefix p s.

(** A rational stand-in for [Math.sqrt], exact on squares of rationals
    (the floor of the root of the numerator over the denominator); used
    where a concrete run needs a value for [Math.sqrt]. *)
Definition sqrtFloor (q : Q) : Q :=
  Z.sqrt (Qnum q * Zpos (Qden q)) # Qden q.

End JS.

(** ** Data model *)

Module Point.
Record t : Type := mk { x : Q; y : Q }.
End Point.

(** The tool identifiers offered by the toolbar; an element's [type] is the
    tool it was created with ([type: tool as any]). *)
Module Tool.
Inductive t : Type :=
| select | pan | brush | rectangle | circle | line | triangle | star
| polygon | text | image.

Definition eqb (a b : t) : bool :=
  match a, b with
  | select, select | pan, pan | brush, brush | rectangle, rectangle
  | circle, circle | line, line | triangle, triangle | star, star
  | polygon, polygon | text, text | image, image => true
  | _, _ => false
  end.
End Tool.

Module TextAlign.
Inductive t : Type := left | center | right.
End TextAlign.

(** [interface DrawingElement], with the three transform fields the
    properties panel adds ([rotation], [flipX], [flipY]). *)
Module DrawingElement.
Record t : Type := mk {
  id : string;
  type : Tool.t;
  x : Q;
  y : Q;
  color : string;
  strokeWidth : Q;
  points : option (list Point.t);
  width : option Q;
  height : option Q;
  radius : option Q;
  endX : option Q;
  endY : option Q;
  text : option JS.utf16;
  fontSize : option Q;
  fontFamily : option string;
  textAlign : option TextAlign.t;
  visible : option bool;
  name : option string;
  imageData : option string;
  imageWidth : option Q;
  imageHeight : option Q;
  rotation : option Q;
  flipX : option bool;
  flipY : option bool
}.

(** An object literal with only the mandatory fields and [visible]. *)
Definition base (i : string) (ty : Tool.t) (px py : Q) (c : string) (sw : Q)
  : t :=
  mk i ty px py c sw None None None None None None None None None None
     (Some true) None None None None None None None.

Definition setXY (vx vy : Q) (e : t) : t :=
  mk (id e) (type e) vx vy (color e) (strokeWidth e) (points e) (width e)
     (height e) (radius e) (endX e) (endY e) (text e) (fontSize e)
     (fontFamily e) (textAlign e) (visible e) (name e) (imageData e)
     (imageWidth e) (imageHeight e) (rotation e) (flipX e) (flipY e).

Definition setEnd (vx vy : Q) (e : t) : t :=
  mk (id e) (type e) (x e) (y e) (color e) (strokeWidth e) (points e)
     (width e) (height e) (radius e) (Some vx) (Some vy) (text e)
     (fontSize e) (fontFamily e) (textAlign e) (visible e) (name e)
     (imageData e) (imageWidth e) (imageHeight e) (rotation e) (flipX e)
     (flipY e).

Definition setSize (w h : Q) (e : t) : t :=
  mk (id e) (type e) (x e) (y e) (color e) (strokeWidth e) (points e)
     (Some w) (Some h) (radius e) (endX e) (endY e) (text e) (fontSize e)
     (fontFamily e) (textAlign e) (visible e) (name e) (imageData e)
     (imageWidth e) (imageHeight e) (rotation e) (flipX e) (flipY e).

Definition setRadius (r : Q) (e : t) : t :=
  mk (id e) (type e) (x e) (y e) (color e) (strokeWidth e) (points e)
     (width e) (height e) (Some r) (endX e) (endY e) (text e) (fontSize e)
     (fontFamily e) (textAlign e) (visible e) (name e) (imageData e)
     (imageWidth e) (imageHeight e) (rotation e) (flipX e) (flipY e).

Definition setPoints (ps : list Point.t) (e : t) : t :=
  mk (id e) (type e) (x e) (y e) (color e) (strokeWidth e) (Some ps)
     (width e) (height e) (radius e) (endX e) (endY e) (text e) (fontSize e)
     (fontFamily e) (textAlign e) (visible e) (name e) (imageData e)
     (imageWidth e) (imageHeight e) (rotation e) (flipX e) (flipY e).

Definition setText (s : JS.utf16) (fs : Q) (ff : string) (ta : TextAlign.t)
    (e : t) : t :=
  mk (id e) (type e) (x e) (y e) (color e) (strokeWidth e) (points e)
     (width e) (height e) (radius e) (endX e) (endY e) (Some s) (Some fs)
     (Some ff) (Some ta) (visible e) (name e) (imageData e) (imageWidth e)
     (imageHeight e) (rotation e) (flipX e) (flipY e).

Definition setImage (data : string) (w h : Q) (e : t) : t :=
  mk (id e) (type e) (x e) (y e) (color e) (strokeWidth e) (points e)
     (Some w) (Some h) (radius e) (endX e) (endY e) (text e) (fontSize e)
     (fontFamily e) (textAlign e) (visible e) (name e) (Some data) (Some w)
     (Some h) (rotation e) (flipX e) (flipY e).
End DrawingElement.

(** [Partial<DrawingElement>]: every field may be present or absent. *)
Module Partial.
Record t : Type := mk {
  id : option string;
  type : option Tool.t;
  x : option Q;
  y : option Q;
  color : option string;
  strokeWidth : option Q;
  points : option (list Point.t);
  width : option Q;
  height : option Q;
  radius : option Q;
  endX : option Q;
  endY : option Q;
  text : option JS.utf16;
  fontSize : option Q;
  fontFamily : option string;
  textAlign : option TextAlign.t;
  visible : option bool;
  name : option string;
  imageData : option string;
  imageWidth : option Q;
  imageHeight : option Q;
  rotation : option Q;
  flipX : option bool;
  flipY : option bool
}.

Definition empty : t :=
  mk None None None None None None None None None None None None None None
     None None None None None None None None None None.

Definition req {A} (u : option A) (old : A) : A :=
  match u with Some v => v | None => old end.
Definition opt {A} (u : option A) (old : option A) : option A :=
  match u with Some v => Some v | None => old end.

(** [{ ...element, ...updates }]. *)
Definition merge (e : DrawingElement.t) (u : t) : DrawingElement.t :=
  DrawingElement.mk
    (req (id u) (DrawingElement.id e))
    (req (type u) (DrawingElement.type e))
    (req (x u) (DrawingElement.x e))
    (req (y u) (DrawingElement.y e))
    (req (color u) (DrawingElement.color e))
    (req (strokeWidth u) (DrawingElement.strokeWidth e))
    (opt (points u) (DrawingElement.points e))
    (opt (width u) (DrawingElement.width e))
    (opt (height u) (DrawingElement.height e))
    (opt (radius u) (DrawingElement.radius e))
    (opt (endX u) (DrawingElement.endX e))
    (opt (endY u) (DrawingElement.endY e))
    (opt (text u) (DrawingElement.text e))
    (opt (fontSize u) (DrawingElement.fontSize e))
    (opt (fontFamily u) (DrawingElement.fontFamily e))
    (opt (textAlign u) (DrawingElement.textAlign e))
    (opt (visible u) (DrawingElement.visible e))
    (opt (name u) (DrawingElement.name e))
    (opt (imageData u) (DrawingElement.imageData e))
    (opt (imageWidth u) (DrawingElement.imageWidth e))
    (opt (imageHeight u) (DrawingElement.imageHeight e))
    (opt (rotation u) (DrawingElement.rotation e))
    (opt (flipX u) (DrawingElement.flipX e))
    (opt (flipY u) (DrawingElement.flipY e)).
End Partial.

(** [interface CanvasState]. *)
Record CanvasState : Type := mkCanvasState {
  elements : list DrawingElement.t;
  selectedElementId : option string
}.

(** What the handlers read from [canvasRef.current]: the bounding client
    rectangle, the [width] and [height] attributes and whether a 2d context
    is available. *)
Record CanvasEl : Type := mkCanvasEl {
  rectLeft : Q;
  rectTop : Q;
  canvasWidth : Q;
  canvasHeight : Q;
  hasContext2d : bool
}.

(** ** Component state

    One field per [useState] of [GraphicEditor], then [canvasRef.current] and
    the number of values drawn so far from [Math.random] by [generateId]. *)
Record EditorState : Type := mkEditorState {
  tool : Tool.t;
  isDrawing : bool;
  currentColor : string;
  strokeWidth : Q;
  fillMode : bool;
  fontSize : Q;
  canvasState : CanvasState;
  history : list CanvasState;
  historyIndex : nat;
  panOffset : Point.t;
  zoom : Q;
  isPanning : bool;
  lastPanPoint : Point.t;
  isEditingText : bool;
  textInputPosition : Point.t;
  textInputValue : JS.utf16;
  fontFamily : string;
  textAlign : TextAlign.t;
  isDragging : bool;
  dragStart : Point.t;
  dragElementStart : Point.t;
  canvasRef : option CanvasEl;
  randomCalls : nat
}.

(** The state setters the component calls.  Each acts on the pending state. *)
Definition setTool (v : Tool.t) (q : EditorState) : EditorState :=
  mkEditorState v (isDrawing q) (currentColor q) (strokeWidth q) (fillMode q)
  (fontSize q) (canvasState q) (history q) (historyIndex q) (panOffset q)
  (zoom q) (isPanning q) (lastPanPoint q) (isEditingText q)
  (textInputPosition q) (textInputValue q) (fontFamily q) (textAlign q)
  (isDragging q) (dragStart q) (dragElementStart q) (canvasRef q)
  (randomCalls q).

Definition setIsDrawing (v : bool) (q : EditorState) : EditorState :=
  mkEditorState (tool q) v (currentColor q) (strokeWidth q) (fillMode q)
  (fontSize q) (canvasState q) (history q) (historyIndex q) (panOffset q)
  (zoom q) (isPanning q) (lastPanPoint q) (isEditingText q)
  (textInputPosition q) (textInputValue q) (fontFamily q) (textAlign q)
  (isDragging q) (dragStart q) (dragElementStart q) (canvasRef q)
  (randomCalls q).

Definition setCanvasState (v : CanvasState) (q : EditorState) : EditorState :=
  mkEditorState (tool q) (isDrawing q) (currentColor q) (strokeWidth q)
  (fillMode q) (fontSize q) v (history q) (historyIndex q) (panOffset q)
  (zoom q) (isPanning q) (lastPanPoint q) (isEditingText q)
  (textInputPosition q) (textInputValue q) (fontFamily q) (textAlign q)
  (isDragging q) (dragStart q) (dragElementStart q) (canvasRef q)
  (randomCalls q).

Definition setHistory (v : list CanvasState) (q : EditorState) : EditorState :=
  mkEditorState (tool q) (isDrawing q) (currentColor q) (strokeWidth q)
  (fillMode q) (fontSize q) (canvasState q) v (historyIndex q) (panOffset q)
  (zoom q) (isPanning q) (lastPanPoint q) (isEditingText q)
  (textInputPosition q) (textInputValue q) (fontFamily q) (textAlign q)
  (isDragging q) (dragStart q) (dragElementStart q) (canvasRef q)
  (randomCalls q).

Definition setHistoryIndex (v : nat) (q : EditorState) : EditorState :=
  mkEditorState (tool q) (isDrawing q) (currentColor q) (strokeWidth q)
  (fillMode q) (fontSize q) (canvasState q) (history q) v (panOffset q)
  (zoom q) (isPanning q) (lastPanPoint q) (isEditingText q)
  (textInputPosition q) (textInputValue q) (fontFamily q) (textAlign q)
  (isDragging q) (dragStart q) (dragElementStart q) (canvasRef q)
  (randomCalls q).

Definition setPanOffset (v : Point.t) (q : EditorState) : EditorState :=
  mkEditorState (tool q) (isDrawing q) (currentColor q) (strokeWidth q)
  (fillMode q) (fontSize q) (canvasState q) (history q) (historyIndex q) v
  (zoom q) (isPanning q) (lastPanPoint q) (isEditingText q)
  (textInputPosition q) (textInputValue q) (fontFamily q) (textAlign q)
  (isDragging q) (dragStart q) (dragElementStart q) (canvasRef q)
  (randomCalls q).

Definition setZoom (v : Q) (q : EditorState) : EditorState :=
  mkEditorState (tool q) (isDrawing q) (currentColor q) (strokeWidth q)
  (fillMode q) (fontSize q) (canvasState q) (history q) (historyIndex q)
  (panOffset q) v (isPanning q) (lastPanPoint q) (isEditingText q)
  (textInputPosition q) (textInputValue q) (fontFamily q) (textAlign q)
  (isDragging q) (dragStart q) (dragElementStart q) (canvasRef q)
  (randomCalls q).

Definition setIsPanning (v : bool) (q : EditorState) : EditorState :=
  mkEditorState (tool q) (isDrawing q) (currentColor q) (strokeWidth q)
  (fillMode q) (fontSize q) (canvasState q) (history q) (historyIndex q)
  (panOffset q) (zoom q) v (lastPanPoint q) (isEditingText q)
  (textInputPosition q) (textInputValue q) (fontFamily q) (textAlign q)
  (isDragging q) (dragStart q) (dragElementStart q) (canvasRef q)
  (randomCalls q).

Definition setLastPanPoint (v : Point.t) (q : EditorState) : EditorState :=
  mkEditorState (tool q) (isDrawing q) (currentColor q) (strokeWidth q)
  (fillMode q) (fontSize q) (canvasState q) (history q) (historyIndex q)
  (panOffset q) (zoom q) (isPanning q) v (isEditingText q)
  (textInputPosition q) (textInputValue q) (fontFamily q) (textAlign q)
  (isDragging q) (dragStart q) (dragElementStart q) (canvasRef q)
  (randomCalls q).

Definition setIsEditingText (v : bool) (q : EditorState) : EditorState :=
  mkEditorState (tool q) (isDrawing q) (currentColor q) (strokeWidth q)
  (fillMode q) (fontSize q) (canvasState q) (history q) (historyIndex q)
  (panOffset q) (zoom q) (isPanning q) (lastPanPoint q) v
  (textInputPosition q) (textInputValue q) (fontFamily q) (textAlign q)
  (isDragging q) (dragStart q) (dragElementStart q) (canvasRef q)
  (randomCalls q).

Definition setTextInputPosition (v : Point.t) (q : EditorState) : EditorState :=
  mkEditorState (tool q) (isDrawing q) (currentColor q) (strokeWidth q)
  (fillMode q) (fontSize q) (canvasState q) (history q) (historyIndex q)
  (panOffset q) (zoom q) (isPanning q) (lastPanPoint q) (isEditingText q) v
  (textInputValue q) (fontFamily q) (textAlign q) (isDragging q)
  (dragStart q) (dragElementStart q) (canvasRef q) (randomCalls q).

Definition setTextInputValue (v : JS.utf16) (q : EditorState) : EditorState :=
  mkEditorState (tool q) (isDrawing q) (currentColor q) (strokeWidth q)
  (fillMode q) (fontSize q) (canvasState q) (history q) (historyIndex q)
  (panOffset q) (zoom q) (isPanning q) (lastPanPoint q) (isEditingText q)
  (textInputPosition q) v (fontFamily q) (textAlign q) (isDragging q)
  (dragStart q) (dragElementStart q) (canvasRef q) (randomCalls q).

Definition setIsDragging (v : bool) (q : EditorState) : EditorState :=
  mkEditorState (tool q) (isDrawing q) (currentColor q) (strokeWidth q)
  (fillMode q) (fontSize q) (canvasState q) (history q) (historyIndex q)
  (panOffset q) (zoom q) (isPanning q) (lastPanPoint q) (isEditingText q)
  (textInputPosition q) (textInputValue q) (fontFamily q) (textAlign q) v
  (dragStart q) (dragElementStart q) (canvasRef q) (randomCalls q).

Definition setDragStart (v : Point.t) (q : EditorState) : EditorState :=
  mkEditorState (tool q) (isDrawing q) (currentColor q) (strokeWidth q)
  (fillMode q) (fontSize q) (canvasState q) (history q) (historyIndex q)
  (panOffset q) (zoom q) (isPanning q) (lastPanPoint q) (isEditingText q)
  (textInputPosition q) (textInputValue q) (fontFamily q) (textAlign q)
  (isDragging q) v (dragElementStart q) (canvasRef q) (randomCalls q).

Definition setDragElementStart (v : Point.t) (q : EditorState) : EditorState :=
  mkEditorState (tool q) (isDrawing q) (currentColor q) (strokeWidth q)
  (fillMode q) (fontSize q) (canvasState q) (history q) (historyIndex q)
  (panOffset q) (zoom q) (isPanning q) (lastPanPoint q) (isEditingText q)
  (textInputPosition q) (textInputValue q) (fontFamily q) (textAlign q)
  (isDragging q) (dragStart q) v (canvasRef q) (randomCalls q).

Definition setFillMode (v : bool) (q : EditorState) : EditorState :=
  mkEditorState (tool q) (isDrawing q) (currentColor q) (strokeWidth q) v
  (fontSize q) (canvasState q) (history q) (historyIndex q) (panOffset q)
  (zoom q) (isPanning q) (lastPanPoint q) (isEditingText q)
  (textInputPosition q) (textInputValue q) (fontFamily q) (textAlign q)
  (isDragging q) (dragStart q) (dragElementStart q) (canvasRef q)
  (randomCalls q).

Definition setRandomCalls (v : nat) (q : EditorState) : EditorState :=
  mkEditorState (tool q) (isDrawing q) (currentColor q) (strokeWidth q)
  (fillMode q) (fontSize q) (canvasState q) (history q) (historyIndex q)
  (panOffset q) (zoom q) (isPanning q) (lastPanPoint q) (isEditingText q)
  (textInputPosition q) (textInputValue q) (fontFamily q) (textAlign q)
  (isDragging q) (dragStart q) (dragElementStart q) (canvasRef q) v.


(** ** Handlers as queued updates *)

Definition Update : Type := EditorState -> EditorState.

Definition skip : Update := fun q => q.

Definition andThen (u1 u2 : Update) : Update := fun q => u2 (u1 q).

Notation "u1 ;; u2" := (andThen u1 u2) (at level 61, right associativity).

(** Functional updates: [setX(prev => f(prev))]. *)
Definition updCanvasState (f : CanvasState -> CanvasState) : Update :=
  fun q => setCanvasState (f (canvasState q)) q.

Definition updPanOffset (f : Point.t -> Point.t) : Update :=
  fun q => setPanOffset (f (panOffset q)) q.

Definition updZoom (f : Q -> Q) : Update :=
  fun q => setZoom (f (zoom q)) q.

(** Running a handler in the render [s]: its closure is [s], and its updates
    start from [s]. *)
Definition render (h : EditorState -> Update) (s : EditorState)
  : EditorState := h s s.

Definition emptyCanvasState : CanvasState := mkCanvasState [] None.

(** The initial values of the [useState] calls; [c] is the mounted canvas. *)
Definition initialState (c : option CanvasEl) : EditorState :=
  mkEditorState Tool.select false "#164e63" 2 true 16 emptyCanvasState
    [emptyCanvasState] 0%nat (Point.mk 0 0) 1 false (Point.mk 0 0) false
    (Point.mk 0 0) [] "Arial" TextAlign.left false (Point.mk 0 0)
    (Point.mk 0 0) c 0%nat.

(** The fields of a pointer event the handlers read. *)
Record MouseEvent : Type := mkMouseEvent {
  clientX : Q;
  clientY : Q;
  button : nat;
  ctrlKey : bool
}.

Record WheelEvent : Type := mkWheelEvent {
  wheelCtrlKey : bool;
  deltaY : Q
}.

(** A file handed to the component: its MIME type, the data URL the
    [FileReader] produces and, when the browser can decode it as an image, the
    intrinsic width and height of the decoded image. *)
Record File : Type := mkFile {
  fileType : string;
  dataURL : string;
  decoded : option (Q * Q)
}.

(** *** History *)

(** [saveToHistory]: [history], [historyIndex] and [canvasState] are the
    values of the render the callback was created in. *)
Definition saveToHistory (s : EditorState) : Update :=
  let newHistory :=
    firstn (historyIndex s + 1) (history s) ++ [canvasState s] in
  setHistory newHistory ;;
  setHistoryIndex (List.length newHistory - 1).

(** [undo] and [redo].  [history[i]] outside the array is [undefined]; the
    component cannot render an undefined [canvasState], which is [None]. *)
Definition undo (s : EditorState) : option EditorState :=
  if (0 <? historyIndex s)%nat then
    match nth_error (history s) (historyIndex s - 1) with
    | Some c =>
        Some ((setHistoryIndex (historyIndex s - 1) ;; setCanvasState c) s)
    | None => None
    end
  else Some s.

Definition redo (s : EditorState) : option EditorState :=
  if (historyIndex s <? List.length (history s) - 1)%nat then
    match nth_error (history s) (historyIndex s + 1) with
    | Some c =>
        Some ((setHistoryIndex (historyIndex s + 1) ;; setCanvasState c) s)
    | None => None
    end
  else Some s.

(** *** Viewport *)

Definition handleZoomIn (s : EditorState) : Update :=
  updZoom (fun prev => Qmin (prev * 1.2) 5).

Definition handleZoomOut (s : EditorState) : Update :=
  updZoom (fun prev => Qmax (prev / 1.2) 0.1).

Definition handleZoomReset (s : EditorState) : Update :=
  setZoom 1 ;; setPanOffset (Point.mk 0 0).

Definition handleWheel (s : EditorState) (e : WheelEvent) : Update :=
  if wheelCtrlKey e then
    let delta := if JS.ltb 0 (deltaY e) then 0.9 else 1.1 in
    updZoom (fun prev => Qmin (Qmax (prev * delta) 0.1) 5)
  else skip.

(** [getMousePos]: screen to document coordinates. *)
Definition getMousePos (s : EditorState) (e : MouseEvent) : Point.t :=
  match canvasRef s with
  | None => Point.mk 0 0
  | Some canvas =>
      Point.mk
        ((clientX e - rectLeft canvas - Point.x (panOffset s)) / zoom s)
        ((clientY e - rectTop canvas - Point.y (panOffset s)) / zoom s)
  end.

(** Document to screen coordinates, as the text input overlay is placed
    ([left: textInputPosition.x * zoom + panOffset.x]). *)
Definition toScreen (s : EditorState) (p : Point.t) : Point.t :=
  Point.mk (Point.x p * zoom s + Point.x (panOffset s))
           (Point.y p * zoom s + Point.y (panOffset s)).

(** *** The viewport transform on doubles

    The two conversions on binary64 numbers, the numbers of the code, for
    one coordinate: [toDocument] is a coordinate of [getMousePos] (the
    client position, the left or top edge of the canvas, the pan offset and
    the zoom), [toScreen] a coordinate of the overlay position. *)
Module Double.

Definition toDocument (zoom pan edge client : float) : float :=
  ((client - edge - pan) / zoom)%float.

Definition toScreen (zoom pan document : float) : float :=
  (document * zoom + pan)%float.

(** The decimal literals [1.2] and [7], as the JavaScript parser reads
    them. *)
Definition zoom12 : float := 0x1.3333333333333p+0%float.

Definition seven : float := 7%float.

End Double.

(** [selectedElement], recomputed in every render. *)
Definition idIs (i : option string) (e : DrawingElement.t) : bool :=
  match i with
  | Some j => String.eqb (DrawingElement.id e) j
  | None => false
  end.

Definition selectedElement (s : EditorState) : option DrawingElement.t :=
  find (idIs (selectedElementId (canvasState s))) (elements (canvasState s)).

(** ** The component, over its browser environment *)

Section Editor.

(** [Math.sqrt]. *)
Variable Math_sqrt : Q -> Q.

(** [ctx.measureText(text).width] under the font of the given size and
    family. *)
Variable measureText : Q -> string -> JS.utf16 -> Q.

(** The identifier [Math.random().toString(36).substr(2, 9)] yields at the
    n-th call of [generateId]. *)
Variable randomId : nat -> string.

Definition generateId (k : string -> Update) : Update :=
  fun q => k (randomId (randomCalls q)) (setRandomCalls (S (randomCalls q)) q).

(** *** Creating elements *)

Definition appendSelected (newElement : DrawingElement.t) : Update :=
  updCanvasState (fun prev =>
    mkCanvasState (elements prev ++ [newElement])
                  (Some (DrawingElement.id newElement))).

(** [addElement]. *)
Definition addElement (s : EditorState) (pos : Point.t) : Update :=
  generateId (fun newId =>
    let newElement :=
      DrawingElement.base newId (tool s) (Point.x pos) (Point.y pos)
        (currentColor s) (strokeWidth s) in
    let newElement :=
      match tool s with
      | Tool.brush => DrawingElement.setPoints [pos] newElement
      | Tool.rectangle | Tool.triangle =>
          DrawingElement.setSize 0 0 newElement
      | Tool.circle | Tool.star | Tool.polygon =>
          DrawingElement.setRadius 0 newElement
      | Tool.line =>
          DrawingElement.setEnd (Point.x pos) (Point.y pos) newElement
      | _ => newElement
      end in
    appendSelected newElement).

(** The size [processImageFile] gives an image of intrinsic size
    [width] x [height] on a canvas whose half size is
    [maxWidth] x [maxHeight]. *)
Definition fitImage (maxWidth maxHeight width height : Q) : Q * Q :=
  if (JS.ltb maxWidth width || JS.ltb maxHeight height)%bool then
    let ratio := Qmin (maxWidth / width) (maxHeight / height) in
    (width * ratio, height * ratio)
  else (width, height).

(** [processImageFile]: the updates [img.onload] queues, as a transformer
    of the state they are applied to.  The reader and the image load after
    the handler has returned, so that state can be a later one than the
    render [s] of the call.  The callback's closure is [s]: colour and
    stroke width are those of [s], and [saveToHistory] writes the history
    snapshot of [s]; the append goes to the document of the state the
    callback finds, and the identifier is drawn when it runs.  [canvasRef]
    is a ref, the same object in every render.  A file that cannot be read
    or decoded never reaches [img.onload]. *)
Definition processImageFile (s : EditorState) (file : File)
    (dropPosition : option Point.t) : Update :=
  match decoded file with
  | None => skip
  | Some (imgWidth, imgHeight) =>
      match canvasRef s with
      | None => skip
      | Some canvas =>
          let maxWidth := canvasWidth canvas * 0.5 in
          let maxHeight := canvasHeight canvas * 0.5 in
          let (width, height) :=
            fitImage maxWidth maxHeight imgWidth imgHeight in
          let x :=
            match dropPosition with
            | Some d => Point.x d - width / 2
            | None => (canvasWidth canvas - width) / 2
            end in
          let y :=
            match dropPosition with
            | Some d => Point.y d - height / 2
            | None => (canvasHeight canvas - height) / 2
            end in
          generateId (fun newId =>
            let newElement :=
              DrawingElement.setImage (dataURL file) width height
                (DrawingElement.base newId Tool.image x y (currentColor s)
                   (strokeWidth s)) in
            appendSelected newElement ;;
            saveToHistory s)
      end
  end.

(** [handleImageUpload], on the first file of the input if there is one,
    with the updates its load callback queues. *)
Definition handleImageUpload (s : EditorState) (file : option File)
  : Update :=
  match file with
  | None => skip
  | Some f =>
      if negb (JS.startsWith (fileType f) "image/") then skip
      else processImageFile s f None
  end.

(** [handleDrop], with the updates its load callback queues.  The drop
    position is computed in the render [s] of the drop. *)
Definition handleDrop (s : EditorState) (e : MouseEvent)
    (files : list File) : Update :=
  let imageFiles :=
    filter (fun file => JS.startsWith (fileType file) "image/") files in
  match imageFiles with
  | [] => skip
  | first :: _ =>
      match canvasRef s with
      | None => skip
      | Some canvas =>
          let dropPosition :=
            Point.mk
              ((clientX e - rectLeft canvas - Point.x (panOffset s))
               / zoom s)
              ((clientY e - rectTop canvas - Point.y (panOffset s))
               / zoom s) in
          processImageFile s first (Some dropPosition)
      end
  end.

(** [completeTextInput]. *)
Definition completeTextInput (s : EditorState) : Update :=
  (match JS.trim (textInputValue s) with
   | [] => skip
   | _ =>
       generateId (fun newId =>
         let newElement :=
           DrawingElement.setText (textInputValue s) (fontSize s)
             (fontFamily s) (textAlign s)
             (DrawingElement.base newId Tool.text
                (Point.x (textInputPosition s))
                (Point.y (textInputPosition s)) (currentColor s)
                (strokeWidth s)) in
         appendSelected newElement ;;
         saveToHistory s)
   end) ;;
  setIsEditingText false ;;
  setTextInputValue [].

(** *** Hit test *)

Definition distance (ax ay bx by_ : Q) : Q :=
  Math_sqrt ((ax - bx) ^ 2 + (ay - by_) ^ 2).

(** One iteration of the loop of [findElementAtPosition]: [true] when the
    iteration returns [element.id], [false] when it goes on to the next
    element. *)
Definition hitElement (canvas : option CanvasEl) (pos : Point.t)
    (element : DrawingElement.t) : bool :=
  let ex := DrawingElement.x element in
  let ey := DrawingElement.y element in
  if negb (JS.truthyBool (DrawingElement.visible element)) then false
  else
    match DrawingElement.type element with
    | Tool.rectangle | Tool.triangle =>
        let width := JS.orNum (DrawingElement.width element) 0 in
        let height := JS.orNum (DrawingElement.height element) 0 in
        let minX := if JS.leb 0 width then ex else ex + width in
        let maxX := if JS.leb 0 width then ex + width else ex in
        let minY := if JS.leb 0 height then ey else ey + height in
        let maxY := if JS.leb 0 height then ey + height else ey in
        (JS.leb minX (Point.x pos) && JS.leb (Point.x pos) maxX
         && JS.leb minY (Point.y pos) && JS.leb (Point.y pos) maxY)%bool
    | Tool.circle | Tool.star | Tool.polygon =>
        JS.leb (distance (Point.x pos) (Point.y pos) ex ey)
               (JS.orNum (DrawingElement.radius element) 0)
    | Tool.line =>
        let x1 := ex in
        let y1 := ey in
        let x2 := JS.orNum (DrawingElement.endX element) ex in
        let y2 := JS.orNum (DrawingElement.endY element) ey in
        let A := Point.x pos - x1 in
        let B := Point.y pos - y1 in
        let C := x2 - x1 in
        let D := y2 - y1 in
        let dot := A * C + B * D in
        let lenSq := C * C + D * D in
        if JS.eqb lenSq 0 then false
        else
          let param := dot / lenSq in
          let (xx, yy) :=
            if JS.ltb param 0 then (x1, y1)
            else if JS.ltb 1 param then (x2, y2)
            else (x1 + param * C, y1 + param * D) in
          let dx := Point.x pos - xx in
          let dy := Point.y pos - yy in
          JS.leb (Math_sqrt (dx * dx + dy * dy))
                 (Qmax (DrawingElement.strokeWidth element / 2) 8)
    | Tool.text =>
        match DrawingElement.text element, canvas with
        | Some (c :: r), Some cv =>
            if hasContext2d cv then
              let txt := c :: r in
              let textWidth :=
                measureText
                  (JS.orNum (DrawingElement.fontSize element) 16)
                  (JS.orStr (DrawingElement.fontFamily element) "Arial")
                  txt in
              let textHeight :=
                JS.orNum (DrawingElement.fontSize element) 16 in
              (JS.leb ex (Point.x pos)
               && JS.leb (Point.x pos) (ex + textWidth)
               && JS.leb (ey - textHeight) (Point.y pos)
               && JS.leb (Point.y pos) (ey + 4))%bool
            else false
        | _, _ => false
        end
    | Tool.image =>
        let width :=
          JS.orNum (DrawingElement.width element)
            (JS.orNum (DrawingElement.imageWidth element) 0) in
        let height :=
          JS.orNum (DrawingElement.height element)
            (JS.orNum (DrawingElement.imageHeight element) 0) in
        (JS.leb ex (Point.x pos) && JS.leb (Point.x pos) (ex + width)
         && JS.leb ey (Point.y pos) && JS.leb (Point.y pos) (ey + height))%bool
    | Tool.brush =>
        match DrawingElement.points element with
        | Some pts =>
            existsb
              (fun point =>
                 JS.leb
                   (distance (Point.x pos) (Point.y pos) (Point.x point)
                      (Point.y point))
                   (Qmax (DrawingElement.strokeWidth element) 8))
              pts
        | None => false
        end
    | Tool.select | Tool.pan => false
    end.

(** The loop [for (let i = length - 1; i >= 0; i--)], with [n = i + 1]. *)
Fixpoint findElementFrom (canvas : option CanvasEl)
    (els : list DrawingElement.t) (pos : Point.t) (n : nat)
  : option string :=
  match n with
  | O => None
  | S i =>
      match nth_error els i with
      | Some element =>
          if hitElement canvas pos element
          then Some (DrawingElement.id element)
          else findElementFrom canvas els pos i
      | None => None
      end
  end.

(** [findElementAtPosition]. *)
Definition findElementAtPosition (s : EditorState) (pos : Point.t)
  : option string :=
  findElementFrom (canvasRef s) (elements (canvasState s)) pos
    (List.length (elements (canvasState s))).

(** *** Pointer handlers *)

(** [handleMouseDown] after its text-editing guard: panning, then the tool
    dispatch. *)
Definition mouseDownDispatch (s : EditorState) (e : MouseEvent) : Update :=
  if ((button e =? 1)%nat
      || ((button e =? 0)%nat
          && (ctrlKey e || Tool.eqb (tool s) Tool.pan)))%bool
  then
    setIsPanning true ;;
    setLastPanPoint (Point.mk (clientX e) (clientY e))
  else
    let pos := getMousePos s e in
    setIsDrawing true ;;
    match tool s with
    | Tool.image => skip
    | Tool.select =>
        let elementId := findElementAtPosition s pos in
        updCanvasState (fun prev => mkCanvasState (elements prev) elementId) ;;
        if JS.truthyStr elementId then
          match find (idIs elementId) (elements (canvasState s)) with
          | Some element =>
              setIsDragging true ;;
              setDragStart pos ;;
              setDragElementStart
                (Point.mk (DrawingElement.x element)
                          (DrawingElement.y element))
          | None => skip
          end
        else skip
    | Tool.text =>
        setIsEditingText true ;;
        setTextInputPosition pos ;;
        setTextInputValue []
    | _ => addElement s pos
    end.

(** [handleMouseDown]. *)
Definition handleMouseDown (s : EditorState) (e : MouseEvent) : Update :=
  if isEditingText s then completeTextInput s
  else mouseDownDispatch s e.

(** The element a drag move puts in place of the selected [element]. *)
Definition dragElement (s : EditorState) (deltaX deltaY : Q)
    (element : DrawingElement.t) : DrawingElement.t :=
  let nx := Point.x (dragElementStart s) + deltaX in
  let ny := Point.y (dragElementStart s) + deltaY in
  match DrawingElement.type element with
  | Tool.line =>
      DrawingElement.setEnd
        (JS.orNum (DrawingElement.endX element) (DrawingElement.x element)
         + deltaX)
        (JS.orNum (DrawingElement.endY element) (DrawingElement.y element)
         + deltaY)
        (DrawingElement.setXY nx ny element)
  | _ => DrawingElement.setXY nx ny element
  end.

(** The live resize of the element being drawn.  The code writes into the
    object held by the last slot of a copy of the array; here the last slot
    receives the rewritten element.  Only geometry fields are written.
    During a draw gesture the object is the one [addElement] has just
    created, which no history entry holds yet; when the draw flag outlives
    the gesture it can be an object that history entries hold too, and the
    write then shows in them as well ([Shared] below). *)
Definition resizeElement (s : EditorState) (pos : Point.t)
    (currentElement : DrawingElement.t) : DrawingElement.t :=
  match tool s, DrawingElement.points currentElement with
  | Tool.brush, Some pts =>
      DrawingElement.setPoints (pts ++ [pos]) currentElement
  | Tool.rectangle, _ | Tool.triangle, _ =>
      DrawingElement.setSize
        (Point.x pos - DrawingElement.x currentElement)
        (Point.y pos - DrawingElement.y currentElement) currentElement
  | Tool.circle, _ | Tool.star, _ | Tool.polygon, _ =>
      DrawingElement.setRadius
        (distance (Point.x pos) (Point.y pos)
           (DrawingElement.x currentElement)
           (DrawingElement.y currentElement))
        currentElement
  | Tool.line, _ =>
      DrawingElement.setEnd (Point.x pos) (Point.y pos) currentElement
  | _, _ => currentElement
  end.

(** [handleMouseMove]. *)
Definition handleMouseMove (s : EditorState) (e : MouseEvent) : Update :=
  if isPanning s then
    let deltaX := clientX e - Point.x (lastPanPoint s) in
    let deltaY := clientY e - Point.y (lastPanPoint s) in
    updPanOffset (fun prev =>
      Point.mk (Point.x prev + deltaX) (Point.y prev + deltaY)) ;;
    setLastPanPoint (Point.mk (clientX e) (clientY e))
  else if (isDragging s
           && JS.truthyStr (selectedElementId (canvasState s)))%bool then
    let pos := getMousePos s e in
    let deltaX := Point.x pos - Point.x (dragStart s) in
    let deltaY := Point.y pos - Point.y (dragStart s) in
    updCanvasState (fun prev =>
      mkCanvasState
        (map (fun element =>
                if idIs (selectedElementId prev) element
                then dragElement s deltaX deltaY element
                else element)
             (elements prev))
        (selectedElementId prev))
  else if negb (isDrawing s) then skip
  else
    let pos := getMousePos s e in
    updCanvasState (fun prev =>
      match List.rev (elements prev) with
      | [] => prev
      | currentElement :: before =>
          mkCanvasState
            (List.rev before ++ [resizeElement s pos currentElement])
            (selectedElementId prev)
      end).

(** [handleMouseUp]. *)
Definition handleMouseUp (s : EditorState) : Update :=
  setIsPanning false ;;
  (if isDragging s then setIsDragging false ;; saveToHistory s else skip) ;;
  (if isDrawing s then saveToHistory s else skip) ;;
  setIsDrawing false.

(** *** Properties panel *)

(** [updateSelectedElement]. *)
Definition updateSelectedElement (s : EditorState) (updates : Partial.t)
  : Update :=
  if negb (JS.truthyStr (selectedElementId (canvasState s))) then skip
  else
    updCanvasState (fun prev =>
      mkCanvasState
        (map (fun element =>
                if idIs (selectedElementId prev) element
                then Partial.merge element updates
                else element)
             (elements prev))
        (selectedElementId prev)) ;;
    saveToHistory s.

(** [deleteSelectedElement]. *)
Definition deleteSelectedElement (s : EditorState) : Update :=
  if negb (JS.truthyStr (selectedElementId (canvasState s))) then skip
  else
    updCanvasState (fun prev =>
      mkCanvasState
        (filter (fun element => negb (idIs (selectedElementId prev) element))
                (elements prev))
        None) ;;
    saveToHistory s.

(** The controls of [PropertiesPanel] and the update each one sends. *)
Inductive PanelEdit : Type :=
| EditX (v : Q) | EditY (v : Q)
| EditWidth (v : Q) | EditHeight (v : Q) | EditRadius (v : Q)
| EditColor (v : string) | EditStrokeWidth (v : Q)
| EditText (v : JS.utf16) | EditFontSize (v : Q)
| EditFontFamily (v : string) | EditTextAlign (v : TextAlign.t)
| Rotate | FlipX | FlipY.

Definition withX v : Partial.t :=
  Partial.mk None None (Some v) None None None None None None None None
    None None None None None None None None None None None None None.
Definition withY v : Partial.t :=
  Partial.mk None None None (Some v) None None None None None None None
    None None None None None None None None None None None None None.
Definition withColor v : Partial.t :=
  Partial.mk None None None None (Some v) None None None None None None
    None None None None None None None None None None None None None.
Definition withStrokeWidth v : Partial.t :=
  Partial.mk None None None None None (Some v) None None None None None
    None None None None None None None None None None None None None.
Definition withWidth v : Partial.t :=
  Partial.mk None None None None None None None (Some v) None None None
    None None None None None None None None None None None None None.
Definition withHeight v : Partial.t :=
  Partial.mk None None None None None None None None (Some v) None None
    None None None None None None None None None None None None None.
Definition withRadius v : Partial.t :=
  Partial.mk None None None None None None None None None (Some v) None
    None None None None None None None None None None None None None.
Definition withText v : Partial.t :=
  Partial.mk None None None None None None None None None None None None
    (Some v) None None None None None None None None None None None.
Definition withFontSize v : Partial.t :=
  Partial.mk None None None None None None None None None None None None
    None (Some v) None None None None None None None None None None.
Definition withFontFamily v : Partial.t :=
  Partial.mk None None None None None None None None None None None None
    None None (Some v) None None None None None None None None None.
Definition withTextAlign v : Partial.t :=
  Partial.mk None None None None None None None None None None None None
    None None None (Some v) None None None None None None None None.
Definition withRotation v : Partial.t :=
  Partial.mk None None None None None None None None None None None None
    None None None None None None None None None (Some v) None None.
Definition withFlipX v : Partial.t :=
  Partial.mk None None None None None None None None None None None None
    None None None None None None None None None None (Some v) None.
Definition withFlipY v : Partial.t :=
  Partial.mk None None None None None None None None None None None None
    None None None None None None None None None None None (Some v).

Definition panelUpdates (sel : DrawingElement.t) (p : PanelEdit)
  : Partial.t :=
  match p with
  | EditX v => withX v
  | EditY v => withY v
  | EditWidth v => withWidth v
  | EditHeight v => withHeight v
  | EditRadius v => withRadius v
  | EditColor v => withColor v
  | EditStrokeWidth v => withStrokeWidth v
  | EditText v => withText v
  | EditFontSize v => withFontSize v
  | EditFontFamily v => withFontFamily v
  | EditTextAlign v => withTextAlign v
  | Rotate =>
      withRotation
        (JS.rem (JS.orNum (DrawingElement.rotation sel) 0 + 90) 360)
  | FlipX => withFlipX (negb (JS.truthyBool (DrawingElement.flipX sel)))
  | FlipY => withFlipY (negb (JS.truthyBool (DrawingElement.flipY sel)))
  end.

(** Which controls the panel renders for the selected element. *)
Definition panelShows (sel : DrawingElement.t) (p : PanelEdit) : bool :=
  let ty := DrawingElement.type sel in
  match p with
  | EditWidth _ | EditHeight _ =>
      (Tool.eqb ty Tool.rectangle || Tool.eqb ty Tool.triangle
       || Tool.eqb ty Tool.image)%bool
  | EditRadius _ =>
      (Tool.eqb ty Tool.circle || Tool.eqb ty Tool.star
       || Tool.eqb ty Tool.polygon)%bool
  | EditStrokeWidth _ =>
      (negb (Tool.eqb ty Tool.text) && negb (Tool.eqb ty Tool.image))%bool
  | EditText _ | EditFontSize _ | EditFontFamily _ | EditTextAlign _ =>
      Tool.eqb ty Tool.text
  | _ => true
  end.

(** *** Events *)

Inductive Key : Type := Enter | Escape | OtherKey.

(** What the user and the browser can deliver to the component. *)
Inductive Event : Type :=
| MouseDown (e : MouseEvent)
| MouseMove (e : MouseEvent)
| MouseUp
| Wheel (e : WheelEvent)
| Drop (e : MouseEvent) (files : list File)
| ImageUpload (file : option File)
| ToolChange (t : Tool.t)
| FillModeChange (b : bool)
| Undo | Redo | ZoomIn | ZoomOut | ZoomReset
| TextChange (v : JS.utf16)
| TextKeyDown (k : Key)
| TextBlur
| PanelUpdate (p : PanelEdit)
| PanelDelete.

(** The next render after an event; [None] when the component cannot render
    it.  The text input exists only while [isEditingText]; the panel's
    controls exist only for a selected element.  An event for a control
    that is not rendered is not delivered and leaves the state as it is.
    [Drop] and [ImageUpload] stand for the event together with the load of
    its file, completed before another event is handled; a load callback
    that runs later is [processImageFile] with the closure of an earlier
    render, which [Shared] below adds. *)
Definition step (s : EditorState) (ev : Event) : option EditorState :=
  match ev with
  | MouseDown e => Some (render (fun s => handleMouseDown s e) s)
  | MouseMove e => Some (render (fun s => handleMouseMove s e) s)
  | MouseUp => Some (render handleMouseUp s)
  | Wheel e => Some (render (fun s => handleWheel s e) s)
  | Drop e files => Some (render (fun s => handleDrop s e files) s)
  | ImageUpload file => Some (render (fun s => handleImageUpload s file) s)
  | ToolChange t => Some (setTool t s)
  | FillModeChange b => Some (setFillMode b s)
  | Undo => undo s
  | Redo => redo s
  | ZoomIn => Some (render handleZoomIn s)
  | ZoomOut => Some (render handleZoomOut s)
  | ZoomReset => Some (render handleZoomReset s)
  | TextChange v =>
      if isEditingText s then Some (setTextInputValue v s) else Some s
  | TextKeyDown k =>
      if isEditingText s then
        match k with
        | Enter => Some (render completeTextInput s)
        | Escape => Some ((setIsEditingText false ;; setTextInputValue []) s)
        | OtherKey => Some s
        end
      else Some s
  | TextBlur =>
      if isEditingText s then Some (render completeTextInput s) else Some s
  | PanelUpdate p =>
      match selectedElement s with
      | Some sel =>
          if panelShows sel p
          then Some (render (fun s =>
                       updateSelectedElement s (panelUpdates sel p)) s)
          else Some s
      | None => Some s
      end
  | PanelDelete =>
      match selectedElement s with
      | Some _ => Some (render deleteSelectedElement s)
      | None => Some s
      end
  end.

(** A sequence of events, each handled in the render the previous one
    produced. *)
Fixpoint run (s : EditorState) (evs : list Event) : option EditorState :=
  match evs with
  | [] => Some s
  | ev :: rest =>
      match step s ev with
      | Some s' => run s' rest
      | None => None
      end
  end.

Definition Reachable (c : option CanvasEl) (s : EditorState) : Prop :=
  exists evs, run (initialState c) evs = Some s.

End Editor.

(** ** Vocabulary of the properties *)

(** The identifiers of a document, in paint order. *)
Definition ids (cs : CanvasState) : list string :=
  map DrawingElement.id (elements cs).

(** Two points with equal coordinates. *)
Definition samePoint (p q : Point.t) : Prop :=
  Point.x p == Point.x q /\ Point.y p == Point.y q.

(** The segment vector of a line element, [(endX - x, endY - y)]; an end
    point that is not set is the anchor. *)
Definition segmentVector (e : DrawingElement.t) : Q * Q :=
  (Partial.req (DrawingElement.endX e) (DrawingElement.x e)
   - DrawingElement.x e,
   Partial.req (DrawingElement.endY e) (DrawingElement.y e)
   - DrawingElement.y e).

(** A commit of the document [doc]: the render shows [doc] and
    [saveToHistory] runs in it, as [handleMouseUp] does at the end of a
    gesture. *)
Definition commit (doc : CanvasState) (s : EditorState) : EditorState :=
  render saveToHistory (setCanvasState doc s).

Definition commits (docs : list CanvasState) (s : EditorState)
  : EditorState :=
  fold_left (fun st doc => commit doc st) docs s.

Fixpoint undos (k : nat) (s : EditorState) : option EditorState :=
  match k with
  | O => Some s
  | S k' =>
      match undo s with
      | Some s' => undos k' s'
      | None => None
      end
  end.

(** [index < length]: the history invariant of the data model. *)
Definition historyValid (s : EditorState) : Prop :=
  (historyIndex s < List.length (history s))%nat.

(** The document on screen is the history entry the index points at. *)
Definition historySynced (s : EditorState) : Prop :=
  nth_error (history s) (historyIndex s) = Some (canvasState s).

(** How one event may change the list of identifiers of the document whose
    selection is [sel]: not at all, by one identifier appended, or by the
    selected identifier removed. *)
Definition removeId (sel : option string) (l : list string) : list string :=
  filter (fun i =>
            negb match sel with
                 | Some j => String.eqb i j
                 | None => false
                 end) l.

Inductive idsEvolve (sel : option string) (old : list string)
  : list string -> Prop :=
| ids_kept : idsEvolve sel old old
| ids_appended (n : string) : idsEvolve sel old (old ++ [n])
| ids_removed : idsEvolve sel old (removeId sel old).

(** The identifiers of [cs] are pairwise distinct and each of them is one of
    the first [n] values of the generator. *)
Definition known (randomId : nat -> string) (n : nat) (cs : CanvasState)
  : Prop :=
  NoDup (ids cs)
  /\ forall i, In i (ids cs) -> exists k, (k < n)%nat /\ i = randomId k.

(** [known] for the document on screen and for every history entry. *)
Definition idsInv (randomId : nat -> string) (s : EditorState) : Prop :=
  known randomId (randomCalls s) (canvasState s)
  /\ Forall (known randomId (randomCalls s)) (history s).

(** What one event does to the identifiers of the document and to the
    generator: nothing; one generated identifier appended; the selected
    identifier removed; the document replaced by a history entry. *)
Inductive docEffect (randomId : nat -> string) (s s' : EditorState) : Prop :=
| doc_kept :
    ids (canvasState s') = ids (canvasState s) ->
    randomCalls s' = randomCalls s -> docEffect randomId s s'
| doc_appended :
    ids (canvasState s')
    = ids (canvasState s) ++ [randomId (randomCalls s)] ->
    randomCalls s' = S (randomCalls s) -> docEffect randomId s s'
| doc_removed :
    ids (canvasState s')
    = removeId (selectedElementId (canvasState s)) (ids (canvasState s)) ->
    randomCalls s' = randomCalls s -> docEffect randomId s s'
| doc_restored :
    In (canvasState s') (history s) ->
    randomCalls s' = randomCalls s -> docEffect randomId s s'.

(** What one event does to the history: nothing; one commit of the document
    of its render, after which the index is the last position; or (undo and
    redo) a move of the index within the history. *)
Inductive historyEffect (s s' : EditorState) : Prop :=
| hist_kept :
    history s' = history s ->
    historyIndex s' = historyIndex s -> historyEffect s s'
| hist_committed :
    history s'
    = firstn (historyIndex s + 1) (history s) ++ [canvasState s] ->
    (historyIndex s' + 1)%nat = List.length (history s') ->
    historyEffect s s'
| hist_moved :
    history s' = history s ->
    (historyIndex s' < List.length (history s))%nat -> historyEffect s s'.

Ltac solve_history :=
  first
    [ apply hist_kept; reflexivity
    | apply hist_committed;
      [reflexivity | simpl; rewrite length_app; simpl; lia] ].

(** The pointer-down the specification describes for the text-editing state:
    the pending text is finalized and the rest of [handleMouseDown] then runs
    for the same event. *)
Definition fallThroughMouseDown (randomId : nat -> string)
    (Math_sqrt : Q -> Q) (measureText : Q -> string -> JS.utf16 -> Q)
    (s : EditorState) (e : MouseEvent) : Update :=
  completeTextInput randomId s ;;
  mouseDownDispatch Math_sqrt measureText randomId s e.

(** ** A concrete environment for the scenarios *)

Module Scenario.

Definition canvas : option CanvasEl := Some (mkCanvasEl 0 0 800 600 true).

(** A font in which every character is half as wide as the font size. *)
Definition measure (size : Q) (family : string) (txt : JS.utf16) : Q :=
  size * 0.5 * inject_Z (Z.of_nat (List.length txt)).

(** A generator that never repeats: [x], [xx], [xxx], ... *)
Fixpoint freshIds (n : nat) : string :=
  match n with
  | O => "x"
  | S k => String "x" (freshIds k)
  end.

(** A generator that returns the same value at every call. *)
Definition sameIds (n : nat) : string := "a".

Definition down (px py : Q) : MouseEvent := mkMouseEvent px py 0 false.

Definition runFresh : EditorState -> list Event -> option EditorState :=
  run JS.sqrtFloor measure freshIds.

Definition runSame : EditorState -> list Event -> option EditorState :=
  run JS.sqrtFloor measure sameIds.

Definition png (w h : Q) : File :=
  mkFile "image/png" "data:image/png;base64,AA" (Some (w, h)).

(** Two rectangles drawn one after the other. *)
Definition twoRectangles : list Event :=
  [ToolChange Tool.rectangle;
   MouseDown (down 10 10); MouseMove (down 20 20); MouseUp;
   MouseDown (down 30 30); MouseMove (down 40 40); MouseUp].

(** An empty document whose selection is [i]. *)
Definition doc (i : string) : CanvasState := mkCanvasState [] (Some i).

(** The text "hi". *)
Definition hi : JS.utf16 := JS.ofString "hi".

Definition txt : File :=
  mkFile "text/plain" "data:text/plain;base64,AA" None.

End Scenario.

(** ** The region of an element

    Where the hit test finds an element, as plane geometry: a closed box, a
    disc, a band around a segment, the union of discs around the recorded
    points of a stroke.  [Math.sqrt] and the text measure are those of the
    browser. *)

Definition within (lo hi v : Q) : Prop := lo <= v /\ v <= hi.

(** The point of the segment from [a] to [b] nearest to [p]: the projection
    of [p] on the line through both, clamped to the segment. *)
Definition nearestOnSegment (a b p : Point.t) : Point.t :=
  let cx := Point.x b - Point.x a in
  let cy := Point.y b - Point.y a in
  let t :=
    ((Point.x p - Point.x a) * cx + (Point.y p - Point.y a) * cy)
    / (cx * cx + cy * cy) in
  if Qlt_le_dec t 0 then a
  else if Qlt_le_dec 1 t then b
  else Point.mk (Point.x a + t * cx) (Point.y a + t * cy).

(** The end point of a line element; a coordinate that is not set, or is
    zero, reads as the one of the anchor. *)
Definition endPoint (el : DrawingElement.t) : Point.t :=
  Point.mk (JS.orNum (DrawingElement.endX el) (DrawingElement.x el))
           (JS.orNum (DrawingElement.endY el) (DrawingElement.y el)).

Definition contains (Math_sqrt : Q -> Q)
    (measureText : Q -> string -> JS.utf16 -> Q) (canvas : option CanvasEl)
    (pos : Point.t) (el : DrawingElement.t) : Prop :=
  let x := DrawingElement.x el in
  let y := DrawingElement.y el in
  match DrawingElement.type el with
  | Tool.rectangle | Tool.triangle =>
      let w := JS.orNum (DrawingElement.width el) 0 in
      let h := JS.orNum (DrawingElement.height el) 0 in
      within (Qmin x (x + w)) (Qmax x (x + w)) (Point.x pos)
      /\ within (Qmin y (y + h)) (Qmax y (y + h)) (Point.y pos)
  | Tool.circle | Tool.star | Tool.polygon =>
      Math_sqrt ((Point.x pos - x) ^ 2 + (Point.y pos - y) ^ 2)
      <= JS.orNum (DrawingElement.radius el) 0
  | Tool.line =>
      let a := Point.mk x y in
      let b := endPoint el in
      let n := nearestOnSegment a b pos in
      let dx := Point.x pos - Point.x n in
      let dy := Point.y pos - Point.y n in
      ~ (Point.x b - x) * (Point.x b - x) + (Point.y b - y) * (Point.y b - y)
        == 0
      /\ Math_sqrt (dx * dx + dy * dy)
         <= Qmax (DrawingElement.strokeWidth el / 2) 8
  | Tool.text =>
      exists cv t,
        canvas = Some cv /\ hasContext2d cv = true
        /\ DrawingElement.text el = Some t /\ t <> []
        /\ within x
             (x + measureText (JS.orNum (DrawingElement.fontSize el) 16)
                    (JS.orStr (DrawingElement.fontFamily el) "Arial") t)
             (Point.x pos)
        /\ within (y - JS.orNum (DrawingElement.fontSize el) 16) (y + 4)
             (Point.y pos)
  | Tool.image =>
      let w :=
        JS.orNum (DrawingElement.width el)
          (JS.orNum (DrawingElement.imageWidth el) 0) in
      let h :=
        JS.orNum (DrawingElement.height el)
          (JS.orNum (DrawingElement.imageHeight el) 0) in
      within x (x + w) (Point.x pos) /\ within y (y + h) (Point.y pos)
  | Tool.brush =>
      exists pts p,
        DrawingElement.points el = Some pts /\ In p pts
        /\ Math_sqrt ((Point.x pos - Point.x p) ^ 2
                      + (Point.y pos - Point.y p) ^ 2)
           <= Qmax (DrawingElement.strokeWidth el) 8
  | Tool.select | Tool.pan => False
  end.

(** The hit test finds [el] at [pos]: the element is flagged visible and its
    region contains the point. *)
Definition hits (Math_sqrt : Q -> Q)
    (measureText : Q -> string -> JS.utf16 -> Q) (canvas : option CanvasEl)
    (pos : Point.t) (el : DrawingElement.t) : Prop :=
  DrawingElement.visible el = Some true
  /\ contains Math_sqrt measureText canvas pos el.

(** ** Vocabulary of the further properties *)

(** The element [addElement] builds with the tool [t] at [pos]. *)
Definition newShape (t : Tool.t) (i : string) (pos : Point.t) (c : string)
    (sw : Q) : DrawingElement.t :=
  let newElement :=
    DrawingElement.base i t (Point.x pos) (Point.y pos) c sw in
  match t with
  | Tool.brush => DrawingElement.setPoints [pos] newElement
  | Tool.rectangle | Tool.triangle => DrawingElement.setSize 0 0 newElement
  | Tool.circle | Tool.star | Tool.polygon =>
      DrawingElement.setRadius 0 newElement
  | Tool.line => DrawingElement.setEnd (Point.x pos) (Point.y pos) newElement
  | _ => newElement
  end.

(** The element [completeTextInput] builds in the render [s]. *)
Definition newText (s : EditorState) (i : string) : DrawingElement.t :=
  DrawingElement.setText (textInputValue s) (fontSize s) (fontFamily s)
    (textAlign s)
    (DrawingElement.base i Tool.text (Point.x (textInputPosition s))
       (Point.y (textInputPosition s)) (currentColor s) (strokeWidth s)).

(** The element [processImageFile] builds in the render [s]. *)
Definition newImage (s : EditorState) (i data : string) (px py w h : Q)
  : DrawingElement.t :=
  DrawingElement.setImage data w h
    (DrawingElement.base i Tool.image px py (currentColor s) (strokeWidth s)).

(** The elements an event can append to the document of the render [s]. *)
Inductive Created (randomId : nat -> string) (s : EditorState)
  : DrawingElement.t -> Prop :=
| created_shape (pos : Point.t) :
    tool s <> Tool.select -> tool s <> Tool.text -> tool s <> Tool.image ->
    Created randomId s
      (newShape (tool s) (randomId (randomCalls s)) pos (currentColor s)
         (strokeWidth s))
| created_text :
    JS.trim (textInputValue s) <> [] ->
    Created randomId s (newText s (randomId (randomCalls s)))
| created_image (closure : EditorState) (data : string) (px py w h : Q) :
    Created randomId s
      (newImage closure (randomId (randomCalls s)) data px py w h).

(** The rewritings an event can apply to the selected element in the render
    [s]: a drag move, or an update sent by a control of the panel. *)
Inductive Modifier (s : EditorState)
  : (DrawingElement.t -> DrawingElement.t) -> Prop :=
| modifier_drag (dx dy : Q) : Modifier s (dragElement s dx dy)
| modifier_panel (sel : DrawingElement.t) (p : PanelEdit) :
    selectedElement s = Some sel ->
    Modifier s (fun e => Partial.merge e (panelUpdates sel p)).

(** What one event does to the document. *)
Inductive docStep (Math_sqrt : Q -> Q)
    (measureText : Q -> string -> JS.utf16 -> Q) (randomId : nat -> string)
    (s s' : EditorState) : Prop :=
| doc_same : canvasState s' = canvasState s ->
    docStep Math_sqrt measureText randomId s s'
| doc_selected (pos : Point.t) :
    canvasState s'
    = mkCanvasState (elements (canvasState s))
        (findElementAtPosition Math_sqrt measureText s pos) ->
    docStep Math_sqrt measureText randomId s s'
| doc_created (el : DrawingElement.t) :
    Created randomId s el ->
    canvasState s'
    = mkCanvasState (elements (canvasState s) ++ [el])
        (Some (DrawingElement.id el)) ->
    docStep Math_sqrt measureText randomId s s'
| doc_modified (f : DrawingElement.t -> DrawingElement.t) :
    Modifier s f ->
    canvasState s'
    = mkCanvasState
        (map (fun e =>
                if idIs (selectedElementId (canvasState s)) e then f e else e)
             (elements (canvasState s)))
        (selectedElementId (canvasState s)) ->
    docStep Math_sqrt measureText randomId s s'
| doc_resized (pos : Point.t) (before : list DrawingElement.t)
    (cur : DrawingElement.t) :
    elements (canvasState s) = before ++ [cur] ->
    canvasState s'
    = mkCanvasState (before ++ [resizeElement Math_sqrt s pos cur])
        (selectedElementId (canvasState s)) ->
    docStep Math_sqrt measureText randomId s s'
| doc_deleted :
    canvasState s'
    = mkCanvasState
        (filter (fun e => negb (idIs (selectedElementId (canvasState s)) e))
                (elements (canvasState s)))
        None ->
    docStep Math_sqrt measureText randomId s s'
| doc_undone :
    In (canvasState s') (history s) ->
    docStep Math_sqrt measureText randomId s s'.

(** *** Writes into shared objects

    The live resize of [handleMouseMove] writes into the element object in
    the last slot of the document ([currentElement.width = ...],
    [currentElement.points.push(pos)]).  Element objects and their [points]
    arrays are shared: [saveToHistory] pushes a shallow copy of the document,
    [undo] and [redo] show a history entry itself, and a drag or a property
    update copies an element together with its [points] array.  During a draw
    gesture the written object is the one [addElement] has just created;
    outside one (the button released off the canvas, then another tool
    chosen) the object can also be held by history entries, and these then
    show the write as well.  [step] rewrites the document; [shows] relates a
    history entry to what it reads as after such writes.

    The load callback of an image runs after its handler has returned,
    possibly renders later, with the closure of the render of the drop or
    upload.

    [Shared] are the states reached from the initial one by events, by
    writes showing in the history, and by load callbacks that run with the
    closure of any state reached before. *)
Definition wrote (Math_sqrt : Q -> Q) (e e' : DrawingElement.t) : Prop :=
  e' = e \/ exists s pos, e' = resizeElement Math_sqrt s pos e.

Definition shows (Math_sqrt : Q -> Q) (cs cs' : CanvasState) : Prop :=
  selectedElementId cs' = selectedElementId cs
  /\ Forall2 (wrote Math_sqrt) (elements cs) (elements cs').

Inductive Shared (Math_sqrt : Q -> Q)
    (measureText : Q -> string -> JS.utf16 -> Q) (randomId : nat -> string)
    (c : option CanvasEl) : EditorState -> Prop :=
| shared_initial : Shared Math_sqrt measureText randomId c (initialState c)
| shared_step (s : EditorState) (ev : Event) (s' : EditorState) :
    Shared Math_sqrt measureText randomId c s ->
    step Math_sqrt measureText randomId s ev = Some s' ->
    Shared Math_sqrt measureText randomId c s'
| shared_write (s : EditorState) (h' : list CanvasState) :
    Shared Math_sqrt measureText randomId c s ->
    Forall2 (shows Math_sqrt) (history s) h' ->
    Shared Math_sqrt measureText randomId c (setHistory h' s)
| shared_load (closure s : EditorState) (file : File)
    (dropPosition : option Point.t) :
    Shared Math_sqrt measureText randomId c closure ->
    Shared Math_sqrt measureText randomId c s ->
    Shared Math_sqrt measureText randomId c
      (processImageFile randomId closure file dropPosition s).

(** The selection is null or the identifier of an element of the document. *)
Definition selectionOK (cs : CanvasState) : Prop :=
  match selectedElementId cs with
  | None => True
  | Some i => In i (ids cs)
  end.

Definition isSome {A} (o : option A) : bool :=
  match o with Some _ => true | None => false end.

(** The element is flagged visible and carries the geometry fields the
    renderer and the hit test read for its type. *)
Definition complete (e : DrawingElement.t) : bool :=
  (JS.truthyBool (DrawingElement.visible e)
   && match DrawingElement.type e with
      | Tool.rectangle | Tool.triangle =>
          isSome (DrawingElement.width e) && isSome (DrawingElement.height e)
      | Tool.circle | Tool.star | Tool.polygon =>
          isSome (DrawingElement.radius e)
      | Tool.line =>
          isSome (DrawingElement.endX e) && isSome (DrawingElement.endY e)
      | Tool.brush =>
          match DrawingElement.points e with
          | Some (_ :: _) => true
          | _ => false
          end
      | Tool.text => isSome (DrawingElement.text e)
      | Tool.image =>
          isSome (DrawingElement.imageData e)
          && isSome (DrawingElement.width e)
          && isSome (DrawingElement.height e)
      | Tool.select | Tool.pan => true
      end)%bool.

(** The rotation is not set or is a quarter turn. *)
Definition quarterTurn (e : DrawingElement.t) : Prop :=
  match DrawingElement.rotation e with
  | None => True
  | Some r => r == 0 \/ r == 90 \/ r == 180 \/ r == 270
  end.

(** [canUndo] and [canRedo], as passed to the top toolbar. *)
Definition canUndo (s : EditorState) : bool := (0 <? historyIndex s)%nat.

Definition canRedo (s : EditorState) : bool :=
  (historyIndex s <? List.length (history s) - 1)%nat.

(** The zoom is within its clamp. *)
Definition zoomInRange (s : EditorState) : Prop := 0.1 <= zoom s <= 5.

(** The text consists of white space only. *)
Definition blank (s : JS.utf16) : bool := forallb JS.isWhite s.


(** The pointer-down [e] starts a pan in the render [s]: middle button, or
    left button with the control key or the pan tool. *)
Definition startsPan (s : EditorState) (e : MouseEvent) : bool :=
  ((button e =? 1)%nat
   || ((button e =? 0)%nat && (ctrlKey e || Tool.eqb (tool s) Tool.pan)))%bool.

(** The state in the middle of drawing [el], begun in the render [s]. *)
Definition drawingState (s : EditorState) (el : DrawingElement.t)
  : EditorState :=
  setCanvasState
    (mkCanvasState (elements (canvasState s) ++ [el])
       (Some (DrawingElement.id el)))
    (setRandomCalls (S (randomCalls s)) (setIsDrawing true s)).

(** The state in the middle of a pan begun in the render [s], with pan
    offset [P] and last pointer position [L]. *)
Definition panningState (s : EditorState) (P L : Point.t) : EditorState :=
  setLastPanPoint L (setPanOffset P (setIsPanning true s)).

(** The state in the middle of a drag begun in the render [s] at the
    document point [p0] on the element of identifier [i] and anchor [a0],
    with the elements [els]. *)
Definition draggingState (s : EditorState) (i : string) (p0 a0 : Point.t)
    (els : list DrawingElement.t) : EditorState :=
  setDragElementStart a0
    (setDragStart p0
       (setIsDragging true
          (setCanvasState (mkCanvasState els (Some i))
             (setIsDrawing true s)))).

(** The tools that draw a shape from an anchor and the current pointer. *)
Definition isShapeTool (t : Tool.t) : bool :=
  match t with
  | Tool.rectangle | Tool.triangle | Tool.circle | Tool.star | Tool.polygon
  | Tool.line => true
  | _ => false
  end.

(** One pointer-move of a pan on the pair (pan offset, last pointer
    position). *)
Definition panStep (acc : Point.t * Point.t) (e : MouseEvent)
  : Point.t * Point.t :=
  (Point.mk (Point.x (fst acc) + (clientX e - Point.x (snd acc)))
            (Point.y (fst acc) + (clientY e - Point.y (snd acc))),
   Point.mk (clientX e) (clientY e)).

(** One pointer-move of a drag on an element: the drag began in the render
    [s] at the document point [p0] on the element of identifier [i] and
    anchor [a0]. *)
Definition dragStep (s : EditorState) (i : string) (p0 a0 : Point.t)
    (el : DrawingElement.t) (e : MouseEvent) : DrawingElement.t :=
  if idIs (Some i) el
  then dragElement (draggingState s i p0 a0 [])
         (Point.x (getMousePos s e) - Point.x p0)
         (Point.y (getMousePos s e) - Point.y p0) el
  else el.

(** The angle the Rotate control of the panel sends for the selected
    element [sel]. *)
Definition turned (sel : DrawingElement.t) : Q :=
  JS.rem (JS.orNum (DrawingElement.rotation sel) 0 + 90) 360.

(** The document after the panel sent [u] for the selection [i]. *)
Definition updatedDoc (s : EditorState) (i : string) (u : Partial.t)
  : CanvasState :=
  mkCanvasState
    (map (fun e => if idIs (Some i) e then Partial.merge e u else e)
       (elements (canvasState s)))
    (Some i).

(** ** A session to read the further properties on *)

Module Session.

(** A rectangle is drawn, dragged and rotated twice, the view is zoomed, a
    text is placed, the last commit is undone, and the selection is
    deleted. *)
Definition events : list Event :=
  [ToolChange Tool.rectangle;
   MouseDown (Scenario.down 10 10); MouseMove (Scenario.down 60 40); MouseUp;
   ToolChange Tool.select;
   MouseDown (Scenario.down 20 20); MouseMove (Scenario.down 30 30); MouseUp;
   PanelUpdate Rotate; PanelUpdate Rotate; ZoomIn; ZoomIn;
   ToolChange Tool.text;
   MouseDown (Scenario.down 120 120); MouseUp; TextChange Scenario.hi;
   TextKeyDown Enter;
   Undo; PanelDelete].

Definition start : EditorState := initialState Scenario.canvas.

Definition rectA : DrawingElement.t :=
  DrawingElement.setSize 10 10
    (DrawingElement.base "A" Tool.rectangle 20 20 "#000000" 2).

Definition rectB : DrawingElement.t :=
  DrawingElement.setSize 100 100
    (DrawingElement.base "B" Tool.rectangle 0 0 "#ffffff" 2).

Definition circle : DrawingElement.t :=
  DrawingElement.setRadius 5
    (DrawingElement.base "C" Tool.circle 0 0 "#000000" 2).

Definition dot : DrawingElement.t :=
  DrawingElement.setEnd 7 7
    (DrawingElement.base "L" Tool.line 7 7 "#000000" 2).

(** The two rectangles, the first of them selected. *)
Definition selected : EditorState :=
  setCanvasState (mkCanvasState [rectA; rectB] (Some "A"%string)) start.

(** The small rectangle on top of the large one, nothing selected. *)
Definition unselected : EditorState :=
  setCanvasState (mkCanvasState [rectB; rectA] None) start.

(** The text input is open and holds a text. *)
Definition typing : EditorState :=
  setTextInputValue Scenario.hi (setIsEditingText true start).

(** A pointer-down with the middle button. *)
Definition middle (px py : Q) : MouseEvent := mkMouseEvent px py 1 false.

Definition red : Partial.t := withColor "#ff0000".

(** A pointer-down with the right button. *)
Definition right (px py : Q) : MouseEvent := mkMouseEvent px py 2 false.

End Session.

(** ** Comparisons *)

Lemma leb_le (a b : Q) : JS.leb a b = true <-> a <= b.
Proof. unfold JS.leb. apply Qle_bool_iff. Qed.

Lemma leb_gt (a b : Q) : JS.leb a b = false <-> b < a.
Proof.
  unfold JS.leb. split; intros H.
  - apply Qnot_le_lt. intros Hle. apply Qle_bool_iff in Hle. congruence.
  - destruct (Qle_bool a b) eqn:E; [|reflexivity].
    apply Qle_bool_iff in E. lra.
Qed.

Lemma eqb_eq (a b : Q) : JS.eqb a b = true <-> a == b.
Proof. unfold JS.eqb. apply Qeq_bool_iff. Qed.

Lemma ltb_true (a b : Q) : JS.ltb a b = true -> a < b.
Proof.
  unfold JS.ltb. intros H. apply negb_true_iff in H.
  apply Qnot_le_lt. intros Hle. apply Qle_bool_iff in Hle. congruence.
Qed.

Lemma ltb_false (a b : Q) : JS.ltb a b = false -> b <= a.
Proof.
  unfold JS.ltb. intros H. apply negb_false_iff in H.
  now apply Qle_bool_iff.
Qed.

(** ** History *)

Lemma saveToHistory_history (s q : EditorState) :
  history (saveToHistory s q)
  = firstn (historyIndex s + 1) (history s) ++ [canvasState s].
Proof. reflexivity. Qed.

Lemma saveToHistory_index (s q : EditorState) :
  historyIndex (saveToHistory s q)
  = (List.length (history (saveToHistory s q)) - 1)%nat.
Proof. reflexivity. Qed.

Lemma saveToHistory_canvasState (s q : EditorState) :
  canvasState (saveToHistory s q) = canvasState q.
Proof. reflexivity. Qed.

Lemma commit_history (doc : CanvasState) (s : EditorState) :
  history (commit doc s) = firstn (historyIndex s + 1) (history s) ++ [doc].
Proof. reflexivity. Qed.

Lemma commit_index (doc : CanvasState) (s : EditorState) :
  historyIndex (commit doc s)
  = List.length (firstn (historyIndex s + 1) (history s)).
Proof.
  unfold commit, render, saveToHistory, andThen. simpl.
  rewrite length_app. simpl. lia.
Qed.

Lemma commit_canvasState (doc : CanvasState) (s : EditorState) :
  canvasState (commit doc s) = doc.
Proof. reflexivity. Qed.

(** After a commit the index is the last position of the history. *)
Lemma commit_at_tail (doc : CanvasState) (s : EditorState) :
  (historyIndex (commit doc s) + 1)%nat = List.length (history (commit doc s)).
Proof.
  rewrite commit_index, commit_history, length_app. reflexivity.
Qed.

Lemma commit_synced (doc : CanvasState) (s : EditorState) :
  historySynced (commit doc s).
Proof.
  unfold historySynced.
  rewrite commit_index, commit_history, commit_canvasState.
  rewrite nth_error_app2 by lia. now rewrite Nat.sub_diag.
Qed.

(** [redo] does nothing when the index is the last position. *)
Lemma redo_at_tail (s : EditorState) :
  (historyIndex s + 1)%nat = List.length (history s) -> redo s = Some s.
Proof.
  intros H. unfold redo.
  destruct (Nat.ltb_spec (historyIndex s) (List.length (history s) - 1));
    [lia | reflexivity].
Qed.

Lemma undo_at_zero (s : EditorState) :
  historyIndex s = 0%nat -> undo s = Some s.
Proof. intros H. unfold undo. now rewrite H. Qed.

(** [undo] on a valid history with a positive index. *)
Lemma undo_some (s : EditorState) :
  historyValid s -> (0 < historyIndex s)%nat ->
  exists c,
    nth_error (history s) (historyIndex s - 1) = Some c
    /\ undo s
       = Some (setCanvasState c (setHistoryIndex (historyIndex s - 1) s)).
Proof.
  unfold historyValid. intros Hv Hpos.
  destruct (nth_error (history s) (historyIndex s - 1)) as [c|] eqn:E.
  - exists c. split; [reflexivity|].
    unfold undo. destruct (Nat.ltb_spec 0 (historyIndex s)); [|lia].
    now rewrite E.
  - apply nth_error_None in E. lia.
Qed.

(** [redo] on a valid history whose index is not the last position. *)
Lemma redo_some (s : EditorState) :
  (historyIndex s + 1 < List.length (history s))%nat ->
  exists c,
    nth_error (history s) (historyIndex s + 1) = Some c
    /\ redo s
       = Some (setCanvasState c (setHistoryIndex (historyIndex s + 1) s)).
Proof.
  intros Hlt.
  destruct (nth_error (history s) (historyIndex s + 1)) as [c|] eqn:E.
  - exists c. split; [reflexivity|].
    unfold redo.
    destruct (Nat.ltb_spec (historyIndex s) (List.length (history s) - 1));
      [|lia].
    now rewrite E.
  - apply nth_error_None in E. lia.
Qed.

Lemma undos_spec (k : nat) :
  forall s, historyValid s -> (k <= historyIndex s)%nat ->
  exists s',
    undos k s = Some s'
    /\ history s' = history s
    /\ historyIndex s' = (historyIndex s - k)%nat.
Proof.
  induction k as [|k IH]; intros s Hv Hk.
  - exists s. simpl. repeat split. lia.
  - destruct (undo_some s Hv) as (c & _ & Hu); [lia|].
    simpl. rewrite Hu.
    destruct (IH (setCanvasState c (setHistoryIndex (historyIndex s - 1) s)))
      as (s' & Hs' & Hh & Hi).
    + unfold historyValid in *. simpl. lia.
    + simpl. lia.
    + exists s'. split; [exact Hs'|]. simpl in Hh, Hi. split; [exact Hh|lia].
Qed.

Lemma commits_at_tail (docs : list CanvasState) :
  forall s,
    (historyIndex s + 1)%nat = List.length (history s) ->
    (historyIndex (commits docs s) + 1)%nat
    = List.length (history (commits docs s))
    /\ List.length (history (commits docs s))
       = (List.length (history s) + List.length docs)%nat.
Proof.
  induction docs as [|d docs IH]; intros s Ht; simpl.
  - split; [exact Ht|lia].
  - destruct (IH (commit d s) (commit_at_tail d s)) as [H1 H2].
    split; [exact H1|]. rewrite H2, commit_history, length_app.
    rewrite firstn_all2 by lia. simpl. lia.
Qed.

(** When the document on screen is the entry under the index, [undo]
    followed by [redo] gives the document back. *)
Lemma undo_redo_synced (s : EditorState) :
  historyValid s -> historySynced s -> (0 < historyIndex s)%nat ->
  exists s1 s2,
    undo s = Some s1 /\ redo s1 = Some s2
    /\ canvasState s2 = canvasState s
    /\ historyIndex s2 = historyIndex s
    /\ history s2 = history s.
Proof.
  intros Hv Hs Hpos.
  destruct (undo_some s Hv Hpos) as (c & _ & Hu).
  set (s1 := setCanvasState c (setHistoryIndex (historyIndex s - 1) s)) in *.
  assert (Hi1 : historyIndex s1 = (historyIndex s - 1)%nat) by reflexivity.
  assert (Hh1 : history s1 = history s) by reflexivity.
  destruct (redo_some s1) as (c' & Hc' & Hr).
  { unfold historyValid in Hv. rewrite Hi1, Hh1. lia. }
  exists s1, (setCanvasState c' (setHistoryIndex (historyIndex s1 + 1) s1)).
  split; [exact Hu|]. split; [exact Hr|].
  rewrite Hi1, Hh1 in Hc'.
  replace (historyIndex s - 1 + 1)%nat with (historyIndex s) in Hc' by lia.
  unfold historySynced in Hs. rewrite Hs in Hc'. injection Hc' as <-.
  simpl. repeat split. lia.
Qed.

(** C5. History truncation: after [N >= 1] commits, [k] undos with
    [1 <= k <= N] and one more commit, [redo] changes nothing: the entries
    beyond the index at commit time are gone, the new entry is the tail and
    the index points at it (the history then has [N - k + 2] entries). *)
Theorem C5_history_truncation
    (c : option CanvasEl) (docs : list CanvasState) (k : nat)
    (final : CanvasState) :
  (1 <= List.length docs)%nat ->
  (1 <= k <= List.length docs)%nat ->
  exists s2,
    undos k (commits docs (initialState c)) = Some s2
    /\ let s3 := commit final s2 in
       redo s3 = Some s3
       /\ history s3 = firstn (historyIndex s2 + 1) (history s2) ++ [final]
       /\ (historyIndex s3 + 1)%nat = List.length (history s3)
       /\ nth_error (history s3) (historyIndex s3) = Some final
       /\ List.length (history s3) = (List.length docs - k + 2)%nat.
Proof.
  intros HN Hk.
  destruct (commits_at_tail docs (initialState c) eq_refl) as [Ht Hl].
  simpl in Hl.
  destruct (undos_spec k (commits docs (initialState c))) as (s2 & Hu & Hh & Hi).
  { unfold historyValid. lia. }
  { lia. }
  exists s2. split; [exact Hu|]. cbv zeta.
  split; [apply redo_at_tail, commit_at_tail|].
  split; [apply commit_history|].
  split; [apply commit_at_tail|].
  split; [apply commit_synced|].
  rewrite commit_history, length_app, length_firstn, Hh, Hi. simpl. lia.
Qed.

Lemma C5_history_truncation_witness :
  exists s2,
    undos 2 (commits [Scenario.doc "a"; Scenario.doc "b"; Scenario.doc "c"]
               (initialState Scenario.canvas)) = Some s2
    /\ let s3 := commit (Scenario.doc "d") s2 in
       redo s3 = Some s3
       /\ history s3
          = firstn (historyIndex s2 + 1) (history s2) ++ [Scenario.doc "d"]
       /\ (historyIndex s3 + 1)%nat = List.length (history s3)
       /\ nth_error (history s3) (historyIndex s3) = Some (Scenario.doc "d")
       /\ List.length (history s3) = (3 - 2 + 2)%nat.
Proof.
  apply (C5_history_truncation Scenario.canvas
           [Scenario.doc "a"; Scenario.doc "b"; Scenario.doc "c"] 2
           (Scenario.doc "d"));
    simpl; lia.
Defined.

(** C4. Undo/redo inverse law: read on a concrete run.  A rectangle is drawn
    and committed, then its colour is edited in the properties panel.
    [updateSelectedElement] queues the edit and calls [saveToHistory], whose
    closure still holds the document of the render without the edit: the
    entry it pushes is the rectangle in its old colour.  [undo] followed by
    [redo] then shows that entry, and the edit is lost, so the document is
    not the one that held before the undo. *)
Theorem C4_undo_redo_after_edit :
  exists s s1 s2,
    Scenario.runFresh (initialState Scenario.canvas)
      [ToolChange Tool.rectangle; MouseDown (Scenario.down 10 10);
       MouseMove (Scenario.down 110 60); MouseUp;
       PanelUpdate (EditColor "red")] = Some s
    /\ (0 < historyIndex s)%nat
    /\ undo s = Some s1
    /\ redo s1 = Some s2
    /\ map DrawingElement.color (elements (canvasState s)) = ["red"%string]
    /\ map DrawingElement.color (elements (canvasState s2))
       = ["#164e63"%string]
    /\ canvasState s2 <> canvasState s.
Proof.
  eexists. eexists. eexists.
  split; [vm_compute; reflexivity|].
  split; [vm_compute; lia|].
  split; [vm_compute; reflexivity|].
  split; [vm_compute; reflexivity|].
  split; [reflexivity|].
  split; [reflexivity|].
  intros H.
  apply (f_equal (fun cs => map DrawingElement.color (elements cs))) in H.
  vm_compute in H. discriminate H.
Qed.

(** ** Commits per gesture *)

(** A pointer-up that ends a draw or a drag appends exactly one entry, the
    document of its render, after the entries up to the index. *)
Lemma handleMouseUp_commits (s : EditorState) :
  (isDragging s || isDrawing s)%bool = true ->
  let s' := render handleMouseUp s in
  history s' = firstn (historyIndex s + 1) (history s) ++ [canvasState s]
  /\ (historyIndex s' + 1)%nat = List.length (history s').
Proof.
  intros H. unfold render, handleMouseUp.
  destruct (isDragging s), (isDrawing s); try discriminate H;
    (split; [reflexivity|]); cbn; rewrite length_app; simpl; lia.
Qed.

(** A pointer-up outside a draw or a drag (the end of a pan) leaves the
    history alone. *)
Lemma handleMouseUp_idle (s : EditorState) :
  (isDragging s || isDrawing s)%bool = false ->
  let s' := render handleMouseUp s in
  history s' = history s /\ historyIndex s' = historyIndex s.
Proof.
  intros H. unfold render, handleMouseUp.
  destruct (isDragging s), (isDrawing s); try discriminate H.
  split; reflexivity.
Qed.

(** C2. One history entry per draw or drag, none otherwise: read on a
    concrete run.  [handleMouseDown] sets [isDrawing] before it looks at the
    tool, so a click with the image tool (and likewise a click of the select
    tool on empty canvas), which neither draws nor drags, reaches
    [handleMouseUp] with [isDrawing] set and appends an entry: the history
    grows from one entry to two while the document is still empty. *)
Theorem C2_click_commits :
  exists s s',
    Scenario.runFresh (initialState Scenario.canvas)
      [ToolChange Tool.image; MouseDown (Scenario.down 10 10); MouseUp]
    = Some s
    /\ Scenario.runFresh (initialState Scenario.canvas)
         [MouseDown (Scenario.down 10 10); MouseUp]
       = Some s'
    /\ history s = [emptyCanvasState; emptyCanvasState]
    /\ historyIndex s = 1%nat
    /\ history s' = [emptyCanvasState; emptyCanvasState]
    /\ historyIndex s' = 1%nat
    /\ isDragging s = false /\ isDragging s' = false
    /\ canvasState s = emptyCanvasState
    /\ canvasState s' = emptyCanvasState.
Proof.
  eexists. eexists.
  split; [vm_compute; reflexivity|].
  split; [vm_compute; reflexivity|].
  repeat split.
Qed.

(** ** Dragging a line *)

Lemma orNum_nonzero (v b : Q) : ~ v == 0 -> JS.orNum (Some v) b = v.
Proof.
  intros H. unfold JS.orNum, JS.eqb.
  destruct (Qeq_bool v 0) eqn:E; [|reflexivity].
  now apply Qeq_bool_iff in E.
Qed.

(** What a drag move does to the segment vector of a line whose end point
    has non-zero coordinates: the vector changes by the distance between the
    line's current anchor and its anchor at drag start.  It is kept by the
    first move of a drag and drifts afterwards. *)
Lemma dragElement_line_vector (s : EditorState) (dx dy ex ey : Q)
    (el : DrawingElement.t) :
  DrawingElement.type el = Tool.line ->
  DrawingElement.endX el = Some ex -> DrawingElement.endY el = Some ey ->
  ~ ex == 0 -> ~ ey == 0 ->
  let el' := dragElement s dx dy el in
  fst (segmentVector el')
  == fst (segmentVector el)
     + (DrawingElement.x el - Point.x (dragElementStart s))
  /\ snd (segmentVector el')
     == snd (segmentVector el)
        + (DrawingElement.y el - Point.y (dragElementStart s)).
Proof.
  intros Ht Hx Hy Hex Hey. unfold dragElement, segmentVector.
  rewrite Ht, Hx, Hy, (orNum_nonzero ex _ Hex), (orNum_nonzero ey _ Hey).
  simpl. split; ring.
Qed.

(** C1. Dragging a line keeps its segment vector: read on a concrete run.  A
    line from (10,10) to (50,30) is drawn, then grabbed at (20,15) with the
    select tool and moved to (21,15) and on to (22,15).  The anchor is set to
    its position at drag start plus the cumulative delta, but the end point
    is moved by the cumulative delta from where the previous move left it:
    after the second move the anchor has moved by 2 and the end point by 3,
    and the segment vector is (41,20) instead of (40,20). *)
Theorem C1_line_drag_drifts :
  exists s0 s2 l0 l2,
    Scenario.runFresh (initialState Scenario.canvas)
      [ToolChange Tool.line; MouseDown (Scenario.down 10 10);
       MouseMove (Scenario.down 50 30); MouseUp;
       ToolChange Tool.select; MouseDown (Scenario.down 20 15)] = Some s0
    /\ isDragging s0 = true
    /\ tool s0 = Tool.select
    /\ elements (canvasState s0) = [l0]
    /\ DrawingElement.type l0 = Tool.line
    /\ selectedElementId (canvasState s0) = Some (DrawingElement.id l0)
    /\ segmentVector l0 = (40, 20)
    /\ Scenario.runFresh s0
         [MouseMove (Scenario.down 21 15); MouseMove (Scenario.down 22 15)]
       = Some s2
    /\ elements (canvasState s2) = [l2]
    /\ DrawingElement.x l2 = 12
    /\ DrawingElement.endX l2 = Some 53
    /\ segmentVector l2 = (41, 20).
Proof.
  eexists. eexists. eexists. eexists.
  split; [vm_compute; reflexivity|].
  split; [reflexivity|].
  split; [reflexivity|].
  split; [reflexivity|].
  split; [reflexivity|].
  split; [reflexivity|].
  split; [reflexivity|].
  split; [vm_compute; reflexivity|].
  repeat split.
Qed.

(** ** Viewport *)

Lemma zoom_nonzero (z : Q) : 0.1 <= z -> ~ z == 0.
Proof. intros H E. rewrite E in H. apply (Qle_not_lt _ _ H). reflexivity. Qed.

(** C8, as the code has it.  With a mounted canvas and a zoom in [0.1, 5],
    [getMousePos] computes [(screenPoint - panOffset) / zoom] on the pointer
    position relative to the canvas; in exact arithmetic it inverts the
    document-to-screen transform [document * zoom + panOffset]; and with
    zoom 2 and pan (100,100) the screen point (300,300) is the document
    point (100,100). *)
Theorem C8_viewport_round_trip (s : EditorState) (c : CanvasEl) :
  canvasRef s = Some c ->
  0.1 <= zoom s <= 5 ->
  (forall e,
     getMousePos s e
     = Point.mk ((clientX e - rectLeft c - Point.x (panOffset s)) / zoom s)
                ((clientY e - rectTop c - Point.y (panOffset s)) / zoom s))
  /\ (forall p b k,
        samePoint
          (getMousePos s
             (mkMouseEvent (Point.x (toScreen s p) + rectLeft c)
                           (Point.y (toScreen s p) + rectTop c) b k))
          p)
  /\ (zoom s == 2 -> samePoint (panOffset s) (Point.mk 100 100) ->
      forall e,
        clientX e - rectLeft c == 300 -> clientY e - rectTop c == 300 ->
        samePoint (getMousePos s e) (Point.mk 100 100)).
Proof.
  intros Hc [Hlo _]. pose proof (zoom_nonzero _ Hlo) as Hz.
  unfold getMousePos. rewrite Hc. split; [reflexivity|]. split.
  - intros p b k. unfold samePoint, toScreen. simpl. split; field; exact Hz.
  - intros Hz2 [Hpx Hpy] e Hx Hy. unfold samePoint. simpl in *.
    rewrite Hz2, Hx, Hy, Hpx, Hpy. split; reflexivity.
Qed.

Lemma C8_viewport_round_trip_witness :
  samePoint
    (getMousePos
       (setZoom 2 (setPanOffset (Point.mk 100 100)
                     (initialState Scenario.canvas)))
       (mkMouseEvent 300 300 0 false))
    (Point.mk 100 100).
Proof.
  refine (proj2 (proj2
    (C8_viewport_round_trip
       (setZoom 2 (setPanOffset (Point.mk 100 100)
                     (initialState Scenario.canvas)))
       (mkCanvasEl 0 0 800 600 true) eq_refl _)) _ _ _ _ _).
  - split; discriminate.
  - reflexivity.
  - split; reflexivity.
  - reflexivity.
  - reflexivity.
Defined.

(** C8, as stated, fails on the numbers of the code.  With zoom 1.2, which
    lies in [0.1, 5], no pan and the canvas at the origin, the document
    coordinate 7 is sent to the screen and back to 7.000000000000001: the
    screen-to-document conversion is the inverse of the other up to
    rounding, not exactly.  The scenario of the claim, zoom 2 and pan 100,
    is exact on doubles too. *)
Lemma C8_round_trip_rounds_on_doubles :
  PrimFloat.leb 0x1.999999999999ap-4 Double.zoom12 = true
  /\ PrimFloat.leb Double.zoom12 5 = true
  /\ Double.toDocument Double.zoom12 0 0
       (Double.toScreen Double.zoom12 0 Double.seven)
     = 0x1.c000000000001p+2%float
  /\ PrimFloat.eqb
       (Double.toDocument Double.zoom12 0 0
          (Double.toScreen Double.zoom12 0 Double.seven))
       Double.seven
     = false
  /\ Double.toDocument 2 100 0 300 = 100%float.
Proof. repeat split. Qed.

(** ** Properties over an arbitrary browser environment *)

Section Properties.

Variable Math_sqrt : Q -> Q.
Variable measureText : Q -> string -> JS.utf16 -> Q.
Variable randomId : nat -> string.

Local Abbreviation step := (step Math_sqrt measureText randomId).
Local Abbreviation run := (run Math_sqrt measureText randomId).
Local Abbreviation Reachable := (Reachable Math_sqrt measureText randomId).
Local Abbreviation handleMouseDown :=
  (handleMouseDown Math_sqrt measureText randomId).
Local Abbreviation hitElement := (hitElement Math_sqrt measureText).
Local Abbreviation findElementFrom := (findElementFrom Math_sqrt measureText).
Local Abbreviation findElementAtPosition :=
  (findElementAtPosition Math_sqrt measureText).

(** *** Drawing a rectangle *)

(** C7. From the empty document, with the rectangle tool: pointer-down at
    (10,10), pointer-move to (110,60), pointer-up.  The document then holds
    exactly one rectangle with x = 10, y = 10, width = 100, height = 50; it
    is the selection; the history has two entries, the initial empty
    document and this one. *)
Theorem C7_rectangle_scenario (w h : Q) (ctx : bool) :
  exists s el,
    run (initialState (Some (mkCanvasEl 0 0 w h ctx)))
      [ToolChange Tool.rectangle;
       MouseDown (mkMouseEvent 10 10 0 false);
       MouseMove (mkMouseEvent 110 60 0 false);
       MouseUp] = Some s
    /\ elements (canvasState s) = [el]
    /\ DrawingElement.type el = Tool.rectangle
    /\ DrawingElement.x el = 10
    /\ DrawingElement.y el = 10
    /\ DrawingElement.width el = Some 100
    /\ DrawingElement.height el = Some 50
    /\ selectedElementId (canvasState s) = Some (DrawingElement.id el)
    /\ history s = [emptyCanvasState; canvasState s]
    /\ List.length (history s) = 2%nat
    /\ historyIndex s = 1%nat.
Proof.
  eexists. eexists.
  split; [vm_compute; reflexivity|].
  repeat split.
Qed.

(** *** Pointer-down while a text is being edited *)

(** C3, as the code has it.  A pointer-down in the text-editing state
    finalizes the pending text and is consumed by that: the state it leaves
    is the one [completeTextInput] leaves.  Editing is over, the pan, draw
    and drag flags keep their values, and the document gains one text
    element when the trimmed input is not empty and is unchanged
    otherwise. *)
Theorem C3_pointer_down_finalizes_text (s : EditorState) (e : MouseEvent) :
  isEditingText s = true ->
  let s' := render (fun s => handleMouseDown s e) s in
  s' = render (completeTextInput randomId) s
  /\ isEditingText s' = false
  /\ textInputValue s' = []
  /\ isPanning s' = isPanning s
  /\ isDrawing s' = isDrawing s
  /\ isDragging s' = isDragging s
  /\ lastPanPoint s' = lastPanPoint s
  /\ (JS.trim (textInputValue s) = [] ->
      canvasState s' = canvasState s /\ history s' = history s)
  /\ (JS.trim (textInputValue s) <> [] ->
      exists el,
        elements (canvasState s') = elements (canvasState s) ++ [el]
        /\ DrawingElement.type el = Tool.text
        /\ DrawingElement.text el = Some (textInputValue s)
        /\ DrawingElement.x el = Point.x (textInputPosition s)
        /\ DrawingElement.y el = Point.y (textInputPosition s)
        /\ selectedElementId (canvasState s')
           = Some (DrawingElement.id el)).
Proof.
  intros He. unfold render, handleMouseDown. rewrite He.
  split; [reflexivity|].
  unfold completeTextInput.
  destruct (JS.trim (textInputValue s)) as [|ch rest] eqn:Et;
    repeat (split; [reflexivity|]); split.
  - intros _. split; reflexivity.
  - intros Hne. now elim Hne.
  - intros Hd. discriminate Hd.
  - intros _. eexists. repeat split.
Qed.

(** *** Hit test *)

Lemma firstn_snoc {A} (l : list A) :
  forall i x, nth_error l i = Some x -> firstn (S i) l = firstn i l ++ [x].
Proof.
  induction l as [|a l IH]; intros [|i] x H; simpl in *; try discriminate.
  - now injection H as ->.
  - f_equal. now apply IH.
Qed.

Lemma find_skip {A} (f : A -> bool) (l1 l2 : list A) :
  forallb (fun a => negb (f a)) l1 = true -> find f (l1 ++ l2) = find f l2.
Proof.
  induction l1 as [|a l1 IH]; simpl; intros H; [reflexivity|].
  apply andb_true_iff in H as [Ha Hl].
  destruct (f a); [discriminate Ha|]. now apply IH.
Qed.

(** The loop from index [n - 1] down to [0] returns the identifier of the
    first hit among the first [n] elements taken from the top. *)
Lemma findElementFrom_spec (canvas : option CanvasEl)
    (els : list DrawingElement.t) (pos : Point.t) (n : nat) :
  (n <= List.length els)%nat ->
  findElementFrom canvas els pos n
  = option_map DrawingElement.id
      (find (hitElement canvas pos) (List.rev (firstn n els))).
Proof.
  induction n as [|i IH]; intros Hn; [reflexivity|].
  destruct (nth_error els i) as [el|] eqn:E.
  - rewrite (firstn_snoc els i el E), rev_unit. simpl. rewrite E.
    destruct (hitElement canvas pos el); [reflexivity|].
    apply IH. lia.
  - apply nth_error_None in E. lia.
Qed.

Lemma hitElement_invisible (canvas : option CanvasEl) (pos : Point.t)
    (el : DrawingElement.t) :
  DrawingElement.visible el <> Some true -> hitElement canvas pos el = false.
Proof.
  intros H. unfold hitElement.
  destruct (DrawingElement.visible el) as [[|]|]; simpl;
    [now elim H | reflexivity | reflexivity].
Qed.

Local Abbreviation contains := (contains Math_sqrt measureText).
Local Abbreviation hits := (hits Math_sqrt measureText).

Lemma interval_leb (a d v : Q) :
  (JS.leb (if JS.leb 0 d then a else a + d) v
   && JS.leb v (if JS.leb 0 d then a + d else a))%bool = true
  <-> within (Qmin a (a + d)) (Qmax a (a + d)) v.
Proof.
  unfold within. rewrite andb_true_iff, !leb_le.
  destruct (JS.leb 0 d) eqn:E;
    [apply leb_le in E | apply leb_gt in E].
  - rewrite (Q.min_l a (a + d)), (Q.max_r a (a + d)) by lra. tauto.
  - rewrite (Q.min_r a (a + d)), (Q.max_l a (a + d)) by lra. tauto.
Qed.

Lemma box_leb (a b c d v w : Q) :
  (JS.leb a v && JS.leb v b && JS.leb c w && JS.leb w d)%bool = true
  <-> within a b v /\ within c d w.
Proof. unfold within. rewrite !andb_true_iff, !leb_le. tauto. Qed.

Lemma nearest_hit (el : DrawingElement.t) (pos : Point.t) (tol : Q) :
  let x1 := DrawingElement.x el in
  let y1 := DrawingElement.y el in
  let x2 := JS.orNum (DrawingElement.endX el) x1 in
  let y2 := JS.orNum (DrawingElement.endY el) y1 in
  let param :=
    ((Point.x pos - x1) * (x2 - x1) + (Point.y pos - y1) * (y2 - y1))
    / ((x2 - x1) * (x2 - x1) + (y2 - y1) * (y2 - y1)) in
  (let (xx, yy) :=
     if JS.ltb param 0 then (x1, y1)
     else if JS.ltb 1 param then (x2, y2)
     else (x1 + param * (x2 - x1), y1 + param * (y2 - y1)) in
   JS.leb
     (Math_sqrt
        ((Point.x pos - xx) * (Point.x pos - xx)
         + (Point.y pos - yy) * (Point.y pos - yy))) tol) = true
  <-> (let n := nearestOnSegment (Point.mk x1 y1) (endPoint el) pos in
       Math_sqrt
         ((Point.x pos - Point.x n) * (Point.x pos - Point.x n)
          + (Point.y pos - Point.y n) * (Point.y pos - Point.y n))
       <= tol).
Proof.
  cbv zeta. unfold nearestOnSegment, endPoint.
  cbn [Point.x Point.y].
  set (param := _ / _).
  destruct (JS.ltb param 0) eqn:E0.
  - apply ltb_true in E0.
    destruct (Qlt_le_dec param 0) as [H|H]; [|lra].
    cbn [Point.x Point.y]. apply leb_le.
  - apply ltb_false in E0.
    destruct (Qlt_le_dec param 0) as [H|H]; [lra|].
    destruct (JS.ltb 1 param) eqn:E1.
    + apply ltb_true in E1.
      destruct (Qlt_le_dec 1 param) as [H1|H1]; [|lra].
      cbn [Point.x Point.y]. apply leb_le.
    + apply ltb_false in E1.
      destruct (Qlt_le_dec 1 param) as [H1|H1]; [lra|].
      cbn [Point.x Point.y]. apply leb_le.
Qed.

(** The test of one iteration of the loop succeeds exactly on the visible
    elements whose region contains the point. *)
Lemma hitElement_hits (canvas : option CanvasEl) (pos : Point.t)
    (el : DrawingElement.t) :
  hitElement canvas pos el = true <-> hits canvas pos el.
Proof.
  unfold hits. split.
  - intros H.
    destruct (DrawingElement.visible el) as [[|]|] eqn:Ev;
      try (rewrite hitElement_invisible in H;
           [discriminate | rewrite Ev; discriminate]).
    split; [reflexivity|]. revert H.
    unfold hitElement, contains. rewrite Ev. cbn [JS.truthyBool negb].
    destruct (DrawingElement.type el) eqn:Et; try discriminate.
    + (* brush *)
      destruct (DrawingElement.points el) as [pts|]; [|discriminate].
      intros H. apply existsb_exists in H as (p & Hin & Hp).
      exists pts, p. split; [reflexivity|]. split; [exact Hin|].
      apply leb_le in Hp. exact Hp.
    + cbv zeta. rewrite !andb_true_iff. intros [[[H1 H2] H3] H4].
      split; apply interval_leb; rewrite andb_true_iff; split; assumption.
    + intros H. apply leb_le in H. exact H.
    + (* line *)
      cbv zeta.
      destruct (JS.eqb _ 0) eqn:Ez; [discriminate|].
      intros H. split.
      * intros Hz. apply eqb_eq in Hz. unfold endPoint in Hz.
        cbn [Point.x Point.y] in Hz. congruence.
      * apply (proj1 (nearest_hit el pos _)) in H. exact H.
    + cbv zeta. rewrite !andb_true_iff. intros [[[H1 H2] H3] H4].
      split; apply interval_leb; rewrite andb_true_iff; split; assumption.
    + intros H. apply leb_le in H. exact H.
    + intros H. apply leb_le in H. exact H.
    + (* text *)
      destruct (DrawingElement.text el) as [[|c r]|]; try discriminate.
      destruct canvas as [cv|]; [|discriminate].
      destruct (hasContext2d cv) eqn:Ec; [|discriminate].
      intros H. apply box_leb in H.
      exists cv, (c :: r). repeat split; try reflexivity; try apply H.
      * exact Ec.
      * discriminate.
    + intros H. apply box_leb in H. exact H.
  - intros [Ev H]. revert H.
    unfold hitElement, contains. rewrite Ev. cbn [JS.truthyBool negb].
    destruct (DrawingElement.type el) eqn:Et; try contradiction.
    + intros (pts & p & -> & Hin & Hp). apply existsb_exists.
      exists p. split; [exact Hin|]. apply leb_le. exact Hp.
    + cbv zeta. intros [H1 H2].
      apply interval_leb in H1. apply interval_leb in H2.
      apply andb_true_iff in H1 as [H1 H1']. apply andb_true_iff in H2 as [H2 H2'].
      rewrite !andb_true_iff. repeat split; assumption.
    + intros H. apply leb_le. exact H.
    + cbv zeta. intros [Hz H].
      destruct (JS.eqb _ 0) eqn:Ez.
      * apply eqb_eq in Ez. elim Hz. unfold endPoint.
        cbn [Point.x Point.y]. exact Ez.
      * apply (proj2 (nearest_hit el pos _)). exact H.
    + cbv zeta. intros [H1 H2].
      apply interval_leb in H1. apply interval_leb in H2.
      apply andb_true_iff in H1 as [H1 H1']. apply andb_true_iff in H2 as [H2 H2'].
      rewrite !andb_true_iff. repeat split; assumption.
    + intros H. apply leb_le. exact H.
    + intros H. apply leb_le. exact H.
    + intros (cv & t & -> & Hc & -> & Hne & H1 & H2).
      destruct t as [|c r]; [now elim Hne|]. rewrite Hc.
      apply box_leb. split; assumption.
    + intros H. apply box_leb. exact H.
Qed.

Lemma find_first {A} (f : A -> bool) (l : list A) (x : A) :
  find f l = Some x ->
  exists l1 l2,
    l = l1 ++ x :: l2 /\ f x = true /\ forallb (fun a => negb (f a)) l1 = true.
Proof.
  induction l as [|a l IH]; simpl; [discriminate|].
  destruct (f a) eqn:E.
  - intros [= <-]. exists [], l. repeat split. exact E.
  - intros H. destruct (IH H) as (l1 & l2 & -> & Hx & Hl1).
    exists (a :: l1), l2. repeat split; [exact Hx|].
    simpl. now rewrite E, Hl1.
Qed.

Lemma not_hits_forallb (canvas : option CanvasEl) (pos : Point.t)
    (l : list DrawingElement.t) :
  forallb (fun a => negb (hitElement canvas pos a)) l = true
  <-> Forall (fun e => ~ hits canvas pos e) l.
Proof.
  rewrite forallb_forall, Forall_forall.
  split; intros H e He; specialize (H e He).
  - intros Hh. apply hitElement_hits in Hh. rewrite Hh in H. discriminate.
  - destruct (hitElement canvas pos e) eqn:E; [|reflexivity].
    elim H. now apply hitElement_hits.
Qed.

(** C6. The hit test goes through the elements from the top of the paint
    order down, passes over the elements whose visibility flag is not set,
    and returns the identifier of the first one whose region contains the
    point, the regions being those of the variants: it answers [i] exactly
    when an element of identifier [i] is visible and contains the point
    while no element above it is visible and contains the point, and it
    answers null exactly when no element is visible and contains the point.
    So when [B] lies above [A], both are visible and contain the point and
    nothing above [B] does, the answer is [B]'s identifier. *)
Theorem C6_hit_test_topmost_first (s : EditorState) (pos : Point.t) :
  let hit := hits (canvasRef s) pos in
  (forall el, hitElement (canvasRef s) pos el = true <-> hit el)
  /\ (forall el,
        DrawingElement.visible el <> Some true ->
        hitElement (canvasRef s) pos el = false)
  /\ (forall i,
        findElementAtPosition s pos = Some i
        <-> exists below el above,
              elements (canvasState s) = below ++ el :: above
              /\ DrawingElement.id el = i /\ hit el
              /\ Forall (fun e => ~ hit e) above)
  /\ (findElementAtPosition s pos = None
      <-> Forall (fun e => ~ hit e) (elements (canvasState s)))
  /\ (forall below A between B above,
        elements (canvasState s) = below ++ A :: between ++ B :: above ->
        hit A -> hit B -> Forall (fun e => ~ hit e) above ->
        findElementAtPosition s pos = Some (DrawingElement.id B)).
Proof.
  cbv zeta.
  assert (Hspec :
    findElementAtPosition s pos
    = option_map DrawingElement.id
        (find (hitElement (canvasRef s) pos)
              (List.rev (elements (canvasState s))))).
  { unfold findElementAtPosition.
    rewrite findElementFrom_spec by lia. now rewrite firstn_all. }
  assert (Htop : forall below el above,
    elements (canvasState s) = below ++ el :: above ->
    hits (canvasRef s) pos el ->
    Forall (fun e => ~ hits (canvasRef s) pos e) above ->
    findElementAtPosition s pos = Some (DrawingElement.id el)).
  { intros below el above Hels Hel Habove.
    rewrite Hspec, Hels, rev_app_distr. simpl. rewrite <- app_assoc.
    rewrite find_skip.
    - simpl. apply hitElement_hits in Hel. now rewrite Hel.
    - apply not_hits_forallb. apply Forall_rev. exact Habove. }
  split; [apply hitElement_hits|]. split; [apply hitElement_invisible|].
  split; [|split].
  - intros i. split.
    + rewrite Hspec.
      destruct (find _ _) as [el|] eqn:E; [|discriminate].
      intros [= <-]. apply find_first in E as (l1 & l2 & Hl & Hel & Hl1).
      exists (List.rev l2), el, (List.rev l1).
      split; [|split; [reflexivity|split]].
      * rewrite <- (rev_involutive (elements (canvasState s))), Hl.
        rewrite rev_app_distr. simpl. now rewrite <- app_assoc.
      * now apply hitElement_hits.
      * apply Forall_rev. now apply not_hits_forallb.
    + intros (below & el & above & Hels & <- & Hel & Habove).
      exact (Htop below el above Hels Hel Habove).
  - rewrite Hspec. split.
    + destruct (find _ _) as [el|] eqn:E; [discriminate|]. intros _.
      rewrite <- (rev_involutive (elements (canvasState s))).
      apply Forall_rev. apply Forall_forall. intros e He Hh.
      apply hitElement_hits in Hh.
      pose proof (find_none _ _ E e He) as Hn. congruence.
    + intros H.
      destruct (find _ _) as [el|] eqn:E; [|reflexivity].
      apply find_some in E as [Hin Hel]. apply in_rev in Hin.
      rewrite Forall_forall in H. elim (H el Hin).
      now apply hitElement_hits.
  - intros below A between B above Hels _ HB Habove.
    apply (Htop (below ++ A :: between) B above); [|exact HB|exact Habove].
    rewrite Hels, <- app_assoc. reflexivity.
Qed.

(** *** Identifiers *)

Local Abbreviation docEffect := (docEffect randomId).
Local Abbreviation known := (known randomId).
Local Abbreviation idsInv := (idsInv randomId).

Lemma dragElement_id (s : EditorState) (dx dy : Q) (el : DrawingElement.t) :
  DrawingElement.id (dragElement s dx dy el) = DrawingElement.id el.
Proof. unfold dragElement. destruct (DrawingElement.type el); reflexivity. Qed.

Lemma resizeElement_id (s : EditorState) (pos : Point.t)
    (el : DrawingElement.t) :
  DrawingElement.id (resizeElement Math_sqrt s pos el) = DrawingElement.id el.
Proof.
  unfold resizeElement.
  destruct (tool s), (DrawingElement.points el); reflexivity.
Qed.

Lemma panelUpdates_id (sel : DrawingElement.t) (p : PanelEdit) :
  Partial.id (panelUpdates sel p) = None.
Proof. destruct p; reflexivity. Qed.

Lemma merge_id (el : DrawingElement.t) (u : Partial.t) :
  Partial.id u = None ->
  DrawingElement.id (Partial.merge el u) = DrawingElement.id el.
Proof. intros H. unfold Partial.merge. simpl. now rewrite H. Qed.

Lemma map_id_cond (c : DrawingElement.t -> bool)
    (f : DrawingElement.t -> DrawingElement.t) (l : list DrawingElement.t) :
  (forall el, DrawingElement.id (f el) = DrawingElement.id el) ->
  map DrawingElement.id (map (fun el => if c el then f el else el) l)
  = map DrawingElement.id l.
Proof.
  intros Hf. rewrite map_map. apply map_ext. intros el.
  destruct (c el); [apply Hf | reflexivity].
Qed.

Lemma map_id_filter (sel : option string) (l : list DrawingElement.t) :
  map DrawingElement.id (filter (fun el => negb (idIs sel el)) l)
  = removeId sel (map DrawingElement.id l).
Proof.
  unfold removeId. induction l as [|a l IH]; simpl; [reflexivity|].
  change (match sel with
          | Some j => String.eqb (DrawingElement.id a) j
          | None => false
          end) with (idIs sel a).
  destruct (idIs sel a); simpl; now rewrite IH.
Qed.

Lemma rev_last_split {A} (l before : list A) (cur : A) :
  List.rev l = cur :: before -> l = List.rev before ++ [cur].
Proof.
  intros H. rewrite <- (rev_involutive l), H. reflexivity.
Qed.

Lemma addElement_id (s : EditorState) (pos : Point.t) (q : EditorState) :
  ids (canvasState (addElement randomId s pos q))
  = ids (canvasState q) ++ [randomId (randomCalls q)].
Proof.
  unfold addElement, generateId, appendSelected, updCanvasState, ids.
  simpl. rewrite map_app. simpl. destruct (tool s); reflexivity.
Qed.

Lemma completeTextInput_effect (s : EditorState) :
  let s' := render (completeTextInput randomId) s in
  docEffect s s' /\ historyEffect s s'.
Proof.
  unfold render, completeTextInput.
  destruct (JS.trim (textInputValue s)).
  - split; [apply doc_kept; reflexivity | solve_history].
  - split; [apply doc_appended; [|reflexivity] | solve_history].
    unfold ids. simpl. now rewrite map_app.
Qed.

Lemma handleMouseDown_effect (s : EditorState) (e : MouseEvent) :
  let s' := render (fun s => handleMouseDown s e) s in
  docEffect s s' /\ historyEffect s s'.
Proof.
  unfold render, handleMouseDown.
  destruct (isEditingText s); [apply completeTextInput_effect|].
  unfold mouseDownDispatch.
  destruct ((button e =? 1)%nat
            || (button e =? 0)%nat && (ctrlKey e || Tool.eqb (tool s) Tool.pan))%bool.
  { split; [apply doc_kept; reflexivity | solve_history]. }
  destruct (tool s) eqn:Et;
    try (split; [apply doc_appended; [|reflexivity] | solve_history];
         unfold andThen; now rewrite addElement_id);
    try (split; [apply doc_kept; reflexivity | solve_history]).
  destruct (JS.truthyStr _); [destruct (find _ _)|];
    (split; [apply doc_kept; reflexivity | solve_history]).
Qed.

Lemma handleMouseMove_effect (s : EditorState) (e : MouseEvent) :
  let s' := render (fun s => handleMouseMove Math_sqrt s e) s in
  docEffect s s' /\ historyEffect s s'.
Proof.
  unfold render, handleMouseMove.
  destruct (isPanning s);
    [split; [apply doc_kept; reflexivity | solve_history]|].
  destruct (isDragging s && JS.truthyStr (selectedElementId (canvasState s)))%bool.
  { split; [apply doc_kept; [|reflexivity] | solve_history].
    unfold ids. simpl. apply map_id_cond. intros el. apply dragElement_id. }
  destruct (isDrawing s); simpl;
    [|split; [apply doc_kept; reflexivity | solve_history]].
  split; [apply doc_kept; [|reflexivity] | solve_history].
  unfold updCanvasState, ids.
  destruct (List.rev (elements (canvasState s))) as [|cur before] eqn:Er;
    simpl; [reflexivity|].
  rewrite (rev_last_split _ _ _ Er), !map_app. simpl.
  now rewrite resizeElement_id.
Qed.

Lemma handleMouseUp_effect (s : EditorState) :
  let s' := render handleMouseUp s in
  docEffect s s' /\ historyEffect s s'.
Proof.
  unfold render, handleMouseUp.
  destruct (isDragging s), (isDrawing s);
    (split; [apply doc_kept; reflexivity|]);
    solve_history.
Qed.

Lemma processImageFile_effect (s : EditorState) (f : File)
    (d : option Point.t) :
  let s' := render (fun s => processImageFile randomId s f d) s in
  docEffect s s' /\ historyEffect s s'.
Proof.
  unfold render, processImageFile.
  destruct (decoded f) as [[w h]|];
    [|split; [apply doc_kept; reflexivity | solve_history]].
  destruct (canvasRef s) as [cv|];
    [|split; [apply doc_kept; reflexivity | solve_history]].
  destruct (fitImage _ _ _ _) as [w' h'].
  split; [apply doc_appended; [|reflexivity] | solve_history].
  unfold ids. simpl. now rewrite map_app.
Qed.

Lemma handleDrop_effect (s : EditorState) (e : MouseEvent)
    (files : list File) :
  let s' := render (fun s => handleDrop randomId s e files) s in
  docEffect s s' /\ historyEffect s s'.
Proof.
  unfold render, handleDrop.
  destruct (filter _ files) as [|f rest];
    [split; [apply doc_kept; reflexivity | solve_history]|].
  destruct (canvasRef s) as [cv|] eqn:Ec;
    [|split; [apply doc_kept; reflexivity | solve_history]].
  apply (processImageFile_effect s f).
Qed.

Lemma handleImageUpload_effect (s : EditorState) (file : option File) :
  let s' := render (fun s => handleImageUpload randomId s file) s in
  docEffect s s' /\ historyEffect s s'.
Proof.
  unfold render, handleImageUpload.
  destruct file as [f|];
    [|split; [apply doc_kept; reflexivity | solve_history]].
  destruct (negb _);
    [split; [apply doc_kept; reflexivity | solve_history]|].
  apply (processImageFile_effect s f).
Qed.

Lemma updateSelectedElement_effect (s : EditorState) (u : Partial.t) :
  Partial.id u = None ->
  let s' := render (fun s => updateSelectedElement s u) s in
  docEffect s s' /\ historyEffect s s'.
Proof.
  intros Hu. unfold render, updateSelectedElement.
  destruct (negb _);
    [split; [apply doc_kept; reflexivity | solve_history]|].
  split; [apply doc_kept; [|reflexivity] | solve_history].
  unfold ids. simpl. apply map_id_cond. intros el. now apply merge_id.
Qed.

Lemma deleteSelectedElement_effect (s : EditorState) :
  let s' := render deleteSelectedElement s in
  docEffect s s' /\ historyEffect s s'.
Proof.
  unfold render, deleteSelectedElement.
  destruct (negb _);
    [split; [apply doc_kept; reflexivity | solve_history]|].
  split; [apply doc_removed; [|reflexivity] | solve_history].
  unfold ids. simpl. apply map_id_filter.
Qed.

Lemma undo_effect (s s' : EditorState) :
  undo s = Some s' -> docEffect s s' /\ historyEffect s s'.
Proof.
  unfold undo. destruct (0 <? historyIndex s)%nat.
  - destruct (nth_error _ _) as [c|] eqn:E; [|discriminate].
    intros [= <-]. split.
    + apply doc_restored; [|reflexivity]. simpl. exact (nth_error_In _ _ E).
    + apply hist_moved; [reflexivity|]. simpl.
      apply nth_error_Some. now rewrite E.
  - intros [= <-]. split; [apply doc_kept; reflexivity | solve_history].
Qed.

Lemma redo_effect (s s' : EditorState) :
  redo s = Some s' -> docEffect s s' /\ historyEffect s s'.
Proof.
  unfold redo. destruct (historyIndex s <? _)%nat.
  - destruct (nth_error _ _) as [c|] eqn:E; [|discriminate].
    intros [= <-]. split.
    + apply doc_restored; [|reflexivity]. simpl. exact (nth_error_In _ _ E).
    + apply hist_moved; [reflexivity|]. simpl.
      apply nth_error_Some. now rewrite E.
  - intros [= <-]. split; [apply doc_kept; reflexivity | solve_history].
Qed.

(** Every event changes identifiers, generator and history in one of the
    listed ways. *)
Lemma step_effect (s s' : EditorState) (ev : Event) :
  step s ev = Some s' -> docEffect s s' /\ historyEffect s s'.
Proof.
  destruct ev; simpl;
    try (intros [= <-];
         first [ apply handleMouseDown_effect
               | apply handleMouseMove_effect
               | apply handleMouseUp_effect
               | apply handleDrop_effect
               | apply handleImageUpload_effect
               | split; [apply doc_kept; reflexivity | solve_history] ]).
  - unfold render, handleWheel. destruct (wheelCtrlKey e); intros [= <-];
      (split; [apply doc_kept; reflexivity | solve_history]).
  - apply undo_effect.
  - apply redo_effect.
  - destruct (isEditingText s); intros [= <-];
      (split; [apply doc_kept; reflexivity | solve_history]).
  - destruct (isEditingText s); [destruct k|]; intros [= <-];
      try apply completeTextInput_effect;
      (split; [apply doc_kept; reflexivity | solve_history]).
  - destruct (isEditingText s); intros [= <-];
      try apply completeTextInput_effect;
      (split; [apply doc_kept; reflexivity | solve_history]).
  - destruct (selectedElement s) as [sel|]; [destruct (panelShows sel p)|];
      intros [= <-];
      try (apply updateSelectedElement_effect, panelUpdates_id);
      (split; [apply doc_kept; reflexivity | solve_history]).
  - destruct (selectedElement s); intros [= <-];
      try apply deleteSelectedElement_effect;
      (split; [apply doc_kept; reflexivity | solve_history]).
Qed.

Lemma known_mono (n m : nat) (cs : CanvasState) :
  (n <= m)%nat -> known n cs -> known m cs.
Proof.
  intros Hle [Hnd Hin]. split; [exact Hnd|].
  intros i Hi. destruct (Hin i Hi) as (k & Hk & ->). exists k. split; [lia|reflexivity].
Qed.

Lemma known_ids (n : nat) (cs cs' : CanvasState) :
  ids cs' = ids cs -> known n cs -> known n cs'.
Proof. unfold known. intros ->. exact (fun H => H). Qed.

Lemma In_firstn {A} (n : nat) (l : list A) (a : A) :
  In a (firstn n l) -> In a l.
Proof.
  revert l. induction n as [|n IH]; intros [|b l]; simpl; try tauto.
  intros [H|H]; [now left | right; now apply IH].
Qed.

(** *** The history stays valid and every event can be handled *)

Lemma step_historyValid (s s' : EditorState) (ev : Event) :
  historyValid s -> step s ev = Some s' -> historyValid s'.
Proof.
  unfold historyValid. intros Hv Hstep.
  destruct (step_effect s s' ev Hstep) as [_ [Hh Hi|Hh Hi|Hh Hi]].
  - now rewrite Hh, Hi.
  - lia.
  - now rewrite Hh.
Qed.

Lemma step_defined (s : EditorState) (ev : Event) :
  historyValid s -> exists s', step s ev = Some s'.
Proof.
  intros Hv. destruct ev; simpl; try (eexists; reflexivity).
  - destruct (Nat.eq_dec (historyIndex s) 0) as [E|E].
    + exists s. now apply undo_at_zero.
    + destruct (undo_some s Hv) as (c & _ & Hu); [lia|]. eexists. exact Hu.
  - destruct (Nat.eq_dec (historyIndex s + 1) (List.length (history s)))
      as [E|E].
    + exists s. now apply redo_at_tail.
    + destruct (redo_some s) as (c & _ & Hr);
        [unfold historyValid in Hv; lia|]. eexists. exact Hr.
  - destruct (isEditingText s); eexists; reflexivity.
  - destruct (isEditingText s); [destruct k|]; eexists; reflexivity.
  - destruct (isEditingText s); eexists; reflexivity.
  - destruct (selectedElement s) as [sel|]; [destruct (panelShows sel p)|];
      eexists; reflexivity.
  - destruct (selectedElement s); eexists; reflexivity.
Qed.

Lemma run_historyValid (evs : list Event) :
  forall s s', historyValid s -> run s evs = Some s' -> historyValid s'.
Proof.
  induction evs as [|ev evs IH]; simpl; intros s s' Hv Hrun.
  - now injection Hrun as <-.
  - destruct (step s ev) as [s1|] eqn:E; [|discriminate].
    exact (IH s1 s' (step_historyValid s s1 ev Hv E) Hrun).
Qed.

(** Every sequence of events from a state with a valid history is handled to
    the end: the component never has to render an undefined document. *)
Lemma run_defined (evs : list Event) :
  forall s, historyValid s -> exists s', run s evs = Some s'.
Proof.
  induction evs as [|ev evs IH]; simpl; intros s Hv.
  - now exists s.
  - destruct (step_defined s ev Hv) as [s1 E]. rewrite E.
    apply IH. exact (step_historyValid s s1 ev Hv E).
Qed.

Lemma reachable_historyValid (c : option CanvasEl) (s : EditorState) :
  Reachable c s -> historyValid s.
Proof.
  intros [evs Hrun]. apply (run_historyValid evs (initialState c) s); [|exact Hrun].
  unfold historyValid. simpl. lia.
Qed.

Section FreshGenerator.

(** The generator never returns the same identifier twice. *)
Hypothesis randomId_fresh : forall i j, randomId i = randomId j -> i = j.

Lemma known_append (n : nat) (cs cs' : CanvasState) :
  ids cs' = ids cs ++ [randomId n] -> known n cs -> known (S n) cs'.
Proof.
  unfold known. intros -> [Hnd Hin]. split.
  - apply NoDup_app; [exact Hnd | repeat constructor; intros [] |].
    intros a Ha [<-|[]]. destruct (Hin _ Ha) as (k & Hk & E).
    apply randomId_fresh in E. lia.
  - intros i Hi. apply in_app_or in Hi as [Hi|[<-|[]]].
    + destruct (Hin i Hi) as (k & Hk & ->). exists k. split; [lia|reflexivity].
    + exists n. split; [lia|reflexivity].
Qed.

Lemma known_remove (n : nat) (sel : option string) (cs cs' : CanvasState) :
  ids cs' = removeId sel (ids cs) -> known n cs -> known n cs'.
Proof.
  unfold known, removeId. intros -> [Hnd Hin]. split.
  - now apply NoDup_filter.
  - intros i Hi. apply filter_In in Hi as [Hi _]. now apply Hin.
Qed.

(** One event preserves the invariant on identifiers. *)
Lemma step_idsInv (s s' : EditorState) (ev : Event) :
  idsInv s -> step s ev = Some s' -> idsInv s'.
Proof.
  intros [Hdoc Hhist] Hstep.
  destruct (step_effect s s' ev Hstep) as [Hd Hh].
  assert (Hle : (randomCalls s <= randomCalls s')%nat)
    by (destruct Hd as [_ ->| _ ->| _ ->| _ ->]; lia).
  split.
  - destruct Hd as [Hi Hc|Hi Hc|Hi Hc|Hi Hc]; rewrite Hc.
    + exact (known_ids _ _ _ Hi Hdoc).
    + exact (known_append _ _ _ Hi Hdoc).
    + exact (known_remove _ _ _ _ Hi Hdoc).
    + rewrite Forall_forall in Hhist. now apply Hhist.
  - rewrite Forall_forall in *. intros cs Hcs.
    apply (known_mono _ _ _ Hle).
    destruct Hh as [E _|E _|E _]; rewrite E in Hcs;
      [now apply Hhist | | now apply Hhist].
    apply in_app_or in Hcs as [Hcs|[<-|[]]]; [|exact Hdoc].
    apply Hhist. exact (In_firstn _ _ _ Hcs).
Qed.

Lemma run_idsInv (evs : list Event) :
  forall s s', idsInv s -> run s evs = Some s' -> idsInv s'.
Proof.
  induction evs as [|ev evs IH]; simpl; intros s s' Hinv Hrun.
  - now injection Hrun as <-.
  - destruct (step s ev) as [s1|] eqn:E; [|discriminate].
    exact (IH s1 s' (step_idsInv s s1 ev Hinv E) Hrun).
Qed.

Lemma initialState_idsInv (c : option CanvasEl) : idsInv (initialState c).
Proof.
  assert (H : known 0 emptyCanvasState).
  { split; [constructor | intros i []]. }
  split; [exact H | apply Forall_cons; [exact H | apply Forall_nil]].
Qed.

Lemma reachable_idsInv (c : option CanvasEl) (s : EditorState) :
  Reachable c s -> idsInv s.
Proof.
  intros [evs Hrun]. exact (run_idsInv evs _ _ (initialState_idsInv c) Hrun).
Qed.

(** C9, as the code has it.  When the generator never returns the same
    identifier twice, then in every state reached from the empty document
    the identifiers of the document are pairwise distinct, every event is
    handled, and the identifiers stay pairwise distinct after it; an event
    leaves the list of identifiers as it
    is (moves, resizes and property edits keep each element's
    identifier), appends one identifier, removes the selected one, or
    (undo and redo) puts a history entry in place of the document. *)
Theorem C9_identifiers_distinct_and_stable
    (c : option CanvasEl) (s : EditorState) :
  Reachable c s ->
  NoDup (ids (canvasState s))
  /\ (forall ev, exists s', step s ev = Some s')
  /\ forall ev s',
       step s ev = Some s' ->
       NoDup (ids (canvasState s'))
       /\ (idsEvolve (selectedElementId (canvasState s))
             (ids (canvasState s)) (ids (canvasState s'))
           \/ In (canvasState s') (history s)).
Proof.
  intros Hr. pose proof (reachable_idsInv c s Hr) as Hinv.
  split; [apply Hinv|].
  split; [intros ev; apply step_defined, (reachable_historyValid c s Hr)|].
  intros ev s' Hstep. split; [apply (step_idsInv s s' ev Hinv Hstep)|].
  destruct (step_effect s s' ev Hstep) as [[Hi _|Hi _|Hi _|Hi _] _].
  - left. rewrite Hi. constructor.
  - left. rewrite Hi. constructor.
  - left. rewrite Hi. constructor.
  - right. exact Hi.
Qed.

End FreshGenerator.

(** *** Dropping an image *)

Lemma div_mul (m w : Q) : 0 < w -> w * (m / w) == m.
Proof. intros H. field. intros E. rewrite E in H. discriminate. Qed.

(** The fitted size keeps the aspect ratio, stays within the bounds, never
    grows, and is the intrinsic size when that is within the bounds. *)
Lemma fitImage_spec (mw mh w h : Q) :
  0 < mw -> 0 < mh -> 0 < w -> 0 < h ->
  let (w', h') := fitImage mw mh w h in
  w' * h == h' * w /\ w' <= mw /\ h' <= mh /\ w' <= w /\ h' <= h
  /\ (w <= mw -> h <= mh -> w' = w /\ h' = h)
  /\ ((mw < w \/ mh < h) ->
      w' == w * Qmin (mw / w) (mh / h) /\ h' == h * Qmin (mw / w) (mh / h)).
Proof.
  intros Hmw Hmh Hw Hh. unfold fitImage.
  destruct (JS.ltb mw w || JS.ltb mh h)%bool eqn:E.
  - set (r := Qmin (mw / w) (mh / h)).
    assert (H1 : r <= mw / w) by apply Q.le_min_l.
    assert (H2 : r <= mh / h) by apply Q.le_min_r.
    pose proof (div_mul mw w Hw) as E1. pose proof (div_mul mh h Hh) as E2.
    assert (Hr : 0 < r).
    { unfold r. apply Q.min_glb_lt; apply Qlt_shift_div_l; lra. }
    assert (Hr1 : r <= 1).
    { apply orb_true_iff in E as [E|E]; apply ltb_true in E.
      - apply Qle_trans with (mw / w); [exact H1|].
        apply Qle_shift_div_r; lra.
      - apply Qle_trans with (mh / h); [exact H2|].
        apply Qle_shift_div_r; lra. }
    assert (Hwr : w * r <= mw).
    { rewrite <- E1. apply Qmult_le_l; assumption. }
    assert (Hhr : h * r <= mh).
    { rewrite <- E2. apply Qmult_le_l; assumption. }
    repeat split; try assumption; try reflexivity.
    + ring.
    + nra.
    + nra.
    + apply orb_true_iff in E as [E|E]; apply ltb_true in E; lra.
    + apply orb_true_iff in E as [E|E]; apply ltb_true in E; lra.
  - apply orb_false_iff in E as [Ea Eb].
    apply ltb_false in Ea. apply ltb_false in Eb.
    repeat split; try lra; try ring.
Qed.


End Properties.

(** ** The properties on concrete runs *)

Lemma C3_pointer_down_finalizes_text_witness :
  isEditingText
    (render
       (fun s =>
          handleMouseDown JS.sqrtFloor Scenario.measure Scenario.freshIds s
            (Scenario.down 50 50))
       (setTextInputValue Scenario.hi
          (setIsEditingText true (initialState Scenario.canvas))))
  = false.
Proof.
  exact (proj1 (proj2
    (C3_pointer_down_finalizes_text JS.sqrtFloor Scenario.measure
       Scenario.freshIds
       (setTextInputValue Scenario.hi
          (setIsEditingText true (initialState Scenario.canvas)))
       (Scenario.down 50 50) eq_refl))).
Defined.

(** C3, as stated, fails.  With the text tool, a click at (10,10) opens the
    text input and "hi" is typed.  A pointer-down at (50,50) then finalizes
    the text and returns: no new text entry is started, whereas finalizing
    and then running the rest of the handler would have started one at
    (50,50). *)
Lemma C3_pointer_down_not_dispatched :
  exists s,
    Scenario.runFresh (initialState Scenario.canvas)
      [ToolChange Tool.text; MouseDown (Scenario.down 10 10); MouseUp;
       TextChange Scenario.hi] = Some s
    /\ isEditingText s = true
    /\ isEditingText
         (render
            (fun s =>
               handleMouseDown JS.sqrtFloor Scenario.measure
                 Scenario.freshIds s (Scenario.down 50 50)) s)
       = false
    /\ isEditingText
         (render
            (fun s =>
               fallThroughMouseDown Scenario.freshIds JS.sqrtFloor
                 Scenario.measure s (Scenario.down 50 50)) s)
       = true
    /\ render
         (fun s =>
            handleMouseDown JS.sqrtFloor Scenario.measure Scenario.freshIds
              s (Scenario.down 50 50)) s
       <> render
            (fun s =>
               fallThroughMouseDown Scenario.freshIds JS.sqrtFloor
                 Scenario.measure s (Scenario.down 50 50)) s.
Proof.
  eexists.
  split; [vm_compute; reflexivity|].
  split; [reflexivity|].
  split; [reflexivity|].
  split; [reflexivity|].
  intros H. apply (f_equal isEditingText) in H. vm_compute in H.
  discriminate H.
Qed.

Lemma C6_hit_test_topmost_first_witness :
  findElementAtPosition JS.sqrtFloor Scenario.measure
    (setCanvasState
       (mkCanvasState
          [DrawingElement.setSize 10 10
             (DrawingElement.base "A" Tool.rectangle 20 20 "#000000" 2);
           DrawingElement.setSize 100 100
             (DrawingElement.base "B" Tool.rectangle 0 0 "#ffffff" 2)]
          None)
       (initialState Scenario.canvas))
    (Point.mk 25 25)
  = Some "B"%string.
Proof.
  apply (proj2 (proj2 (proj2 (proj2
    (C6_hit_test_topmost_first JS.sqrtFloor Scenario.measure
       (setCanvasState
          (mkCanvasState
             [DrawingElement.setSize 10 10
                (DrawingElement.base "A" Tool.rectangle 20 20 "#000000" 2);
              DrawingElement.setSize 100 100
                (DrawingElement.base "B" Tool.rectangle 0 0 "#ffffff" 2)]
             None)
          (initialState Scenario.canvas))
       (Point.mk 25 25)))))
    [] (DrawingElement.setSize 10 10
          (DrawingElement.base "A" Tool.rectangle 20 20 "#000000" 2))
    [] (DrawingElement.setSize 100 100
          (DrawingElement.base "B" Tool.rectangle 0 0 "#ffffff" 2))
    []).
  - reflexivity.
  - repeat split; vm_compute; discriminate.
  - repeat split; vm_compute; discriminate.
  - apply Forall_nil.
Defined.

Lemma freshIds_nonempty (n : nat) : Scenario.freshIds n <> EmptyString.
Proof. destruct n; discriminate. Qed.

Lemma freshIds_injective :
  forall i j, Scenario.freshIds i = Scenario.freshIds j -> i = j.
Proof.
  induction i as [|i IH]; intros [|j] H; simpl in H.
  - reflexivity.
  - injection H as H. symmetry in H. now apply freshIds_nonempty in H.
  - injection H as H. now apply freshIds_nonempty in H.
  - injection H as H. f_equal. now apply IH.
Qed.

Lemma C9_identifiers_distinct_and_stable_witness :
  exists s,
    Scenario.runFresh (initialState Scenario.canvas)
      Scenario.twoRectangles = Some s
    /\ ids (canvasState s) = ["x"%string; "xx"%string]
    /\ NoDup (ids (canvasState s)).
Proof.
  eexists. split; [vm_compute; reflexivity|]. split; [reflexivity|].
  refine (proj1
    (C9_identifiers_distinct_and_stable JS.sqrtFloor Scenario.measure
       Scenario.freshIds freshIds_injective Scenario.canvas _
       (ex_intro _ Scenario.twoRectangles _))).
  vm_compute. reflexivity.
Defined.

(** C9, as stated, fails.  [generateId] takes a random string and does not
    compare it with the identifiers in use: when the generator returns the
    same string twice, two rectangles drawn one after the other carry the
    same identifier. *)
Lemma C9_identifiers_can_repeat :
  exists s,
    Scenario.runSame (initialState Scenario.canvas)
      Scenario.twoRectangles = Some s
    /\ ids (canvasState s) = ["a"%string; "a"%string]
    /\ ~ NoDup (ids (canvasState s)).
Proof.
  eexists. split; [vm_compute; reflexivity|]. split; [reflexivity|].
  intros H. inversion H as [|a l Hnotin _]. apply Hnotin. now left.
Qed.



(** ** Further properties of the component *)

Section FurtherProperties.

Variable Math_sqrt : Q -> Q.
Variable measureText : Q -> string -> JS.utf16 -> Q.
Variable randomId : nat -> string.

Local Abbreviation step := (step Math_sqrt measureText randomId).
Local Abbreviation run := (run Math_sqrt measureText randomId).
Local Abbreviation Reachable := (Reachable Math_sqrt measureText randomId).
Local Abbreviation handleMouseDown :=
  (handleMouseDown Math_sqrt measureText randomId).
Local Abbreviation mouseDownDispatch :=
  (mouseDownDispatch Math_sqrt measureText randomId).
Local Abbreviation hitElement := (hitElement Math_sqrt measureText).
Local Abbreviation findElementFrom := (findElementFrom Math_sqrt measureText).
Local Abbreviation findElementAtPosition :=
  (findElementAtPosition Math_sqrt measureText).
Local Abbreviation docStep := (docStep Math_sqrt measureText randomId).
Local Abbreviation Shared := (Shared Math_sqrt measureText randomId).
Local Abbreviation shows := (shows Math_sqrt).
Local Abbreviation wrote := (wrote Math_sqrt).

(** *** What one event does to the document *)

Lemma addElement_newShape (s : EditorState) (pos : Point.t) :
  addElement randomId s pos
  = generateId randomId (fun i =>
      appendSelected
        (newShape (tool s) i pos (currentColor s) (strokeWidth s))).
Proof. reflexivity. Qed.

Lemma completeTextInput_doc (s : EditorState) :
  docStep s (render (completeTextInput randomId) s).
Proof.
  unfold render, completeTextInput.
  destruct (JS.trim (textInputValue s)) eqn:Et.
  - apply doc_same. reflexivity.
  - apply (doc_created _ _ _ _ _ (newText s (randomId (randomCalls s)))).
    + apply created_text. rewrite Et. discriminate.
    + reflexivity.
Qed.

Lemma handleMouseDown_doc (s : EditorState) (e : MouseEvent) :
  docStep s (render (fun s => handleMouseDown s e) s).
Proof.
  unfold render, handleMouseDown.
  destruct (isEditingText s); [apply completeTextInput_doc|].
  unfold mouseDownDispatch.
  destruct ((button e =? 1)%nat
            || (button e =? 0)%nat && (ctrlKey e || Tool.eqb (tool s) Tool.pan))%bool.
  { apply doc_same. reflexivity. }
  destruct (tool s) eqn:Et;
    try (apply (doc_created _ _ _ _ _
                  (newShape (tool s) (randomId (randomCalls s))
                     (getMousePos s e) (currentColor s) (strokeWidth s)));
         [apply created_shape; rewrite Et; discriminate | reflexivity]);
    try (apply doc_same; reflexivity).
  apply (doc_selected _ _ _ _ _ (getMousePos s e)).
  destruct (JS.truthyStr _); [destruct (find _ _)|]; reflexivity.
Qed.

Lemma handleMouseMove_doc (s : EditorState) (e : MouseEvent) :
  docStep s (render (fun s => handleMouseMove Math_sqrt s e) s).
Proof.
  unfold render, handleMouseMove.
  destruct (isPanning s); [apply doc_same; reflexivity|].
  destruct (isDragging s && JS.truthyStr (selectedElementId (canvasState s)))%bool.
  { eapply doc_modified; [apply modifier_drag | reflexivity]. }
  destruct (isDrawing s); simpl; [|apply doc_same; reflexivity].
  unfold updCanvasState.
  destruct (List.rev (elements (canvasState s))) as [|cur before] eqn:Er.
  - apply doc_same. destruct s; reflexivity.
  - eapply doc_resized; [exact (rev_last_split _ _ _ Er) | reflexivity].
Qed.

Lemma handleMouseUp_doc (s : EditorState) :
  docStep s (render handleMouseUp s).
Proof.
  unfold render, handleMouseUp.
  destruct (isDragging s), (isDrawing s); apply doc_same; reflexivity.
Qed.

Lemma processImageFile_load (c s : EditorState) (f : File)
    (d : option Point.t) :
  let s' := processImageFile randomId c f d s in
  docStep s s'
  /\ (history s' = history s /\ historyIndex s' = historyIndex s
      \/ history s' = firstn (historyIndex c + 1) (history c) ++ [canvasState c]
         /\ (historyIndex s' + 1)%nat = List.length (history s')).
Proof.
  cbv zeta. unfold processImageFile.
  destruct (decoded f) as [[w h]|];
    [|split; [apply doc_same; reflexivity | left; split; reflexivity]].
  destruct (canvasRef c) as [cv|];
    [|split; [apply doc_same; reflexivity | left; split; reflexivity]].
  destruct (fitImage _ _ _ _) as [w' h'].
  split.
  - eapply doc_created; [apply (created_image _ _ c) | reflexivity].
  - right. split; [reflexivity|]. simpl. rewrite length_app. simpl. lia.
Qed.

Lemma processImageFile_doc (s : EditorState) (f : File) (d : option Point.t) :
  docStep s (render (fun s => processImageFile randomId s f d) s).
Proof. exact (proj1 (processImageFile_load s s f d)). Qed.

Lemma handleDrop_doc (s : EditorState) (e : MouseEvent) (files : list File) :
  docStep s (render (fun s => handleDrop randomId s e files) s).
Proof.
  unfold render, handleDrop.
  destruct (filter _ files) as [|f rest]; [apply doc_same; reflexivity|].
  destruct (canvasRef s) as [cv|] eqn:Ec; [|apply doc_same; reflexivity].
  apply (processImageFile_doc s f).
Qed.

Lemma handleImageUpload_doc (s : EditorState) (file : option File) :
  docStep s (render (fun s => handleImageUpload randomId s file) s).
Proof.
  unfold render, handleImageUpload.
  destruct file as [f|]; [|apply doc_same; reflexivity].
  destruct (negb _); [apply doc_same; reflexivity|].
  apply (processImageFile_doc s f).
Qed.

Lemma updateSelectedElement_doc (s : EditorState) (sel : DrawingElement.t)
    (p : PanelEdit) :
  selectedElement s = Some sel ->
  docStep s (render (fun s => updateSelectedElement s (panelUpdates sel p)) s).
Proof.
  intros Hsel. unfold render, updateSelectedElement.
  destruct (negb _); [apply doc_same; reflexivity|].
  eapply doc_modified; [apply (modifier_panel s sel p Hsel) | reflexivity].
Qed.

Lemma deleteSelectedElement_doc (s : EditorState) :
  docStep s (render deleteSelectedElement s).
Proof.
  unfold render, deleteSelectedElement.
  destruct (negb _); [apply doc_same; reflexivity|].
  apply doc_deleted. reflexivity.
Qed.

Lemma undo_doc (s s' : EditorState) : undo s = Some s' -> docStep s s'.
Proof.
  unfold undo. destruct (0 <? historyIndex s)%nat.
  - destruct (nth_error _ _) as [c|] eqn:E; [|discriminate].
    intros [= <-]. apply doc_undone. simpl. exact (nth_error_In _ _ E).
  - intros [= <-]. apply doc_same. reflexivity.
Qed.

Lemma redo_doc (s s' : EditorState) : redo s = Some s' -> docStep s s'.
Proof.
  unfold redo. destruct (historyIndex s <? _)%nat.
  - destruct (nth_error _ _) as [c|] eqn:E; [|discriminate].
    intros [= <-]. apply doc_undone. simpl. exact (nth_error_In _ _ E).
  - intros [= <-]. apply doc_same. reflexivity.
Qed.

Lemma step_doc (s s' : EditorState) (ev : Event) :
  step s ev = Some s' -> docStep s s'.
Proof.
  destruct ev; simpl;
    try (intros [= <-];
         first [ apply handleMouseDown_doc
               | apply handleMouseMove_doc
               | apply handleMouseUp_doc
               | apply handleDrop_doc
               | apply handleImageUpload_doc
               | apply doc_same; reflexivity ]).
  - unfold render, handleWheel. destruct (wheelCtrlKey e); intros [= <-];
      apply doc_same; reflexivity.
  - apply undo_doc.
  - apply redo_doc.
  - destruct (isEditingText s); intros [= <-]; apply doc_same; reflexivity.
  - destruct (isEditingText s); [destruct k|]; intros [= <-];
      try apply completeTextInput_doc; apply doc_same; reflexivity.
  - destruct (isEditingText s); intros [= <-];
      try apply completeTextInput_doc; apply doc_same; reflexivity.
  - destruct (selectedElement s) as [sel|] eqn:Es;
      [destruct (panelShows sel p)|]; intros [= <-];
      try (now apply updateSelectedElement_doc); apply doc_same; reflexivity.
  - destruct (selectedElement s); intros [= <-];
      try apply deleteSelectedElement_doc; apply doc_same; reflexivity.
Qed.


(** Every state reached by events alone is among the [Shared] ones. *)
Lemma run_Shared (c : option CanvasEl) (evs : list Event) :
  forall s s', Shared c s -> run s evs = Some s' -> Shared c s'.
Proof.
  induction evs as [|ev evs IH]; simpl; intros s s' Hs Hrun.
  - now injection Hrun as <-.
  - destruct (step s ev) as [s1|] eqn:E; [|discriminate].
    exact (IH s1 s' (shared_step _ _ _ c s ev s1 Hs E) Hrun).
Qed.

Lemma Reachable_Shared (c : option CanvasEl) (s : EditorState) :
  Reachable c s -> Shared c s.
Proof.
  intros [evs Hrun].
  exact (run_Shared c evs _ s (shared_initial _ _ _ c) Hrun).
Qed.

(** An invariant of documents that every event keeps, and that a history
    entry keeps when it shows a write, holds of the document and of every
    history entry in every [Shared] state. *)
Lemma shared_invariant (I : CanvasState -> Prop) :
  I emptyCanvasState ->
  (forall s s',
     I (canvasState s) -> Forall I (history s) -> docStep s s' ->
     I (canvasState s')) ->
  (forall cs cs', shows cs cs' -> I cs -> I cs') ->
  forall c s, Shared c s -> I (canvasState s) /\ Forall I (history s).
Proof.
  intros Hempty Hstep Hshow c s Hs.
  induction Hs as [|s0 ev s1 Hs [Hdoc Hhist] E|s0 h' Hs [Hdoc Hhist] Hw
                  |cl s0 f d Hcl [Hcdoc Hchist] Hs [Hdoc Hhist]].
  4:{ destruct (processImageFile_load cl s0 f d) as [Hd [[Eh _]|[Eh _]]].
      - split; [exact (Hstep _ _ Hdoc Hhist Hd) | now rewrite Eh].
      - split; [exact (Hstep _ _ Hdoc Hhist Hd)|]. rewrite Eh.
        apply Forall_app. split.
        + rewrite Forall_forall in *. intros cs Hcs. apply Hchist.
          exact (In_firstn randomId _ _ _ Hcs).
        + apply Forall_cons; [exact Hcdoc | apply Forall_nil]. }
  - split; [exact Hempty | apply Forall_cons; [exact Hempty | apply Forall_nil]].
  - pose proof (step_doc s0 s1 ev E) as Hd.
    destruct (step_effect Math_sqrt measureText randomId s0 s1 ev E)
      as [_ Hh].
    split; [exact (Hstep s0 s1 Hdoc Hhist Hd)|].
    rewrite Forall_forall in *. intros cs Hcs.
    destruct Hh as [Eh _|Eh _|Eh _]; rewrite Eh in Hcs;
      [now apply Hhist | | now apply Hhist].
    apply in_app_or in Hcs as [Hcs|[<-|[]]]; [|exact Hdoc].
    apply Hhist. exact (In_firstn randomId _ _ _ Hcs).
  - split; [exact Hdoc|]. simpl.
    clear Hs Hdoc. induction Hw as [|cs cs' h h' Hc Hw IH].
    + apply Forall_nil.
    + inversion Hhist as [|? ? H1 H2]; subst.
      apply Forall_cons; [exact (Hshow cs cs' Hc H1) | exact (IH H2)].
Qed.

(** A write keeps the identifier of the element. *)
Lemma shows_ids (cs cs' : CanvasState) : shows cs cs' -> ids cs' = ids cs.
Proof.
  intros [_ Hw]. unfold ids.
  induction Hw as [|e e' l l' He Hw IH]; [reflexivity|].
  simpl. rewrite IH. f_equal.
  destruct He as [->|(s & pos & ->)]; [reflexivity|].
  apply (resizeElement_id Math_sqrt).
Qed.

(** *** The selection *)

Lemma findElementAtPosition_In (s : EditorState) (pos : Point.t)
    (i : string) :
  findElementAtPosition s pos = Some i ->
  exists el,
    In el (elements (canvasState s))
    /\ DrawingElement.id el = i
    /\ hitElement (canvasRef s) pos el = true.
Proof.
  unfold findElementAtPosition.
  rewrite (findElementFrom_spec Math_sqrt measureText) by lia.
  rewrite firstn_all.
  destruct (find _ _) as [el|] eqn:E; [|discriminate].
  intros [= <-]. apply find_some in E as [Hin Hhit].
  exists el. split; [now apply in_rev | split; [reflexivity | exact Hhit]].
Qed.

Lemma Modifier_id (s : EditorState)
    (f : DrawingElement.t -> DrawingElement.t) :
  Modifier s f -> forall e, DrawingElement.id (f e) = DrawingElement.id e.
Proof.
  intros [dx dy|sel p _] e.
  - apply dragElement_id.
  - apply merge_id, panelUpdates_id.
Qed.

Lemma selectionOK_step (s s' : EditorState) :
  selectionOK (canvasState s) -> Forall selectionOK (history s) ->
  docStep s s' -> selectionOK (canvasState s').
Proof.
  intros Hsel Hhist Hd. unfold selectionOK in *.
  destruct Hd as [E|pos E|el _ E|f Hf E|pos before cur Eb E|E|Hin];
    try rewrite E; simpl.
  - exact Hsel.
  - destruct (findElementAtPosition s pos) as [i|] eqn:Ef; [|exact I].
    destruct (findElementAtPosition_In s pos i Ef) as (el & Hin & <- & _).
    unfold ids. simpl. now apply in_map.
  - unfold ids. simpl. rewrite map_app. apply in_or_app. right. now left.
  - unfold ids in *. simpl.
    rewrite (map_id_cond _ f _ (Modifier_id s f Hf)). exact Hsel.
  - unfold ids in *. simpl. rewrite Eb in Hsel.
    rewrite map_app in *. simpl in *.
    now rewrite (resizeElement_id Math_sqrt).
  - exact I.
  - rewrite Forall_forall in Hhist. exact (Hhist _ Hin).
Qed.

Lemma selectionOK_shows (cs cs' : CanvasState) :
  shows cs cs' -> selectionOK cs -> selectionOK cs'.
Proof.
  intros Hw. unfold selectionOK.
  rewrite (shows_ids cs cs' Hw). destruct Hw as [-> _]. trivial.
Qed.

(** X1. The selection never dangles: in every state reached from the initial
    one, history entries that show the writes of a live resize included, the
    selected identifier is null or the identifier of an element of the
    document, and the same holds of every history entry. *)
Theorem selection_never_dangles (c : option CanvasEl) (s : EditorState) :
  Shared c s ->
  selectionOK (canvasState s) /\ Forall selectionOK (history s).
Proof.
  apply shared_invariant;
    [exact I | exact selectionOK_step | exact selectionOK_shows].
Qed.

(** *** Elements stay visible and keep the geometry of their type *)

Lemma Created_complete (s : EditorState) (el : DrawingElement.t) :
  Created randomId s el -> complete el = true.
Proof.
  intros [pos Hs Ht Hi|Ht|cl data px py w h]; [|reflexivity|reflexivity].
  destruct (tool s); try reflexivity; contradiction.
Qed.

Lemma dragElement_complete (s : EditorState) (dx dy : Q)
    (e : DrawingElement.t) :
  complete e = true -> complete (dragElement s dx dy e) = true.
Proof.
  unfold dragElement, complete.
  destruct (DrawingElement.type e) eqn:Et; simpl; rewrite Et; auto.
  intros H. apply andb_true_iff in H as [-> _]. reflexivity.
Qed.

Lemma merge_complete (sel e : DrawingElement.t) (p : PanelEdit) :
  complete e = true -> complete (Partial.merge e (panelUpdates sel p)) = true.
Proof.
  unfold complete.
  destruct p; simpl; destruct (DrawingElement.type e); simpl;
    repeat rewrite andb_true_iff; intuition.
Qed.

Lemma resizeElement_complete (s : EditorState) (pos : Point.t)
    (e : DrawingElement.t) :
  complete e = true -> complete (resizeElement Math_sqrt s pos e) = true.
Proof.
  unfold resizeElement, complete.
  destruct (tool s); destruct (DrawingElement.points e) as [pts|] eqn:Ep;
    simpl; destruct (DrawingElement.type e); simpl; try rewrite Ep;
    repeat rewrite andb_true_iff; try solve [intuition].
  all: intros [Hv _]; split; [exact Hv|]; destruct pts; reflexivity.
Qed.

Lemma complete_step (s s' : EditorState) :
  forallb complete (elements (canvasState s)) = true ->
  Forall (fun cs => forallb complete (elements cs) = true) (history s) ->
  docStep s s' ->
  forallb complete (elements (canvasState s')) = true.
Proof.
  intros Hc Hhist Hd.
  destruct Hd as [E|pos E|el Hel E|f Hf E|pos before cur Eb E|E|Hin];
    try rewrite E; simpl; try exact Hc.
  - rewrite forallb_app, Hc. simpl. now rewrite (Created_complete s el Hel).
  - rewrite forallb_forall in *. intros x Hx.
    apply in_map_iff in Hx as (e & <- & He).
    destruct (idIs _ e); [|now apply Hc].
    destruct Hf as [dx dy|sel p _];
      [apply dragElement_complete | apply merge_complete]; now apply Hc.
  - rewrite Eb, forallb_app in Hc. apply andb_true_iff in Hc as [Hb Hcur].
    simpl in Hcur. rewrite andb_true_r in Hcur.
    rewrite forallb_app, Hb. simpl.
    now rewrite (resizeElement_complete s pos cur Hcur).
  - rewrite forallb_forall in *. intros x Hx.
    apply filter_In in Hx as [Hx _]. now apply Hc.
  - rewrite Forall_forall in Hhist. exact (Hhist _ Hin).
Qed.

Lemma complete_shows (cs cs' : CanvasState) :
  shows cs cs' ->
  forallb complete (elements cs) = true ->
  forallb complete (elements cs') = true.
Proof.
  intros [_ Hw]. induction Hw as [|e e' l l' He Hw IH]; [trivial|].
  simpl. rewrite !andb_true_iff. intros [H1 H2]. split; [|exact (IH H2)].
  destruct He as [->|(s & pos & ->)]; [exact H1|].
  now apply resizeElement_complete.
Qed.

(** X2. Every element of every document reached from the initial state, and
    of every history entry (those that show the writes of a live resize
    included), is flagged visible and carries the geometry fields of its
    type (width and height, radius, end point, a non-empty path, a text, an
    image payload with its size): no element is hidden from the hit test,
    and no geometry field it reads is missing. *)
Theorem elements_stay_complete (c : option CanvasEl) (s : EditorState) :
  Shared c s ->
  forallb complete (elements (canvasState s)) = true
  /\ Forall (fun cs => forallb complete (elements cs) = true) (history s).
Proof.
  apply (shared_invariant
           (fun cs => forallb complete (elements cs) = true));
    [reflexivity | exact complete_step | exact complete_shows].
Qed.

(** *** Rotation *)

Lemma trunc_small (q : Q) : 0 <= q -> q < 1 -> JS.trunc q = 0%Z.
Proof.
  unfold Qle, Qlt, JS.trunc. simpl. intros H0 H1.
  apply Z.quot_small. lia.
Qed.

Lemma trunc_one (q : Q) : q == 1 -> JS.trunc q = 1%Z.
Proof.
  unfold Qeq, JS.trunc. simpl. intros H.
  replace (Qnum q) with (Zpos (Qden q)) by lia.
  apply Z.quot_same. discriminate.
Qed.

Lemma rem_small (a : Q) : 0 <= a -> a < 360 -> JS.rem a 360 == a.
Proof.
  intros H0 H1. unfold JS.rem.
  rewrite (trunc_small (a / 360)).
  - ring.
  - apply Qle_shift_div_l; [reflexivity | lra].
  - apply Qlt_shift_div_r; [reflexivity | lra].
Qed.

Lemma rem_full (a : Q) : a == 360 -> JS.rem a 360 == 0.
Proof.
  intros H. unfold JS.rem.
  rewrite (trunc_one (a / 360)).
  - rewrite H. reflexivity.
  - rewrite H. reflexivity.
Qed.

Lemma orNum_eq (v b : Q) : JS.orNum (Some v) b == v \/ (v == 0 /\ JS.orNum (Some v) b = b).
Proof.
  unfold JS.orNum, JS.eqb. destruct (Qeq_bool v 0) eqn:E.
  - right. split; [now apply Qeq_bool_iff | reflexivity].
  - left. reflexivity.
Qed.

(** The rotation the Rotate control sends for an element whose rotation is
    not set or is a quarter turn is again a quarter turn. *)
Lemma rotate_quarterTurn (sel : DrawingElement.t) :
  quarterTurn sel ->
  let r := JS.rem (JS.orNum (DrawingElement.rotation sel) 0 + 90) 360 in
  r == 0 \/ r == 90 \/ r == 180 \/ r == 270.
Proof.
  unfold quarterTurn. cbv zeta.
  destruct (DrawingElement.rotation sel) as [r|].
  - intros Hq.
    assert (Hr : JS.orNum (Some r) 0 == r).
    { destruct (orNum_eq r 0) as [H|[H ->]]; [exact H | now symmetry]. }
    destruct Hq as [H|[H|[H|H]]].
    + right. left. rewrite rem_small; rewrite Hr, H; try reflexivity.
      discriminate.
    + right. right. left. rewrite rem_small; rewrite Hr, H; try reflexivity.
      discriminate.
    + right. right. right. rewrite rem_small; rewrite Hr, H; try reflexivity.
      discriminate.
    + left. apply rem_full. rewrite Hr, H. reflexivity.
  - intros _. right. left. reflexivity.
Qed.

Lemma dragElement_rotation (s : EditorState) (dx dy : Q)
    (e : DrawingElement.t) :
  DrawingElement.rotation (dragElement s dx dy e) = DrawingElement.rotation e.
Proof. unfold dragElement. destruct (DrawingElement.type e); reflexivity. Qed.

Lemma resizeElement_rotation (s : EditorState) (pos : Point.t)
    (e : DrawingElement.t) :
  DrawingElement.rotation (resizeElement Math_sqrt s pos e)
  = DrawingElement.rotation e.
Proof.
  unfold resizeElement.
  destruct (tool s), (DrawingElement.points e); reflexivity.
Qed.

Lemma Created_rotation (s : EditorState) (el : DrawingElement.t) :
  Created randomId s el -> DrawingElement.rotation el = None.
Proof.
  intros [pos _ _ _|_|cl data px py w h]; [|reflexivity|reflexivity].
  destruct (tool s); reflexivity.
Qed.

Lemma merge_quarterTurn (sel e : DrawingElement.t) (p : PanelEdit) :
  quarterTurn sel -> quarterTurn e ->
  quarterTurn (Partial.merge e (panelUpdates sel p)).
Proof.
  intros Hsel He. destruct p; try exact He.
  exact (rotate_quarterTurn sel Hsel).
Qed.

Lemma quarterTurn_step (s s' : EditorState) :
  Forall quarterTurn (elements (canvasState s)) ->
  Forall (fun cs => Forall quarterTurn (elements cs)) (history s) ->
  docStep s s' ->
  Forall quarterTurn (elements (canvasState s')).
Proof.
  intros Hc Hhist Hd.
  destruct Hd as [E|pos E|el Hel E|f Hf E|pos before cur Eb E|E|Hin];
    try rewrite E; simpl; try exact Hc.
  - apply Forall_app. split; [exact Hc|]. apply Forall_cons; [|apply Forall_nil].
    unfold quarterTurn. now rewrite (Created_rotation s el Hel).
  - rewrite Forall_forall in *. intros x Hx.
    apply in_map_iff in Hx as (e & <- & He).
    destruct (idIs _ e); [|now apply Hc].
    destruct Hf as [dx dy|sel p Hsel].
    + unfold quarterTurn. rewrite dragElement_rotation. now apply Hc.
    + apply merge_quarterTurn; [|now apply Hc].
      apply Hc. unfold selectedElement in Hsel.
      now apply find_some in Hsel as [Hin _].
  - rewrite Eb in Hc. apply Forall_app in Hc as [Hb Hcur].
    apply Forall_app. split; [exact Hb|].
    apply Forall_cons; [|apply Forall_nil].
    unfold quarterTurn. rewrite resizeElement_rotation.
    now inversion Hcur.
  - rewrite Forall_forall in *. intros x Hx.
    apply filter_In in Hx as [Hx _]. now apply Hc.
  - rewrite Forall_forall in Hhist. exact (Hhist _ Hin).
Qed.

Lemma quarterTurn_shows (cs cs' : CanvasState) :
  shows cs cs' ->
  Forall quarterTurn (elements cs) -> Forall quarterTurn (elements cs').
Proof.
  intros [_ Hw]. induction Hw as [|e e' l l' He Hw IH]; [trivial|].
  intros H. inversion H as [|? ? H1 H2]; subst.
  apply Forall_cons; [|exact (IH H2)].
  destruct He as [->|(s & pos & ->)]; [exact H1|].
  unfold quarterTurn in *. now rewrite resizeElement_rotation.
Qed.

(** X3. Rotation stays a quarter turn: in every state reached from the
    initial one, the rotation of every element of the document and of every
    history entry (those that show the writes of a live resize included) is
    not set or equals 0, 90, 180 or 270.  The Rotate control of the
    properties panel, [(rotation + 90) % 360], is the only writer. *)
Theorem rotation_is_quarter_turn (c : option CanvasEl) (s : EditorState) :
  Shared c s ->
  Forall quarterTurn (elements (canvasState s))
  /\ Forall (fun cs => Forall quarterTurn (elements cs)) (history s).
Proof.
  apply (shared_invariant (fun cs => Forall quarterTurn (elements cs)));
    [apply Forall_nil | exact quarterTurn_step | exact quarterTurn_shows].
Qed.

(** *** Zoom *)

Lemma completeTextInput_zoom (s : EditorState) :
  zoom (render (completeTextInput randomId) s) = zoom s.
Proof.
  unfold render, completeTextInput.
  destruct (JS.trim (textInputValue s)); reflexivity.
Qed.

Lemma handleMouseDown_zoom (s : EditorState) (e : MouseEvent) :
  zoom (render (fun s => handleMouseDown s e) s) = zoom s.
Proof.
  unfold render, handleMouseDown.
  destruct (isEditingText s); [apply completeTextInput_zoom|].
  unfold mouseDownDispatch.
  destruct ((button e =? 1)%nat
            || (button e =? 0)%nat && (ctrlKey e || Tool.eqb (tool s) Tool.pan))%bool;
    [reflexivity|].
  destruct (tool s); try reflexivity.
  destruct (JS.truthyStr _); [destruct (find _ _)|]; reflexivity.
Qed.

Lemma handleMouseMove_zoom (s : EditorState) (e : MouseEvent) :
  zoom (render (fun s => handleMouseMove Math_sqrt s e) s) = zoom s.
Proof.
  unfold render, handleMouseMove.
  destruct (isPanning s); [reflexivity|].
  destruct (isDragging s && JS.truthyStr (selectedElementId (canvasState s)))%bool;
    [reflexivity|].
  destruct (isDrawing s); reflexivity.
Qed.

Lemma handleMouseUp_zoom (s : EditorState) :
  zoom (render handleMouseUp s) = zoom s.
Proof.
  unfold render, handleMouseUp.
  destruct (isDragging s), (isDrawing s); reflexivity.
Qed.

Lemma processImageFile_zoom (s : EditorState) (f : File) (d : option Point.t) :
  zoom (render (fun s => processImageFile randomId s f d) s) = zoom s.
Proof.
  unfold render, processImageFile.
  destruct (decoded f) as [[w h]|]; [|reflexivity].
  destruct (canvasRef s); [|reflexivity].
  destruct (fitImage _ _ _ _). reflexivity.
Qed.

Lemma step_zoom (s s' : EditorState) (ev : Event) :
  zoomInRange s -> step s ev = Some s' -> zoomInRange s'.
Proof.
  unfold zoomInRange. intros [Hlo Hhi].
  destruct ev; simpl.
  - intros [= <-]. now rewrite handleMouseDown_zoom.
  - intros [= <-]. now rewrite handleMouseMove_zoom.
  - intros [= <-]. now rewrite handleMouseUp_zoom.
  - intros [= <-]. unfold render, handleWheel.
    destruct (wheelCtrlKey e); [|now split]. simpl. split.
    + apply Q.min_glb; [apply Q.le_max_r | discriminate].
    + apply Q.le_min_r.
  - intros [= <-]. unfold render, handleDrop.
    destruct (filter _ files) as [|f rest]; [now split|].
    destruct (canvasRef s) as [cv|] eqn:Ec; [|now split].
    unfold processImageFile.
    destruct (decoded f) as [[w h]|]; [|now split].
    rewrite Ec. destruct (fitImage _ _ _ _). now split.
  - intros [= <-]. unfold render, handleImageUpload.
    destruct file as [f|]; [|now split].
    destruct (negb _); [now split|].
    change (zoomInRange (render (fun s => processImageFile randomId s f None) s)).
    unfold zoomInRange. rewrite processImageFile_zoom. now split.
  - intros [= <-]. now split.
  - intros [= <-]. now split.
  - unfold undo. destruct (0 <? historyIndex s)%nat;
      [destruct (nth_error _ _); [|discriminate]|]; intros [= <-]; now split.
  - unfold redo. destruct (historyIndex s <? _)%nat;
      [destruct (nth_error _ _); [|discriminate]|]; intros [= <-]; now split.
  - intros [= <-]. unfold render, handleZoomIn. simpl. split.
    + apply Q.min_glb; [nra | discriminate].
    + apply Q.le_min_r.
  - intros [= <-]. unfold render, handleZoomOut. simpl. split.
    + apply Q.le_max_r.
    + apply Q.max_lub; [|discriminate].
      apply Qle_shift_div_r; [reflexivity | nra].
  - intros [= <-]. simpl. split; discriminate.
  - destruct (isEditingText s); intros [= <-]; now split.
  - destruct (isEditingText s); [destruct k|]; intros [= <-];
      try rewrite completeTextInput_zoom; now split.
  - destruct (isEditingText s); intros [= <-];
      try rewrite completeTextInput_zoom; now split.
  - destruct (selectedElement s) as [sel|]; [destruct (panelShows sel p)|];
      intros [= <-]; try now split.
    unfold render, updateSelectedElement. destruct (negb _); now split.
  - destruct (selectedElement s); intros [= <-]; try now split.
    unfold render, deleteSelectedElement. destruct (negb _); now split.
Qed.

(** X4. The zoom factor stays within [0.1, 5] in every state reached from the
    initial one, whatever the sequence of zoom buttons, wheel events and
    other events; in particular the divisor of the screen-to-document
    conversion is never zero. *)
Theorem zoom_stays_in_range (c : option CanvasEl) (s : EditorState) :
  Reachable c s -> zoomInRange s /\ ~ zoom s == 0.
Proof.
  intros [evs Hrun].
  assert (Hr : zoomInRange s).
  { revert Hrun. assert (Hinit : zoomInRange (initialState c))
      by (split; discriminate).
    revert Hinit. generalize (initialState c).
    induction evs as [|ev evs IH]; simpl; intros s0 Hz Hrun.
    - now injection Hrun as <-.
    - destruct (step s0 ev) as [s1|] eqn:E; [|discriminate].
      exact (IH s1 (step_zoom s0 s1 ev Hz E) Hrun). }
  split; [exact Hr|]. apply zoom_nonzero. apply Hr.
Qed.

(** *** History *)

Lemma first_entry_step (s s' : EditorState) (ev : Event) (c0 : CanvasState) :
  nth_error (history s) 0 = Some c0 -> step s ev = Some s' ->
  nth_error (history s') 0 = Some c0.
Proof.
  intros H0 Hstep.
  destruct (step_effect Math_sqrt measureText randomId s s' ev Hstep)
    as [_ [Eh _|Eh _|Eh _]]; rewrite Eh; try exact H0.
  destruct (history s) as [|h t]; [discriminate H0|].
  rewrite Nat.add_1_r. simpl in *. exact H0.
Qed.

(** X5. In every state reached from the initial one, history entries that
    show the writes of a live resize included, the history index points
    inside the history, the first history entry is the empty document, and
    every further sequence of events is handled to the end: no undo or redo
    ever reads outside the history. *)
Theorem history_stays_valid (c : option CanvasEl) (s : EditorState) :
  Shared c s ->
  historyValid s
  /\ nth_error (history s) 0 = Some emptyCanvasState
  /\ forall evs, exists s', run s evs = Some s'.
Proof.
  intros Hs.
  assert (H : historyValid s
              /\ nth_error (history s) 0 = Some emptyCanvasState).
  { induction Hs as [|s0 ev s1 Hs [Hv H0] E|s0 h' Hs [Hv H0] Hw
                    |cl s0 f d Hcl [Hcv Hc0] Hs [Hv H0]].
    4:{ destruct (processImageFile_load cl s0 f d) as [_ [[Eh Ei]|[Eh Ei]]];
          unfold historyValid in *.
        - rewrite Eh, Ei. split; assumption.
        - split; [lia|]. rewrite Eh.
          destruct (history cl) as [|h0 t]; [discriminate Hc0|].
          rewrite Nat.add_1_r. simpl in *. exact Hc0. }
    - split; [unfold historyValid; simpl; lia | reflexivity].
    - split.
      + exact (step_historyValid Math_sqrt measureText randomId s0 s1 ev
                 Hv E).
      + exact (first_entry_step s0 s1 ev _ H0 E).
    - unfold historyValid in *. simpl.
      rewrite <- (Forall2_length Hw). split; [exact Hv|].
      destruct Hw as [|cs cs' h h'' [Hsel Hel] Hw]; [discriminate H0|].
      simpl in *. injection H0 as ->. simpl in *.
      destruct cs' as [els sel]. simpl in *. subst sel.
      inversion Hel. reflexivity. }
  destruct H as [Hv H0]. split; [exact Hv|]. split; [exact H0|].
  intros evs. exact (run_defined Math_sqrt measureText randomId evs s Hv).
Qed.

End FurtherProperties.

(** X6. The Undo and Redo buttons are enabled exactly when they change the
    state: on a valid history, [undo] leaves the state as it is if and only
    if [canUndo] is false, and [redo] if and only if [canRedo] is false. *)
Theorem buttons_enabled_iff_effective (s : EditorState) :
  historyValid s ->
  (undo s = Some s <-> canUndo s = false)
  /\ (redo s = Some s <-> canRedo s = false).
Proof.
  intros Hv. unfold canUndo, canRedo. split; split.
  - intros Hu. destruct (Nat.ltb_spec 0 (historyIndex s)) as [Hpos|]; [|reflexivity].
    destruct (undo_some s Hv Hpos) as (c & _ & Hu').
    rewrite Hu in Hu'. injection Hu' as Hu'.
    apply (f_equal historyIndex) in Hu'. simpl in Hu'. lia.
  - intros H. unfold undo. now rewrite H.
  - intros Hr.
    destruct (Nat.ltb_spec (historyIndex s) (List.length (history s) - 1))
      as [Hlt|]; [|reflexivity].
    destruct (redo_some s) as (c & _ & Hr'); [lia|].
    rewrite Hr in Hr'. injection Hr' as Hr'.
    apply (f_equal historyIndex) in Hr'. simpl in Hr'. lia.
  - intros H. unfold redo. now rewrite H.
Qed.

Lemma setCanvasState_restore (s : EditorState) (i : nat) (c : CanvasState) :
  setCanvasState (canvasState s)
    (setHistoryIndex (historyIndex s)
       (setCanvasState c (setHistoryIndex i s))) = s.
Proof. destruct s; reflexivity. Qed.

(** X7. Undo and redo are inverse to each other whenever the document on
    screen is the history entry under the index: [undo] followed by [redo],
    and [redo] followed by [undo], give back the very same state. *)
Theorem undo_redo_inverse (s : EditorState) :
  historyValid s -> historySynced s ->
  ((0 < historyIndex s)%nat ->
   exists s1, undo s = Some s1 /\ redo s1 = Some s)
  /\ ((historyIndex s + 1 < List.length (history s))%nat ->
      exists s1, redo s = Some s1 /\ undo s1 = Some s).
Proof.
  unfold historyValid, historySynced. intros Hv Hs. split; intros H.
  - destruct (undo_some s Hv H) as (c & _ & Hu).
    eexists. split; [exact Hu|].
    set (s1 := setCanvasState c (setHistoryIndex (historyIndex s - 1) s)).
    destruct (redo_some s1) as (c' & Hc' & Hr).
    { simpl. lia. }
    rewrite Hr. f_equal. simpl in Hc'.
    replace (historyIndex s - 1 + 1)%nat with (historyIndex s) in * by lia.
    rewrite Hs in Hc'. injection Hc' as <-.
    replace (historyIndex s1 + 1)%nat with (historyIndex s)
      by (simpl; lia).
    apply setCanvasState_restore.
  - destruct (redo_some s H) as (c & _ & Hr).
    eexists. split; [exact Hr|].
    set (s1 := setCanvasState c (setHistoryIndex (historyIndex s + 1) s)).
    destruct (undo_some s1) as (c' & Hc' & Hu).
    { unfold historyValid. simpl. lia. }
    { simpl. lia. }
    rewrite Hu. f_equal. simpl in Hc'.
    replace (historyIndex s + 1 - 1)%nat with (historyIndex s) in * by lia.
    rewrite Hs in Hc'. injection Hc' as <-.
    replace (historyIndex s1 - 1)%nat with (historyIndex s)
      by (simpl; lia).
    apply setCanvasState_restore.
Qed.

(** X8. A draw or a drag can be undone and redone: when a pointer-up ends a
    gesture in a state whose history is valid and whose entry under the
    index is [d], the last committed document, then the pointer-up commits
    the document on screen, [undo] shows [d] again, and [redo] shows the
    document of the gesture again. *)
Theorem gesture_commit_undo_redo (s : EditorState) (d : CanvasState) :
  historyValid s ->
  (isDragging s || isDrawing s)%bool = true ->
  nth_error (history s) (historyIndex s) = Some d ->
  exists s1 s2 s3,
    s1 = render handleMouseUp s
    /\ history s1 = firstn (historyIndex s + 1) (history s) ++ [canvasState s]
    /\ canvasState s1 = canvasState s
    /\ undo s1 = Some s2 /\ canvasState s2 = d
    /\ redo s2 = Some s3 /\ canvasState s3 = canvasState s
    /\ history s3 = history s1 /\ historyIndex s3 = historyIndex s1.
Proof.
  unfold historyValid. intros Hv Hg Hd.
  destruct (handleMouseUp_commits s Hg) as [Hh Hi].
  set (s1 := render handleMouseUp s) in *.
  assert (Hc1 : canvasState s1 = canvasState s).
  { unfold s1, render, handleMouseUp.
    destruct (isDragging s), (isDrawing s); reflexivity. }
  assert (Hlen : List.length (history s1) = (historyIndex s + 2)%nat).
  { rewrite Hh, length_app, length_firstn. simpl. lia. }
  assert (Hi1 : historyIndex s1 = (historyIndex s + 1)%nat) by lia.
  destruct (undo_some s1) as (c & Hc & Hu).
  { unfold historyValid. lia. } { lia. }
  rewrite Hi1, Hh in Hc.
  replace (historyIndex s + 1 - 1)%nat with (historyIndex s) in Hc by lia.
  rewrite nth_error_app1 in Hc by (rewrite length_firstn; lia).
  rewrite nth_error_firstn in Hc.
  destruct (Nat.ltb_spec (historyIndex s) (historyIndex s + 1)); [|lia].
  rewrite Hd in Hc. injection Hc as <-.
  set (s2 := setCanvasState d (setHistoryIndex (historyIndex s1 - 1) s1)) in *.
  destruct (redo_some s2) as (c' & Hc' & Hr).
  { change (historyIndex s2) with (historyIndex s1 - 1)%nat.
    change (history s2) with (history s1). lia. }
  change (historyIndex s2) with (historyIndex s1 - 1)%nat in Hc'.
  change (history s2) with (history s1) in Hc'.
  rewrite Hi1, Hh in Hc'.
  replace (historyIndex s + 1 - 1 + 1)%nat
    with (List.length (firstn (historyIndex s + 1) (history s))) in Hc'
    by (rewrite length_firstn; lia).
  rewrite nth_error_app2, Nat.sub_diag in Hc' by lia.
  injection Hc' as <-.
  exists s1, s2. eexists.
  split; [reflexivity|]. split; [exact Hh|]. split; [exact Hc1|].
  split; [exact Hu|]. split; [reflexivity|]. split; [exact Hr|].
  split; [reflexivity|]. split; [reflexivity|].
  change (historyIndex s2 + 1 = historyIndex s1)%nat.
  change (historyIndex s2) with (historyIndex s1 - 1)%nat. lia.
Qed.

(** *** Deleting and updating the selected element *)

Lemma filter_absent (i : string) (l : list DrawingElement.t) :
  ~ In i (map DrawingElement.id l) ->
  filter (fun e => negb (idIs (Some i) e)) l = l.
Proof.
  induction l as [|a l IH]; simpl; intros Hnot; [reflexivity|].
  destruct (String.eqb_spec (DrawingElement.id a) i) as [E|E]; simpl.
  - exfalso. apply Hnot. now left.
  - f_equal. apply IH. intros H. apply Hnot. now right.
Qed.

Lemma filter_length_NoDup (i : string) (l : list DrawingElement.t) :
  NoDup (map DrawingElement.id l) ->
  In i (map DrawingElement.id l) ->
  (List.length (filter (fun e => negb (idIs (Some i) e)) l) + 1)%nat
  = List.length l.
Proof.
  induction l as [|a l IH]; intros Hnd Hin; [contradiction|].
  inversion Hnd as [|x xs Hnotin Hnd']; subst.
  cbn [filter]. unfold idIs at 1.
  destruct (String.eqb_spec (DrawingElement.id a) i) as [E|E];
    cbn [negb List.length].
  - subst i. rewrite (filter_absent _ _ Hnotin). lia.
  - destruct Hin as [Hin|Hin]; [contradiction|].
    rewrite <- (IH Hnd' Hin). lia.
Qed.

(** X9. Deleting the selection: with nothing selected the command changes
    nothing; otherwise the selection becomes null and the document keeps, in
    their order, exactly the elements whose identifier differs from the
    selected one; when identifiers are distinct and the selection is in the
    document, exactly one element goes. *)
Theorem delete_removes_the_selection (s : EditorState) :
  let s' := render deleteSelectedElement s in
  (JS.truthyStr (selectedElementId (canvasState s)) = false -> s' = s)
  /\ (forall i,
        selectedElementId (canvasState s) = Some i -> i <> EmptyString ->
        selectedElementId (canvasState s') = None
        /\ ids (canvasState s') = removeId (Some i) (ids (canvasState s))
        /\ ~ In i (ids (canvasState s'))
        /\ (forall e,
              In e (elements (canvasState s'))
              <-> In e (elements (canvasState s))
                  /\ DrawingElement.id e <> i)
        /\ (NoDup (ids (canvasState s)) -> In i (ids (canvasState s)) ->
            (List.length (elements (canvasState s')) + 1)%nat
            = List.length (elements (canvasState s)))).
Proof.
  cbv zeta. unfold render, deleteSelectedElement. split.
  - intros ->. reflexivity.
  - intros i Hsel Hi.
    assert (Ht : JS.truthyStr (selectedElementId (canvasState s)) = true).
    { rewrite Hsel. destruct i; [now elim Hi | reflexivity]. }
    rewrite Ht. simpl. rewrite Hsel.
    pose proof (map_id_filter (Some i) (elements (canvasState s))) as Hids.
    split; [reflexivity|]. split; [exact Hids|].
    split.
    { intros H. unfold ids in H. simpl in H. unfold idIs in Hids.
      rewrite Hids in H. unfold removeId in H.
      apply filter_In in H as [_ H].
      now rewrite String.eqb_refl in H. }
    split.
    { intros e. rewrite filter_In. unfold idIs.
      destruct (String.eqb_spec (DrawingElement.id e) i); simpl;
        intuition congruence. }
    intros Hnd Hin. now apply filter_length_NoDup.
Qed.

(** X10. A property update touches the selection only: with nothing selected
    it changes nothing; otherwise the number and order of the elements and
    the selection are kept, every element whose identifier is not the
    selected one is left as it is, and every element with the selected
    identifier receives the fields of the update. *)
Theorem update_touches_only_the_selection (s : EditorState) (u : Partial.t) :
  let s' := render (fun s => updateSelectedElement s u) s in
  (JS.truthyStr (selectedElementId (canvasState s)) = false -> s' = s)
  /\ (JS.truthyStr (selectedElementId (canvasState s)) = true ->
      selectedElementId (canvasState s') = selectedElementId (canvasState s)
      /\ List.length (elements (canvasState s'))
         = List.length (elements (canvasState s))
      /\ forall k e,
           nth_error (elements (canvasState s)) k = Some e ->
           nth_error (elements (canvasState s')) k
           = Some (if idIs (selectedElementId (canvasState s)) e
                   then Partial.merge e u else e)).
Proof.
  cbv zeta. unfold render, updateSelectedElement. split.
  - intros ->. reflexivity.
  - intros ->. simpl. split; [reflexivity|]. split; [apply length_map|].
    intros k e Hk. rewrite nth_error_map, Hk. reflexivity.
Qed.

(** *** Pointer moves *)

(** X11. What a pointer-move never does: it leaves the history index, the
    selection, the identifiers of the elements and their order, the tool,
    the zoom, the gesture flags and the identifier generator as they are.
    While panning it leaves the document and the history alone, and
    otherwise the viewport; a drag move leaves the history alone; and with
    no gesture in progress it does nothing at all. *)
Theorem pointer_move_preserves (Math_sqrt : Q -> Q) (s : EditorState)
    (e : MouseEvent) :
  let s' := render (fun s => handleMouseMove Math_sqrt s e) s in
  historyIndex s' = historyIndex s
  /\ selectedElementId (canvasState s') = selectedElementId (canvasState s)
  /\ ids (canvasState s') = ids (canvasState s)
  /\ tool s' = tool s /\ zoom s' = zoom s
  /\ isPanning s' = isPanning s /\ isDragging s' = isDragging s
  /\ isDrawing s' = isDrawing s /\ isEditingText s' = isEditingText s
  /\ randomCalls s' = randomCalls s
  /\ (isPanning s = true ->
      canvasState s' = canvasState s /\ history s' = history s)
  /\ (isPanning s = false ->
      panOffset s' = panOffset s /\ lastPanPoint s' = lastPanPoint s)
  /\ (isDragging s = true ->
      JS.truthyStr (selectedElementId (canvasState s)) = true ->
      history s' = history s)
  /\ (isPanning s = false -> isDragging s = false -> isDrawing s = false ->
      s' = s).
Proof.
  cbv zeta. unfold render, handleMouseMove.
  destruct (isPanning s) eqn:Ep.
  { repeat split; intros; try reflexivity; try discriminate;
      unfold skip; simpl; congruence. }
  destruct (isDragging s) eqn:Eg;
    [destruct (JS.truthyStr (selectedElementId (canvasState s))) eqn:Et|];
    cbn [andb].
  { repeat split; intros; try reflexivity; try discriminate;
      try (unfold skip; simpl; congruence).
    unfold ids. simpl. apply map_id_cond. intros el. apply dragElement_id. }
  all: destruct (isDrawing s) eqn:Ed; cbn [negb];
    [|repeat split; intros; try reflexivity; try discriminate;
      unfold skip; simpl; congruence].
  all: unfold updCanvasState;
    destruct (List.rev (elements (canvasState s))) as [|cur before] eqn:Er;
    simpl;
    [repeat split; intros; try reflexivity; try discriminate;
     unfold skip; simpl; congruence|].
  all: repeat split; intros; try reflexivity; try discriminate;
    try (unfold skip; simpl; congruence).
  all: unfold ids; simpl; rewrite (rev_last_split _ _ _ Er), !map_app; simpl;
    now rewrite resizeElement_id.
Qed.

(** *** Uploading an image *)

(** X12. Upload through the file input: no file, a file that is not of an
    image type, or one that cannot be decoded, changes nothing.  An image
    decoded with positive intrinsic size, on a mounted canvas of positive
    size, is appended as one selected image element of the fitted size,
    centred on the canvas and lying entirely inside it. *)
Theorem upload_centres_the_image (randomId : nat -> string)
    (s : EditorState) (file : option File) :
  let s' := render (fun s => handleImageUpload randomId s file) s in
  (file = None -> s' = s)
  /\ (forall f, file = Some f ->
        JS.startsWith (fileType f) "image/" = false \/ decoded f = None ->
        s' = s)
  /\ (forall f c w h,
        file = Some f ->
        JS.startsWith (fileType f) "image/" = true ->
        decoded f = Some (w, h) ->
        canvasRef s = Some c ->
        0 < w -> 0 < h -> 0 < canvasWidth c -> 0 < canvasHeight c ->
        exists el w' h',
          elements (canvasState s') = elements (canvasState s) ++ [el]
          /\ selectedElementId (canvasState s')
             = Some (DrawingElement.id el)
          /\ DrawingElement.type el = Tool.image
          /\ (w', h')
             = fitImage (canvasWidth c * 0.5) (canvasHeight c * 0.5) w h
          /\ DrawingElement.width el = Some w'
          /\ DrawingElement.height el = Some h'
          /\ DrawingElement.imageWidth el = Some w'
          /\ DrawingElement.imageHeight el = Some h'
          /\ DrawingElement.x el + w' / 2 == canvasWidth c / 2
          /\ DrawingElement.y el + h' / 2 == canvasHeight c / 2
          /\ 0 <= DrawingElement.x el
          /\ DrawingElement.x el + w' <= canvasWidth c
          /\ 0 <= DrawingElement.y el
          /\ DrawingElement.y el + h' <= canvasHeight c).
Proof.
  cbv zeta. unfold render, handleImageUpload. split; [|split].
  - intros ->. reflexivity.
  - intros f -> [Ht|Hd].
    + rewrite Ht. reflexivity.
    + destruct (negb _); [reflexivity|].
      unfold processImageFile. rewrite Hd. reflexivity.
  - intros f c w h -> Ht Hd Hc Hw Hh Hcw Hch.
    rewrite Ht. simpl. unfold processImageFile. rewrite Hd, Hc.
    pose proof (fitImage_spec (canvasWidth c * 0.5) (canvasHeight c * 0.5)
                  w h) as Hfit.
    destruct (fitImage (canvasWidth c * 0.5) (canvasHeight c * 0.5) w h)
      as [w' h'].
    destruct Hfit as (_ & Hbw & Hbh & _ & _ & _ & _); try lra.
    eexists. exists w', h'.
    repeat (split; [reflexivity|]). simpl.
    unfold Qdiv. change (/ 2) with (1 # 2).
    repeat split; lra.
Qed.

(** *** Finishing a text *)

Lemma blank_rev (s : JS.utf16) : blank (List.rev s) = blank s.
Proof.
  unfold blank. induction s as [|c s IH]; simpl; [reflexivity|].
  rewrite forallb_app, IH. simpl. rewrite andb_true_r. apply andb_comm.
Qed.

Lemma trimStart_blank (s : JS.utf16) :
  JS.trimStart s = [] <-> blank s = true.
Proof.
  unfold blank. induction s as [|c s IH]; simpl; [tauto|].
  destruct (JS.isWhite c); simpl; [exact IH|].
  split; discriminate.
Qed.

Lemma trimStart_head (s : JS.utf16) :
  blank (JS.trimStart s) = true -> JS.trimStart s = [].
Proof.
  unfold blank. induction s as [|c s IH]; simpl; [reflexivity|].
  destruct (JS.isWhite c) eqn:E; [exact IH|].
  simpl. rewrite E. discriminate.
Qed.

(** [trim] leaves nothing exactly of the texts made of white space. *)
Lemma trim_blank (s : JS.utf16) : JS.trim s = [] <-> blank s = true.
Proof.
  unfold JS.trim. split.
  - intros H.
    destruct (JS.trimStart (List.rev (JS.trimStart s))) as [|a l] eqn:E.
    + apply trimStart_blank in E. rewrite blank_rev in E.
      apply trimStart_head in E. now apply trimStart_blank.
    + simpl in H. destruct (List.rev l); discriminate.
  - intros H. apply trimStart_blank in H. rewrite H. reflexivity.
Qed.

(** A no-break space, an em space and a byte order mark are white space
    for [trim], as tabs and spaces are. *)
Lemma trim_unicode_white_space :
  JS.trim [160; 8195; 65279; 9; 32]%N = []
  /\ JS.trim [32; 104; 160]%N = [104%N].
Proof. split; reflexivity. Qed.

(** X13. Finishing a text entry.  While a text is being edited: Escape ends
    the editing and leaves document, history and identifier generator as
    they are, whatever was typed; so do Enter, loss of focus and a
    pointer-down when the typed text consists of white space only; and when
    it does not, each of the three appends exactly one text element that
    carries the text as typed (white space included) at the position where
    the editing began, and selects it. *)
Theorem finishing_a_text (Math_sqrt : Q -> Q)
    (measureText : Q -> string -> JS.utf16 -> Q) (randomId : nat -> string)
    (s : EditorState) :
  isEditingText s = true ->
  (exists s',
     step Math_sqrt measureText randomId s (TextKeyDown Escape) = Some s'
     /\ canvasState s' = canvasState s /\ history s' = history s
     /\ historyIndex s' = historyIndex s /\ randomCalls s' = randomCalls s
     /\ isEditingText s' = false /\ textInputValue s' = [])
  /\ forall ev,
       ev = TextKeyDown Enter \/ ev = TextBlur \/ (exists e, ev = MouseDown e) ->
       exists s',
         step Math_sqrt measureText randomId s ev = Some s'
         /\ isEditingText s' = false /\ textInputValue s' = []
         /\ (blank (textInputValue s) = true ->
             canvasState s' = canvasState s /\ history s' = history s
             /\ historyIndex s' = historyIndex s
             /\ randomCalls s' = randomCalls s)
         /\ (blank (textInputValue s) = false ->
             canvasState s'
             = mkCanvasState
                 (elements (canvasState s)
                  ++ [newText s (randomId (randomCalls s))])
                 (Some (randomId (randomCalls s)))).
Proof.
  intros He. split.
  - eexists. simpl. rewrite He. split; [reflexivity|]. repeat split.
  - intros ev Hev.
    assert (Hstep : step Math_sqrt measureText randomId s ev
                    = Some (render (completeTextInput randomId) s)).
    { destruct Hev as [->|[->|[e ->]]]; simpl; try rewrite He; try reflexivity.
      unfold render, handleMouseDown. now rewrite He. }
    exists (render (completeTextInput randomId) s).
    split; [exact Hstep|]. unfold render, completeTextInput.
    destruct (JS.trim (textInputValue s)) as [|ch rest] eqn:Et.
    + repeat (split; [reflexivity|]). split; [intros _; repeat split|].
      intros Hb. apply trim_blank in Et. congruence.
    + repeat (split; [reflexivity|]). split; [|intros _; reflexivity].
      intros Hb. apply trim_blank in Hb. congruence.
Qed.

(** *** Geometry of the hit test *)

(** X14. Rectangles and triangles are hit on their normalized bounding box: a
    visible element of either type is hit at a point exactly when the point
    lies between [x] and [x + width] and between [y] and [y + height], in
    whichever order a negative width or height puts them; for a triangle
    this is the bounding box, not the triangle.  A degenerate element of
    size zero is hit at its anchor only. *)
Theorem rectangle_hit_box (Math_sqrt : Q -> Q)
    (measureText : Q -> string -> JS.utf16 -> Q) (canvas : option CanvasEl)
    (pos : Point.t) (el : DrawingElement.t) :
  DrawingElement.type el = Tool.rectangle
  \/ DrawingElement.type el = Tool.triangle ->
  DrawingElement.visible el = Some true ->
  let x := DrawingElement.x el in
  let y := DrawingElement.y el in
  let w := JS.orNum (DrawingElement.width el) 0 in
  let h := JS.orNum (DrawingElement.height el) 0 in
  (hitElement Math_sqrt measureText canvas pos el = true
   <-> Qmin x (x + w) <= Point.x pos /\ Point.x pos <= Qmax x (x + w)
       /\ Qmin y (y + h) <= Point.y pos /\ Point.y pos <= Qmax y (y + h))
  /\ (w == 0 -> h == 0 ->
      (hitElement Math_sqrt measureText canvas pos el = true
       <-> samePoint pos (Point.mk x y))).
Proof.
  intros Ht Hv x y w h.
  assert (Hbox :
    hitElement Math_sqrt measureText canvas pos el = true
    <-> Qmin x (x + w) <= Point.x pos /\ Point.x pos <= Qmax x (x + w)
        /\ Qmin y (y + h) <= Point.y pos /\ Point.y pos <= Qmax y (y + h)).
  { unfold hitElement. rewrite Hv. simpl.
    assert (Hm :
      (JS.leb (if JS.leb 0 w then x else x + w) (Point.x pos)
       && JS.leb (Point.x pos) (if JS.leb 0 w then x + w else x)
       && JS.leb (if JS.leb 0 h then y else y + h) (Point.y pos)
       && JS.leb (Point.y pos) (if JS.leb 0 h then y + h else y))%bool = true
      <-> Qmin x (x + w) <= Point.x pos /\ Point.x pos <= Qmax x (x + w)
          /\ Qmin y (y + h) <= Point.y pos /\ Point.y pos <= Qmax y (y + h)).
    { rewrite !andb_true_iff, !leb_le.
      destruct (JS.leb 0 w) eqn:Ew; destruct (JS.leb 0 h) eqn:Eh;
        try apply leb_le in Ew; try apply leb_le in Eh;
        try apply leb_gt in Ew; try apply leb_gt in Eh.
      - rewrite (Q.min_l x (x + w)), (Q.max_r x (x + w)),
          (Q.min_l y (y + h)), (Q.max_r y (y + h)) by lra. tauto.
      - rewrite (Q.min_l x (x + w)), (Q.max_r x (x + w)),
          (Q.min_r y (y + h)), (Q.max_l y (y + h)) by lra. tauto.
      - rewrite (Q.min_r x (x + w)), (Q.max_l x (x + w)),
          (Q.min_l y (y + h)), (Q.max_r y (y + h)) by lra. tauto.
      - rewrite (Q.min_r x (x + w)), (Q.max_l x (x + w)),
          (Q.min_r y (y + h)), (Q.max_l y (y + h)) by lra. tauto. }
    destruct Ht as [->| ->]; exact Hm. }
  split; [exact Hbox|].
  intros Hw Hh. rewrite Hbox. unfold samePoint. simpl.
  rewrite (Q.min_l x (x + w)), (Q.max_l x (x + w)),
    (Q.min_l y (y + h)), (Q.max_l y (y + h)) by lra.
  split.
  - intros (H1 & H2 & H3 & H4). split; lra.
  - intros [H1 H2]. lra.
Qed.

(** X15. A line of length zero cannot be hit: when the end point of a line
    element reads as its anchor, the hit test fails at every point.  This is
    the line a click with the line tool leaves when the pointer does not
    move before the button is released. *)
Theorem zero_length_line_is_never_hit (Math_sqrt : Q -> Q)
    (measureText : Q -> string -> JS.utf16 -> Q) (canvas : option CanvasEl)
    (pos : Point.t) :
  (forall el,
     DrawingElement.type el = Tool.line ->
     JS.orNum (DrawingElement.endX el) (DrawingElement.x el)
     == DrawingElement.x el ->
     JS.orNum (DrawingElement.endY el) (DrawingElement.y el)
     == DrawingElement.y el ->
     hitElement Math_sqrt measureText canvas pos el = false)
  /\ forall i p c sw,
       hitElement Math_sqrt measureText canvas pos
         (newShape Tool.line i p c sw) = false.
Proof.
  assert (Hgen : forall el,
     DrawingElement.type el = Tool.line ->
     JS.orNum (DrawingElement.endX el) (DrawingElement.x el)
     == DrawingElement.x el ->
     JS.orNum (DrawingElement.endY el) (DrawingElement.y el)
     == DrawingElement.y el ->
     hitElement Math_sqrt measureText canvas pos el = false).
  { intros el Ht Hx Hy. unfold hitElement. rewrite Ht.
    destruct (negb _); [reflexivity|].
    set (lenSq := _ * _ + _ * _).
    assert (E : JS.eqb lenSq 0 = true).
    { unfold JS.eqb. apply Qeq_bool_iff. unfold lenSq. rewrite Hx, Hy. ring. }
    cbv zeta. fold lenSq. rewrite E. reflexivity. }
  split; [exact Hgen|].
  intros i p c sw. apply Hgen; [reflexivity| |].
  - change (JS.orNum (Some (Point.x p)) (Point.x p) == Point.x p).
    destruct (orNum_eq (Point.x p) (Point.x p)) as [H|[_ ->]];
      [exact H | reflexivity].
  - change (JS.orNum (Some (Point.y p)) (Point.y p) == Point.y p).
    destruct (orNum_eq (Point.y p) (Point.y p)) as [H|[_ ->]];
      [exact H | reflexivity].
Qed.

(** X16. Circles, stars and polygons are hit on the disc of their radius:
    where [Math.sqrt] returns the exact non-negative root of the squared
    distance between the point and the centre, a visible element of one of
    these types with a non-negative radius is hit exactly when the squared
    distance is at most the squared radius (for a star or a hexagon this is
    the circumscribed disc), and one with a negative radius is never hit. *)
Theorem disc_hit (Math_sqrt : Q -> Q)
    (measureText : Q -> string -> JS.utf16 -> Q) (canvas : option CanvasEl)
    (pos : Point.t) (el : DrawingElement.t) :
  DrawingElement.type el = Tool.circle
  \/ DrawingElement.type el = Tool.star
  \/ DrawingElement.type el = Tool.polygon ->
  DrawingElement.visible el = Some true ->
  let r := JS.orNum (DrawingElement.radius el) 0 in
  let d :=
    distance Math_sqrt (Point.x pos) (Point.y pos) (DrawingElement.x el)
      (DrawingElement.y el) in
  0 <= d ->
  d * d
  == (Point.x pos - DrawingElement.x el) ^ 2
     + (Point.y pos - DrawingElement.y el) ^ 2 ->
  (0 <= r ->
   (hitElement Math_sqrt measureText canvas pos el = true
    <-> (Point.x pos - DrawingElement.x el) ^ 2
        + (Point.y pos - DrawingElement.y el) ^ 2 <= r * r))
  /\ (r < 0 -> hitElement Math_sqrt measureText canvas pos el = false).
Proof.
  intros Ht Hv r d Hd0 Hdd.
  assert (Hhit : hitElement Math_sqrt measureText canvas pos el = JS.leb d r).
  { unfold hitElement. rewrite Hv. simpl.
    destruct Ht as [->|[->| ->]]; reflexivity. }
  rewrite Hhit. split.
  - intros Hr. rewrite leb_le, <- Hdd. split; intros H; nra.
  - intros Hr. apply leb_gt. lra.
Qed.

(** *** Gestures *)

Section Gestures.

Variable Math_sqrt : Q -> Q.
Variable measureText : Q -> string -> JS.utf16 -> Q.
Variable randomId : nat -> string.

Local Abbreviation step := (step Math_sqrt measureText randomId).
Local Abbreviation run := (run Math_sqrt measureText randomId).
Local Abbreviation handleMouseDown :=
  (handleMouseDown Math_sqrt measureText randomId).
Local Abbreviation mouseDownDispatch :=
  (mouseDownDispatch Math_sqrt measureText randomId).
Local Abbreviation findElementAtPosition :=
  (findElementAtPosition Math_sqrt measureText).

Lemma run_app (evs1 evs2 : list Event) :
  forall s s1, run s evs1 = Some s1 -> run s (evs1 ++ evs2) = run s1 evs2.
Proof.
  induction evs1 as [|ev evs1 IH]; simpl; intros s s1 H.
  - now injection H as ->.
  - destruct (step s ev) as [s0|]; [|discriminate]. now apply IH.
Qed.

Lemma run_one (s : EditorState) (ev : Event) : run s [ev] = step s ev.
Proof. simpl. destruct (step s ev); reflexivity. Qed.

(** **** Drawing *)

Lemma mouseDown_draws (s : EditorState) (e : MouseEvent) :
  isEditingText s = false -> startsPan s e = false ->
  tool s <> Tool.select -> tool s <> Tool.text -> tool s <> Tool.image ->
  render (fun s => handleMouseDown s e) s
  = drawingState s
      (newShape (tool s) (randomId (randomCalls s)) (getMousePos s e)
         (currentColor s) (strokeWidth s)).
Proof.
  intros He Hp Hs Ht Hi. unfold render, handleMouseDown. rewrite He.
  unfold mouseDownDispatch. unfold startsPan in Hp. rewrite Hp.
  destruct (tool s) eqn:Et; try contradiction;
    unfold drawingState, newShape; destruct s; simpl in *; subst;
    reflexivity.
Qed.

Lemma drawingState_id (s : EditorState) (el : DrawingElement.t) :
  getMousePos (drawingState s el) = getMousePos s.
Proof. reflexivity. Qed.

Lemma mouseMove_draws (s : EditorState) (el : DrawingElement.t)
    (e : MouseEvent) :
  isPanning s = false -> isDragging s = false ->
  render (fun s => handleMouseMove Math_sqrt s e) (drawingState s el)
  = drawingState s (resizeElement Math_sqrt s (getMousePos s e) el).
Proof.
  intros Hp Hd. unfold render, handleMouseMove.
  change (isPanning (drawingState s el)) with (isPanning s).
  change (isDragging (drawingState s el)) with (isDragging s).
  rewrite Hp, Hd. simpl. unfold updCanvasState. simpl.
  rewrite rev_unit, rev_involutive.
  unfold drawingState. rewrite resizeElement_id.
  reflexivity.
Qed.

Lemma moves_draw (s : EditorState) (es : list MouseEvent) :
  isPanning s = false -> isDragging s = false ->
  forall el,
    run (drawingState s el) (map MouseMove es)
    = Some (drawingState s
              (fold_left
                 (fun el e => resizeElement Math_sqrt s (getMousePos s e) el)
                 es el)).
Proof.
  intros Hp Hd. induction es as [|e es IH]; intros el; [reflexivity|].
  simpl. rewrite (mouseMove_draws s el e Hp Hd). apply IH.
Qed.

Lemma mouseUp_draws (s : EditorState) (el : DrawingElement.t) :
  isDragging s = false ->
  let q := drawingState s el in
  let s' := render handleMouseUp q in
  canvasState s' = canvasState q
  /\ history s' = firstn (historyIndex s + 1) (history s) ++ [canvasState q]
  /\ (historyIndex s' + 1)%nat = List.length (history s')
  /\ isDrawing s' = false /\ isDragging s' = false /\ isPanning s' = false
  /\ tool s' = tool s /\ randomCalls s' = S (randomCalls s).
Proof.
  intros Hd. cbv zeta. unfold render, handleMouseUp.
  change (isDragging (drawingState s el)) with (isDragging s).
  rewrite Hd. simpl.
  repeat split; try reflexivity; try assumption.
  rewrite length_app. simpl. lia.
Qed.

Lemma resize_last_wins (s : EditorState) (p p' : Point.t)
    (el : DrawingElement.t) :
  isShapeTool (tool s) = true ->
  resizeElement Math_sqrt s p (resizeElement Math_sqrt s p' el)
  = resizeElement Math_sqrt s p el.
Proof.
  unfold resizeElement. destruct (tool s); try discriminate; intros _;
    destruct (DrawingElement.points el); reflexivity.
Qed.

Lemma fold_resize_last (s : EditorState) (es : list MouseEvent)
    (e : MouseEvent) (el : DrawingElement.t) :
  isShapeTool (tool s) = true ->
  fold_left (fun el e => resizeElement Math_sqrt s (getMousePos s e) el)
    (es ++ [e]) el
  = resizeElement Math_sqrt s (getMousePos s e) el.
Proof.
  intros Ht. rewrite fold_left_app. simpl.
  revert el. induction es as [|e' es IH]; intros el; [reflexivity|].
  simpl. rewrite IH. now apply resize_last_wins.
Qed.

(** X17. Drawing a shape depends on the first and the last pointer position
    only.  With a shape tool (rectangle, triangle, circle, star, polygon or
    line), outside text editing, panning and dragging: a pointer-down that
    does not start a pan, any pointer-moves and a pointer-up append exactly
    one element, anchored at the document point of the pointer-down and
    sized by the document point of the last move (signed width and height;
    radius; end point), select it, and commit the document that contains it
    as the new last history entry. *)
Theorem drawing_a_shape (s : EditorState) (e0 : MouseEvent)
    (es : list MouseEvent) (eN : MouseEvent) :
  isEditingText s = false -> isPanning s = false -> isDragging s = false ->
  startsPan s e0 = false -> isShapeTool (tool s) = true ->
  let p := getMousePos s e0 in
  let q := getMousePos s eN in
  let i := randomId (randomCalls s) in
  exists s' el,
    run s (MouseDown e0 :: map MouseMove (es ++ [eN]) ++ [MouseUp]) = Some s'
    /\ canvasState s'
       = mkCanvasState (elements (canvasState s) ++ [el]) (Some i)
    /\ el = resizeElement Math_sqrt s q
              (newShape (tool s) i p (currentColor s) (strokeWidth s))
    /\ DrawingElement.id el = i
    /\ DrawingElement.type el = tool s
    /\ DrawingElement.x el = Point.x p /\ DrawingElement.y el = Point.y p
    /\ (tool s = Tool.rectangle \/ tool s = Tool.triangle ->
        DrawingElement.width el = Some (Point.x q - Point.x p)
        /\ DrawingElement.height el = Some (Point.y q - Point.y p))
    /\ (tool s = Tool.circle \/ tool s = Tool.star \/ tool s = Tool.polygon ->
        DrawingElement.radius el
        = Some (distance Math_sqrt (Point.x q) (Point.y q) (Point.x p)
                  (Point.y p)))
    /\ (tool s = Tool.line ->
        DrawingElement.endX el = Some (Point.x q)
        /\ DrawingElement.endY el = Some (Point.y q))
    /\ history s'
       = firstn (historyIndex s + 1) (history s) ++ [canvasState s']
    /\ (historyIndex s' + 1)%nat = List.length (history s')
    /\ isDrawing s' = false /\ isDragging s' = false
    /\ isPanning s' = false.
Proof.
  intros He Hp Hd Hpan Ht p q i.
  set (el0 := newShape (tool s) i p (currentColor s) (strokeWidth s)).
  set (el := resizeElement Math_sqrt s q el0).
  assert (Hdown : step s (MouseDown e0) = Some (drawingState s el0)).
  { simpl. f_equal. apply mouseDown_draws; try assumption;
      intros E; rewrite E in Ht; discriminate. }
  assert (Hmoves : run (drawingState s el0) (map MouseMove (es ++ [eN]))
                   = Some (drawingState s el)).
  { rewrite (moves_draw s (es ++ [eN]) Hp Hd el0).
    now rewrite fold_resize_last. }
  destruct (mouseUp_draws s el Hd) as (Hc & Hh & Hi & Hf1 & Hf2 & Hf3 & _).
  exists (render handleMouseUp (drawingState s el)), el.
  split.
  { change (MouseDown e0 :: map MouseMove (es ++ [eN]) ++ [MouseUp])
      with ([MouseDown e0] ++ map MouseMove (es ++ [eN]) ++ [MouseUp]).
    rewrite (run_app [MouseDown e0] _ s (drawingState s el0))
      by (rewrite run_one; exact Hdown).
    rewrite (run_app _ [MouseUp] _ _ Hmoves). reflexivity. }
  assert (Hid : DrawingElement.id el = i).
  { unfold el. rewrite resizeElement_id. unfold el0, newShape.
    destruct (tool s); reflexivity. }
  split. { rewrite Hc. unfold drawingState. simpl. now rewrite Hid. }
  split; [reflexivity|]. split; [exact Hid|].
  split. { unfold el, el0, resizeElement, newShape.
           destruct (tool s); try discriminate; reflexivity. }
  split. { unfold el, el0, resizeElement, newShape.
           destruct (tool s); try discriminate; reflexivity. }
  split. { unfold el, el0, resizeElement, newShape.
           destruct (tool s); try discriminate; reflexivity. }
  split. { intros [E|E]; unfold el, el0, resizeElement, newShape;
             rewrite E; split; reflexivity. }
  split. { intros [E|[E|E]]; unfold el, el0, resizeElement, newShape;
             rewrite E; reflexivity. }
  split. { intros E; unfold el, el0, resizeElement, newShape;
             rewrite E; split; reflexivity. }
  split. { rewrite Hh, Hc. reflexivity. }
  repeat split; assumption.
Qed.

Lemma fold_brush (s : EditorState) (es : list MouseEvent) :
  tool s = Tool.brush ->
  forall pts el,
    fold_left (fun el e => resizeElement Math_sqrt s (getMousePos s e) el)
      es (DrawingElement.setPoints pts el)
    = DrawingElement.setPoints (pts ++ map (getMousePos s) es) el.
Proof.
  intros Ht. induction es as [|e es IH]; intros pts el; simpl.
  - now rewrite app_nil_r.
  - unfold resizeElement at 2. rewrite Ht. simpl.
    change (DrawingElement.setPoints (pts ++ [getMousePos s e])
              (DrawingElement.setPoints pts el))
      with (DrawingElement.setPoints (pts ++ [getMousePos s e]) el).
    rewrite IH, <- app_assoc. reflexivity.
Qed.

(** X18. The brush records the path of the pointer.  With the brush tool,
    outside text editing, panning and dragging: a pointer-down that does not
    start a pan, any pointer-moves (none included) and a pointer-up append
    exactly one brush element whose path is the document point of the
    pointer-down followed by the document points of all the moves, in their
    order; it is selected, and the document that contains it is committed as
    the new last history entry. *)
Theorem brush_records_the_path (s : EditorState) (e0 : MouseEvent)
    (es : list MouseEvent) :
  isEditingText s = false -> isPanning s = false -> isDragging s = false ->
  startsPan s e0 = false -> tool s = Tool.brush ->
  let p := getMousePos s e0 in
  let i := randomId (randomCalls s) in
  exists s' el,
    run s (MouseDown e0 :: map MouseMove es ++ [MouseUp]) = Some s'
    /\ canvasState s'
       = mkCanvasState (elements (canvasState s) ++ [el]) (Some i)
    /\ DrawingElement.points el = Some (p :: map (getMousePos s) es)
    /\ DrawingElement.id el = i
    /\ DrawingElement.type el = Tool.brush
    /\ DrawingElement.x el = Point.x p /\ DrawingElement.y el = Point.y p
    /\ DrawingElement.color el = currentColor s
    /\ DrawingElement.strokeWidth el = strokeWidth s
    /\ history s'
       = firstn (historyIndex s + 1) (history s) ++ [canvasState s']
    /\ (historyIndex s' + 1)%nat = List.length (history s')
    /\ isDrawing s' = false.
Proof.
  intros He Hp Hd Hpan Ht p i.
  set (base := DrawingElement.base i Tool.brush (Point.x p) (Point.y p)
                 (currentColor s) (strokeWidth s)).
  set (el := DrawingElement.setPoints ([p] ++ map (getMousePos s) es) base).
  assert (Hdown : step s (MouseDown e0)
                  = Some (drawingState s (DrawingElement.setPoints [p] base))).
  { simpl. f_equal. rewrite mouseDown_draws; try assumption;
      try (rewrite Ht; discriminate).
    rewrite Ht. reflexivity. }
  assert (Hmoves :
    run (drawingState s (DrawingElement.setPoints [p] base))
      (map MouseMove es) = Some (drawingState s el)).
  { rewrite (moves_draw s es Hp Hd). now rewrite (fold_brush s es Ht). }
  destruct (mouseUp_draws s el Hd) as (Hc & Hh & Hi & Hf1 & _).
  exists (render handleMouseUp (drawingState s el)), el.
  split.
  { change (MouseDown e0 :: map MouseMove es ++ [MouseUp])
      with ([MouseDown e0] ++ map MouseMove es ++ [MouseUp]).
    rewrite (run_app [MouseDown e0] _ s
               (drawingState s (DrawingElement.setPoints [p] base)))
      by (rewrite run_one; exact Hdown).
    rewrite (run_app _ [MouseUp] _ _ Hmoves). reflexivity. }
  split; [rewrite Hc; reflexivity|].
  repeat (split; [reflexivity|]).
  split; [rewrite Hh, Hc; reflexivity|].
  split; assumption.
Qed.

(** **** Panning *)

Lemma mouseDown_pans (s : EditorState) (e : MouseEvent) :
  isEditingText s = false -> startsPan s e = true ->
  render (fun s => handleMouseDown s e) s
  = panningState s (panOffset s) (Point.mk (clientX e) (clientY e)).
Proof.
  intros He Hp. unfold render, handleMouseDown. rewrite He.
  unfold mouseDownDispatch. unfold startsPan in Hp. rewrite Hp.
  destruct s; reflexivity.
Qed.

Lemma mouseMove_pans (s : EditorState) (P L : Point.t) (e : MouseEvent) :
  render (fun s => handleMouseMove Math_sqrt s e) (panningState s P L)
  = panningState s (fst (panStep (P, L) e)) (snd (panStep (P, L) e)).
Proof. reflexivity. Qed.

Lemma moves_pan (s : EditorState) (es : list MouseEvent) :
  forall P L,
    run (panningState s P L) (map MouseMove es)
    = Some (panningState s (fst (fold_left panStep es (P, L)))
              (snd (fold_left panStep es (P, L)))).
Proof.
  induction es as [|e es IH]; intros P L; [reflexivity|].
  simpl. rewrite mouseMove_pans. rewrite IH. reflexivity.
Qed.

(** The pan offset accumulated over the moves is the offset at the start
    plus the displacement of the pointer. *)
Lemma pan_telescopes (es : list MouseEvent) :
  forall P L,
    let r := fold_left panStep es (P, L) in
    Point.x (fst r) == Point.x P + (Point.x (snd r) - Point.x L)
    /\ Point.y (fst r) == Point.y P + (Point.y (snd r) - Point.y L).
Proof.
  induction es as [|e es IH]; intros P L; simpl.
  - split; ring.
  - destruct (IH (fst (panStep (P, L) e)) (snd (panStep (P, L) e)))
      as [Hx Hy].
    rewrite <- surjective_pairing in Hx, Hy. simpl in Hx, Hy.
    split; [rewrite Hx | rewrite Hy]; simpl; ring.
Qed.

Lemma pan_last (es : list MouseEvent) (e : MouseEvent) (P L : Point.t) :
  snd (fold_left panStep (es ++ [e]) (P, L))
  = Point.mk (clientX e) (clientY e).
Proof. rewrite fold_left_app. reflexivity. Qed.

(** X19. Panning follows the pointer.  Outside text editing, drawing and
    dragging, a pointer-down with the middle button, or with the left button
    and the control key or the pan tool, followed by pointer-moves and a
    pointer-up, changes the pan offset by the displacement of the pointer
    from the pointer-down to the last move, however the moves are spread;
    the document point under the pointer at the end is the one that was
    under it at the start; and the document, the history and the zoom are
    left as they are. *)
Theorem panning_follows_the_pointer (s : EditorState) (e0 : MouseEvent)
    (es : list MouseEvent) (eN : MouseEvent) :
  isEditingText s = false -> isDragging s = false -> isDrawing s = false ->
  startsPan s e0 = true ->
  exists s',
    run s (MouseDown e0 :: map MouseMove (es ++ [eN]) ++ [MouseUp]) = Some s'
    /\ Point.x (panOffset s')
       == Point.x (panOffset s) + (clientX eN - clientX e0)
    /\ Point.y (panOffset s')
       == Point.y (panOffset s) + (clientY eN - clientY e0)
    /\ samePoint (getMousePos s' eN) (getMousePos s e0)
    /\ canvasState s' = canvasState s
    /\ history s' = history s /\ historyIndex s' = historyIndex s
    /\ zoom s' = zoom s /\ tool s' = tool s
    /\ isPanning s' = false /\ isDrawing s' = false
    /\ isDragging s' = false.
Proof.
  intros He Hd Hw Hp.
  set (L0 := Point.mk (clientX e0) (clientY e0)).
  set (r := fold_left panStep (es ++ [eN]) (panOffset s, L0)).
  assert (Hdown : step s (MouseDown e0)
                  = Some (panningState s (panOffset s) L0)).
  { simpl. f_equal. now apply mouseDown_pans. }
  pose proof (moves_pan s (es ++ [eN]) (panOffset s) L0) as Hmoves.
  fold r in Hmoves.
  destruct (pan_telescopes (es ++ [eN]) (panOffset s) L0) as [Hx Hy].
  fold r in Hx, Hy.
  assert (Hl : snd r = Point.mk (clientX eN) (clientY eN))
    by apply pan_last.
  rewrite Hl in Hx, Hy. simpl in Hx, Hy.
  exists (render handleMouseUp (panningState s (fst r) (snd r))).
  split.
  { change (MouseDown e0 :: map MouseMove (es ++ [eN]) ++ [MouseUp])
      with ([MouseDown e0] ++ map MouseMove (es ++ [eN]) ++ [MouseUp]).
    rewrite (run_app [MouseDown e0] _ s (panningState s (panOffset s) L0))
      by (rewrite run_one; exact Hdown).
    rewrite (run_app _ [MouseUp] _ _ Hmoves). reflexivity. }
  unfold render, handleMouseUp.
  change (isDragging (panningState s (fst r) (snd r))) with (isDragging s).
  change (isDrawing (panningState s (fst r) (snd r))) with (isDrawing s).
  rewrite Hd, Hw. simpl.
  split; [exact Hx|]. split; [exact Hy|].
  split.
  { unfold samePoint, getMousePos. simpl.
    destruct (canvasRef s) as [cv|]; simpl; [|split; reflexivity].
    unfold Qdiv. split.
    - apply Qmult_comp; [|reflexivity]. rewrite Hx. ring.
    - apply Qmult_comp; [|reflexivity]. rewrite Hy. ring. }
  repeat split; assumption.
Qed.

(** **** Dragging *)

Lemma mouseDown_drags (s : EditorState) (e : MouseEvent) (i : string)
    (el0 : DrawingElement.t) :
  isEditingText s = false -> startsPan s e = false ->
  tool s = Tool.select ->
  findElementAtPosition s (getMousePos s e) = Some i -> i <> EmptyString ->
  find (idIs (Some i)) (elements (canvasState s)) = Some el0 ->
  render (fun s => handleMouseDown s e) s
  = draggingState s i (getMousePos s e)
      (Point.mk (DrawingElement.x el0) (DrawingElement.y el0))
      (elements (canvasState s)).
Proof.
  intros He Hp Ht Hf Hi Hfind. unfold render, handleMouseDown. rewrite He.
  unfold mouseDownDispatch. unfold startsPan in Hp. rewrite Hp, Ht, Hf.
  assert (Htr : JS.truthyStr (Some i) = true)
    by (destruct i; [now elim Hi | reflexivity]).
  rewrite Htr, Hfind. reflexivity.
Qed.

Lemma mouseMove_drags (s : EditorState) (i : string) (p0 a0 : Point.t)
    (els : list DrawingElement.t) (e : MouseEvent) :
  isPanning s = false -> i <> EmptyString ->
  render (fun s => handleMouseMove Math_sqrt s e)
    (draggingState s i p0 a0 els)
  = draggingState s i p0 a0
      (map (fun el => dragStep s i p0 a0 el e) els).
Proof.
  intros Hp Hi.
  assert (Htr : JS.truthyStr (Some i) = true)
    by (destruct i; [now elim Hi | reflexivity]).
  unfold render, handleMouseMove, draggingState, dragStep, andThen,
    updCanvasState, getMousePos.
  cbn [isPanning isDragging canvasState selectedElementId setDragElementStart
       setDragStart setIsDragging setCanvasState setIsDrawing dragStart
       dragElementStart canvasRef panOffset zoom elements andb].
  rewrite Hp, Htr.
  cbn [isPanning isDragging canvasState selectedElementId setDragElementStart
       setDragStart setIsDragging setCanvasState setIsDrawing dragStart
       dragElementStart canvasRef panOffset zoom elements andb].
  unfold dragElement.
  cbn [isPanning isDragging canvasState selectedElementId setDragElementStart
       setDragStart setIsDragging setCanvasState setIsDrawing dragStart
       dragElementStart canvasRef panOffset zoom elements andb].
  reflexivity.
Qed.

Lemma moves_drag (s : EditorState) (i : string) (p0 a0 : Point.t)
    (es : list MouseEvent) :
  isPanning s = false -> i <> EmptyString ->
  forall els,
    run (draggingState s i p0 a0 els) (map MouseMove es)
    = Some (draggingState s i p0 a0
              (map (fun el => fold_left (dragStep s i p0 a0) es el) els)).
Proof.
  intros Hp Hi. induction es as [|e es IH]; intros els; simpl.
  - now rewrite map_id.
  - rewrite (mouseMove_drags s i p0 a0 els e Hp Hi), IH, map_map.
    reflexivity.
Qed.

Lemma dragStep_id (s : EditorState) (i : string) (p0 a0 : Point.t)
    (el : DrawingElement.t) (e : MouseEvent) :
  DrawingElement.id (dragStep s i p0 a0 el e) = DrawingElement.id el
  /\ DrawingElement.type (dragStep s i p0 a0 el e) = DrawingElement.type el.
Proof.
  unfold dragStep. destruct (idIs (Some i) el); [|split; reflexivity].
  split; [apply dragElement_id|].
  unfold dragElement. destruct (DrawingElement.type el) eqn:Et; exact Et.
Qed.

Lemma fold_dragStep (s : EditorState) (i : string) (p0 a0 : Point.t)
    (es : list MouseEvent) :
  forall el,
    let el' := fold_left (dragStep s i p0 a0) es el in
    DrawingElement.id el' = DrawingElement.id el
    /\ DrawingElement.type el' = DrawingElement.type el
    /\ (DrawingElement.id el <> i -> el' = el)
    /\ (DrawingElement.type el <> Tool.line ->
        el' = el \/ exists X Y, el' = DrawingElement.setXY X Y el).
Proof.
  induction es as [|e es IH]; intros el; simpl.
  - repeat split; try reflexivity. intros _. now left.
  - destruct (dragStep_id s i p0 a0 el e) as [Hid Hty].
    destruct (IH (dragStep s i p0 a0 el e)) as (H1 & H2 & H3 & H4).
    split; [congruence|]. split; [congruence|]. split.
    + intros Hne.
      assert (E : dragStep s i p0 a0 el e = el).
      { unfold dragStep, idIs.
        destruct (String.eqb_spec (DrawingElement.id el) i);
          [contradiction | reflexivity]. }
      rewrite E in *. now apply H3.
    + intros Hnl.
      assert (E : dragStep s i p0 a0 el e = el
                  \/ exists X Y,
                       dragStep s i p0 a0 el e = DrawingElement.setXY X Y el).
      { unfold dragStep. destruct (idIs (Some i) el); [|now left].
        right. unfold dragElement.
        destruct (DrawingElement.type el); try (now elim Hnl);
          eexists; eexists; reflexivity. }
      destruct (H4 ltac:(congruence)) as [H|(X & Y & H)].
      * rewrite H. exact E.
      * right. rewrite H. destruct E as [->|(X' & Y' & ->)];
          eexists; eexists; reflexivity.
Qed.

Lemma fold_dragStep_last (s : EditorState) (i : string) (p0 a0 : Point.t)
    (es : list MouseEvent) (e : MouseEvent) (el : DrawingElement.t) :
  DrawingElement.id el = i -> DrawingElement.type el <> Tool.line ->
  fold_left (dragStep s i p0 a0) (es ++ [e]) el
  = DrawingElement.setXY
      (Point.x a0 + (Point.x (getMousePos s e) - Point.x p0))
      (Point.y a0 + (Point.y (getMousePos s e) - Point.y p0)) el.
Proof.
  intros Hid Hnl. rewrite fold_left_app. simpl.
  destruct (fold_dragStep s i p0 a0 es el) as (H1 & H2 & _ & H4).
  set (el' := fold_left (dragStep s i p0 a0) es el) in *.
  unfold dragStep, idIs. rewrite H1, Hid, String.eqb_refl.
  unfold dragElement. rewrite H2.
  destruct (H4 Hnl) as [->|(X & Y & ->)];
    destruct (DrawingElement.type el); try (now elim Hnl); reflexivity.
Qed.

Lemma mouseUp_drags (s : EditorState) (i : string) (p0 a0 : Point.t)
    (els : list DrawingElement.t) :
  let q := draggingState s i p0 a0 els in
  let s' := render handleMouseUp q in
  canvasState s' = mkCanvasState els (Some i)
  /\ history s'
     = firstn (historyIndex s + 1) (history s) ++ [mkCanvasState els (Some i)]
  /\ (historyIndex s' + 1)%nat = List.length (history s')
  /\ isDragging s' = false /\ isDrawing s' = false
  /\ isPanning s' = false.
Proof.
  cbv zeta. unfold render, handleMouseUp, draggingState, saveToHistory,
    andThen.
  cbn [isPanning isDragging isDrawing canvasState history historyIndex
       setDragElementStart setDragStart setIsDragging setCanvasState
       setIsDrawing setIsPanning setHistory setHistoryIndex].
  repeat split. rewrite length_app. simpl. lia.
Qed.

(** X20. Dragging moves the selection without drift, lines apart.  With the
    select tool, outside text editing and panning: a pointer-down that does
    not start a pan and hits the identifier [i], followed by pointer-moves
    and a pointer-up, keeps the selection on [i], keeps the number, order,
    identifiers and types of the elements, leaves every element whose
    identifier is not [i] as it is, and puts every element of identifier
    [i] that is not a line at the anchor of the first such element plus the
    displacement of the pointer from the pointer-down to the last move, all
    its other fields unchanged; the document on screen is committed as the
    new last history entry. *)
Theorem dragging_moves_the_selection (s : EditorState) (e0 : MouseEvent)
    (es : list MouseEvent) (eN : MouseEvent) (i : string)
    (el0 : DrawingElement.t) :
  isEditingText s = false -> isPanning s = false ->
  startsPan s e0 = false -> tool s = Tool.select ->
  findElementAtPosition s (getMousePos s e0) = Some i -> i <> EmptyString ->
  find (idIs (Some i)) (elements (canvasState s)) = Some el0 ->
  let X :=
    DrawingElement.x el0
    + (Point.x (getMousePos s eN) - Point.x (getMousePos s e0)) in
  let Y :=
    DrawingElement.y el0
    + (Point.y (getMousePos s eN) - Point.y (getMousePos s e0)) in
  exists s',
    run s (MouseDown e0 :: map MouseMove (es ++ [eN]) ++ [MouseUp]) = Some s'
    /\ selectedElementId (canvasState s') = Some i
    /\ List.length (elements (canvasState s'))
       = List.length (elements (canvasState s))
    /\ (forall k e,
          nth_error (elements (canvasState s)) k = Some e ->
          exists e',
            nth_error (elements (canvasState s')) k = Some e'
            /\ DrawingElement.id e' = DrawingElement.id e
            /\ DrawingElement.type e' = DrawingElement.type e
            /\ (DrawingElement.id e <> i -> e' = e)
            /\ (DrawingElement.id e = i ->
                DrawingElement.type e <> Tool.line ->
                e' = DrawingElement.setXY X Y e))
    /\ history s'
       = firstn (historyIndex s + 1) (history s) ++ [canvasState s']
    /\ (historyIndex s' + 1)%nat = List.length (history s')
    /\ isDragging s' = false /\ isDrawing s' = false
    /\ isPanning s' = false.
Proof.
  intros He Hp Hpan Ht Hf Hi Hfind X Y.
  set (p0 := getMousePos s e0).
  set (a0 := Point.mk (DrawingElement.x el0) (DrawingElement.y el0)).
  set (els := elements (canvasState s)).
  set (els' := map (fun el => fold_left (dragStep s i p0 a0) (es ++ [eN]) el)
                 els).
  assert (Hdown : step s (MouseDown e0) = Some (draggingState s i p0 a0 els)).
  { simpl. f_equal. now apply mouseDown_drags. }
  pose proof (moves_drag s i p0 a0 (es ++ [eN]) Hp Hi els) as Hmoves.
  fold els' in Hmoves.
  destruct (mouseUp_drags s i p0 a0 els') as (Hc & Hh & Hi' & Hf1 & Hf2 & Hf3).
  set (s' := render handleMouseUp (draggingState s i p0 a0 els')) in *.
  exists s'.
  split.
  { change (MouseDown e0 :: map MouseMove (es ++ [eN]) ++ [MouseUp])
      with ([MouseDown e0] ++ map MouseMove (es ++ [eN]) ++ [MouseUp]).
    rewrite (run_app [MouseDown e0] _ s (draggingState s i p0 a0 els))
      by (rewrite run_one; exact Hdown).
    rewrite (run_app _ [MouseUp] _ _ Hmoves). apply run_one. }
  split; [rewrite Hc; reflexivity|].
  split; [rewrite Hc; apply length_map|].
  split.
  { intros k e Hk.
    exists (fold_left (dragStep s i p0 a0) (es ++ [eN]) e).
    split.
    { rewrite Hc. unfold els'. cbn [elements].
      rewrite nth_error_map. fold els in Hk. now rewrite Hk. }
    destruct (fold_dragStep s i p0 a0 (es ++ [eN]) e) as (H1 & H2 & H3 & _).
    split; [exact H1|]. split; [exact H2|]. split; [exact H3|].
    intros Hid Hnl. now apply fold_dragStep_last. }
  split; [rewrite Hh, Hc; reflexivity|].
  split; [exact Hi'|].
  split; [exact Hf1|]. split; [exact Hf2 | exact Hf3].
Qed.

(** **** Placing a text *)

Lemma step_TextChange (s : EditorState) (v : JS.utf16) :
  isEditingText s = true -> step s (TextChange v) = Some (setTextInputValue v s).
Proof. intros H. simpl. now rewrite H. Qed.

Lemma step_Enter (s : EditorState) :
  isEditingText s = true ->
  step s (TextKeyDown Enter) = Some (render (completeTextInput randomId) s).
Proof. intros H. simpl. now rewrite H. Qed.

(** X21. Placing a text.  With the text tool, outside text editing: a click
    (pointer-down that does not start a pan, pointer-up), typing a text that
    is not blank, and Enter append exactly one text element that carries the
    typed text, the font settings of the editor and the document point of
    the click as its position; it is selected and the editing is over.
    Until Enter the document is unchanged. *)
Theorem placing_a_text (s : EditorState) (e0 : MouseEvent)
    (v : JS.utf16) :
  isEditingText s = false -> startsPan s e0 = false ->
  tool s = Tool.text -> blank v = false ->
  let p := getMousePos s e0 in
  let i := randomId (randomCalls s) in
  exists s1 s' el,
    run s [MouseDown e0; MouseUp; TextChange v] = Some s1
    /\ canvasState s1 = canvasState s
    /\ isEditingText s1 = true /\ textInputPosition s1 = p
    /\ textInputValue s1 = v
    /\ run s [MouseDown e0; MouseUp; TextChange v; TextKeyDown Enter]
       = Some s'
    /\ canvasState s'
       = mkCanvasState (elements (canvasState s) ++ [el]) (Some i)
    /\ DrawingElement.id el = i
    /\ DrawingElement.type el = Tool.text
    /\ DrawingElement.text el = Some v
    /\ DrawingElement.x el = Point.x p /\ DrawingElement.y el = Point.y p
    /\ DrawingElement.fontSize el = Some (fontSize s)
    /\ DrawingElement.fontFamily el = Some (fontFamily s)
    /\ DrawingElement.textAlign el = Some (textAlign s)
    /\ DrawingElement.color el = currentColor s
    /\ isEditingText s' = false /\ textInputValue s' = [].
Proof.
  intros He Hp Ht Hb p i.
  assert (Htrim : JS.trim v <> []).
  { intros E. apply trim_blank in E. congruence. }
  set (q1 := setTextInputValue []
               (setTextInputPosition p
                  (setIsEditingText true (setIsDrawing true s)))).
  assert (H1 : step s (MouseDown e0) = Some q1).
  { simpl. f_equal. unfold render, handleMouseDown. rewrite He.
    unfold mouseDownDispatch. unfold startsPan in Hp. rewrite Hp, Ht.
    reflexivity. }
  set (q2 := render handleMouseUp q1).
  set (q3 := setTextInputValue v q2).
  assert (Hq2 : canvasState q2 = canvasState s /\ isEditingText q2 = true
                /\ textInputPosition q2 = p
                /\ randomCalls q2 = randomCalls s
                /\ currentColor q2 = currentColor s
                /\ strokeWidth q2 = strokeWidth s
                /\ fontSize q2 = fontSize s /\ fontFamily q2 = fontFamily s
                /\ textAlign q2 = textAlign s).
  { unfold q2, render, handleMouseUp.
    change (isDragging q1) with (isDragging s).
    change (isDrawing q1) with true.
    destruct (isDragging s); repeat split. }
  destruct Hq2 as (Hc2 & He2 & Hp2 & Hr2 & Hcol & Hsw & Hfs & Hff & Hta).
  assert (H3 : run s [MouseDown e0; MouseUp; TextChange v] = Some q3).
  { change [MouseDown e0; MouseUp; TextChange v]
      with ([MouseDown e0] ++ [MouseUp] ++ [TextChange v]).
    rewrite (run_app [MouseDown e0] _ s q1) by (rewrite run_one; exact H1).
    rewrite (run_app [MouseUp] _ q1 q2) by (rewrite run_one; reflexivity).
    rewrite run_one. now apply step_TextChange. }
  assert (Hq3 : canvasState q3 = canvasState s
                /\ textInputPosition q3 = p /\ textInputValue q3 = v
                /\ randomCalls q3 = randomCalls s
                /\ currentColor q3 = currentColor s
                /\ fontSize q3 = fontSize s /\ fontFamily q3 = fontFamily s
                /\ textAlign q3 = textAlign s /\ isEditingText q3 = true).
  { repeat split; assumption. }
  destruct Hq3 as (Hc3 & Hp3 & Hv3 & Hr3 & Hcol3 & Hfs3 & Hff3 & Hta3 & He3).
  assert (H4 : run s [MouseDown e0; MouseUp; TextChange v; TextKeyDown Enter]
               = Some (render (completeTextInput randomId) q3)).
  { change [MouseDown e0; MouseUp; TextChange v; TextKeyDown Enter]
      with ([MouseDown e0; MouseUp; TextChange v] ++ [TextKeyDown Enter]).
    rewrite (run_app _ [TextKeyDown Enter] s q3 H3), run_one.
    apply step_Enter. exact He3. }
  clearbody q3. clear H1 q1 q2 Hc2 He2 Hp2 Hr2 Hcol Hsw Hfs Hff Hta.
  exists q3, (render (completeTextInput randomId) q3),
    (newText q3 (randomId (randomCalls q3))).
  split; [exact H3|]. split; [exact Hc3|]. split; [exact He3|].
  split; [exact Hp3|]. split; [exact Hv3|]. split; [exact H4|].
  unfold render, completeTextInput. rewrite Hv3.
  destruct (JS.trim v) eqn:Et; [now elim Htrim|].
  subst p i. unfold newText.
  rewrite <- Hc3, <- Hr3, <- Hp3, <- Hfs3, <- Hff3, <- Hta3, <- Hcol3.
  rewrite Hv3.
  repeat split.
Qed.

(** **** A button that is neither the left nor the middle one *)

(** X22. A stray element.  With the pan tool, outside text editing, a
    pointer-down with a button other than the left and the middle one starts
    no pan and falls through to [addElement]: with any pointer-moves and the
    pointer-up it appends one element of type "pan" without any geometry,
    which the moves leave as it is; the element is selected and committed to
    the history, and the hit test finds it at no point. *)
Theorem pan_tool_leaves_a_stray_element (s : EditorState) (e0 : MouseEvent)
    (es : list MouseEvent) :
  isEditingText s = false -> isPanning s = false -> isDragging s = false ->
  tool s = Tool.pan -> (1 < button e0)%nat ->
  let p := getMousePos s e0 in
  let i := randomId (randomCalls s) in
  let el :=
    DrawingElement.base i Tool.pan (Point.x p) (Point.y p) (currentColor s)
      (strokeWidth s) in
  exists s',
    run s (MouseDown e0 :: map MouseMove es ++ [MouseUp]) = Some s'
    /\ canvasState s'
       = mkCanvasState (elements (canvasState s) ++ [el]) (Some i)
    /\ history s'
       = firstn (historyIndex s + 1) (history s) ++ [canvasState s']
    /\ (historyIndex s' + 1)%nat = List.length (history s')
    /\ forall canvas pos,
         hitElement Math_sqrt measureText canvas pos el = false.
Proof.
  intros He Hp Hd Ht Hb p i el.
  assert (Hsp : startsPan s e0 = false).
  { unfold startsPan. destruct (button e0) as [|[|n]]; [lia | lia | reflexivity]. }
  assert (Hdown : step s (MouseDown e0) = Some (drawingState s el)).
  { simpl. rewrite mouseDown_draws; try assumption;
      try (rewrite Ht; discriminate).
    rewrite Ht. reflexivity. }
  assert (Hfold : forall l,
             fold_left
               (fun el e => resizeElement Math_sqrt s (getMousePos s e) el)
               l el = el).
  { induction l as [|a l IH]; [reflexivity|]. simpl.
    replace (resizeElement Math_sqrt s (getMousePos s a) el) with el;
      [exact IH|].
    unfold resizeElement. rewrite Ht. reflexivity. }
  pose proof (mouseUp_draws s el Hd) as Hup. cbv zeta in Hup.
  destruct Hup as (Hc & Hh & Hi & _).
  exists (render handleMouseUp (drawingState s el)).
  split.
  { change (MouseDown e0 :: map MouseMove es ++ [MouseUp])
      with ([MouseDown e0] ++ map MouseMove es ++ [MouseUp]).
    rewrite (run_app [MouseDown e0] _ s (drawingState s el))
      by (rewrite run_one; exact Hdown).
    rewrite (run_app (map MouseMove es) [MouseUp] (drawingState s el)
               (drawingState s el))
      by (rewrite (moves_draw s es Hp Hd el), Hfold; reflexivity).
    rewrite run_one. reflexivity. }
  split; [exact Hc|]. split; [rewrite Hc; exact Hh|].
  split; [exact Hi|].
  intros canvas pos. unfold hitElement. simpl. reflexivity.
Qed.

(** **** The transform controls of the panel *)

Lemma find_map_cond (j : option string)
    (g : DrawingElement.t -> DrawingElement.t) (l : list DrawingElement.t) :
  (forall e, DrawingElement.id (g e) = DrawingElement.id e) ->
  find (idIs j) (map (fun e => if idIs j e then g e else e) l)
  = option_map g (find (idIs j) l).
Proof.
  intros Hg. induction l as [|a l IH]; [reflexivity|]. simpl.
  destruct (idIs j a) eqn:Ea.
  - assert (E : idIs j (g a) = true).
    { unfold idIs in *. destruct j; [|discriminate]. now rewrite Hg. }
    rewrite E. reflexivity.
  - rewrite Ea. exact IH.
Qed.

(** One control of the panel, used on the selection [i]. *)
Lemma panel_step (s : EditorState) (i : string) (sel : DrawingElement.t)
    (p : PanelEdit) :
  selectedElementId (canvasState s) = Some i -> i <> EmptyString ->
  selectedElement s = Some sel -> panelShows sel p = true ->
  exists s1,
    step s (PanelUpdate p) = Some s1
    /\ canvasState s1 = updatedDoc s i (panelUpdates sel p)
    /\ selectedElement s1 = Some (Partial.merge sel (panelUpdates sel p)).
Proof.
  intros Hi Hne Hsel Hshow.
  assert (Hc : canvasState
                 (render (fun s => updateSelectedElement s
                                     (panelUpdates sel p)) s)
               = updatedDoc s i (panelUpdates sel p)).
  { unfold render, updateSelectedElement, updatedDoc. rewrite Hi.
    destruct i as [|a r]; [now elim Hne|]. cbn [JS.truthyStr negb].
    unfold saveToHistory, andThen, updCanvasState. cbn [canvasState setCanvasState setHistory setHistoryIndex].
    rewrite Hi. reflexivity. }
  eexists. split; [|split].
  - simpl. rewrite Hsel, Hshow. reflexivity.
  - exact Hc.
  - unfold selectedElement in *. rewrite Hc. unfold updatedDoc.
    cbn [elements selectedElementId]. rewrite Hi in Hsel.
    rewrite find_map_cond, Hsel; [reflexivity|].
    intros e. apply merge_id, panelUpdates_id.
Qed.

Lemma updatedDoc_twice (s s1 : EditorState) (i : string) (u1 u2 u : Partial.t) :
  Partial.id u1 = None ->
  canvasState s1 = updatedDoc s i u1 ->
  (forall e, Partial.merge (Partial.merge e u1) u2 = Partial.merge e u) ->
  updatedDoc s1 i u2 = updatedDoc s i u.
Proof.
  intros H1 Hc Hm. unfold updatedDoc. rewrite Hc. cbn [elements updatedDoc].
  f_equal. unfold updatedDoc. cbn [elements]. rewrite map_map.
  apply map_ext. intros e.
  destruct (idIs (Some i) e) eqn:Ee.
  - assert (E : idIs (Some i) (Partial.merge e u1) = true).
    { unfold idIs in *. now rewrite merge_id. }
    rewrite E. apply Hm.
  - rewrite Ee. reflexivity.
Qed.

Lemma turn_cases (a : Q) :
  (a == 0 -> JS.rem (a + 90) 360 == 90)
  /\ (a == 90 -> JS.rem (a + 90) 360 == 180)
  /\ (a == 180 -> JS.rem (a + 90) 360 == 270)
  /\ (a == 270 -> JS.rem (a + 90) 360 == 0).
Proof.
  repeat split; intros H.
  - rewrite rem_small; lra.
  - rewrite rem_small; lra.
  - rewrite rem_small; lra.
  - apply rem_full. lra.
Qed.

Lemma orNum_zero (r : Q) : JS.orNum (Some r) 0 == r.
Proof.
  destruct (orNum_eq r 0) as [H|[H ->]]; [exact H | now symmetry].
Qed.

Lemma turned_spec (e : DrawingElement.t) :
  let a := JS.orNum (DrawingElement.rotation e) 0 in
  (a == 0 -> turned e == 90)
  /\ (a == 90 -> turned e == 180)
  /\ (a == 180 -> turned e == 270)
  /\ (a == 270 -> turned e == 0).
Proof. exact (turn_cases _). Qed.

Lemma turned_next (e e' : DrawingElement.t) (v : Q) :
  DrawingElement.rotation e' = Some (turned e) -> turned e == v ->
  JS.orNum (DrawingElement.rotation e') 0 == v.
Proof. intros -> H. rewrite orNum_zero. exact H. Qed.

(** X23. Four quarter turns and two flips cancel.  For a selection with a
    non-empty identifier whose rotation is not set or is 0, 90, 180 or 270,
    the Rotate control used four times leaves every element of the selected
    identifier with the angle the selected element began with (0 for an
    unset one) and all its other fields, and Flip X used twice leaves it
    with the flip the selected element began with; the other elements,
    their order and the selection are unchanged. *)
Theorem four_turns_and_two_flips_cancel (s : EditorState) (i : string)
    (sel : DrawingElement.t) :
  selectedElementId (canvasState s) = Some i -> i <> EmptyString ->
  selectedElement s = Some sel -> quarterTurn sel ->
  (exists s' r,
     run s [PanelUpdate Rotate; PanelUpdate Rotate; PanelUpdate Rotate;
            PanelUpdate Rotate] = Some s'
     /\ r == JS.orNum (DrawingElement.rotation sel) 0
     /\ canvasState s' = updatedDoc s i (withRotation r))
  /\ (exists s',
        run s [PanelUpdate FlipX; PanelUpdate FlipX] = Some s'
        /\ canvasState s'
           = updatedDoc s i
               (withFlipX (JS.truthyBool (DrawingElement.flipX sel)))).
Proof.
  intros Hi Hne Hsel Hq. split.
  - destruct (panel_step s i sel Rotate Hi Hne Hsel eq_refl)
      as (s1 & E1 & C1 & S1).
    assert (I1 : selectedElementId (canvasState s1) = Some i)
      by (rewrite C1; reflexivity).
    destruct (panel_step s1 i _ Rotate I1 Hne S1 eq_refl)
      as (s2 & E2 & C2 & S2).
    assert (I2 : selectedElementId (canvasState s2) = Some i)
      by (rewrite C2; reflexivity).
    destruct (panel_step s2 i _ Rotate I2 Hne S2 eq_refl)
      as (s3 & E3 & C3 & S3).
    assert (I3 : selectedElementId (canvasState s3) = Some i)
      by (rewrite C3; reflexivity).
    destruct (panel_step s3 i _ Rotate I3 Hne S3 eq_refl)
      as (s4 & E4 & C4 & S4).
    set (sel1 := Partial.merge sel (panelUpdates sel Rotate)) in *.
    set (sel2 := Partial.merge sel1 (panelUpdates sel1 Rotate)) in *.
    set (sel3 := Partial.merge sel2 (panelUpdates sel2 Rotate)) in *.
    exists s4, (turned sel3). split; [|split].
    + change [PanelUpdate Rotate; PanelUpdate Rotate; PanelUpdate Rotate;
              PanelUpdate Rotate]
        with ([PanelUpdate Rotate] ++ [PanelUpdate Rotate]
              ++ [PanelUpdate Rotate] ++ [PanelUpdate Rotate]).
      rewrite (run_app [PanelUpdate Rotate] _ s s1)
        by (rewrite run_one; exact E1).
      rewrite (run_app [PanelUpdate Rotate] _ s1 s2)
        by (rewrite run_one; exact E2).
      rewrite (run_app [PanelUpdate Rotate] _ s2 s3)
        by (rewrite run_one; exact E3).
      rewrite run_one. exact E4.
    + assert (R1 : DrawingElement.rotation sel1 = Some (turned sel))
        by reflexivity.
      assert (R2 : DrawingElement.rotation sel2 = Some (turned sel1))
        by reflexivity.
      assert (R3 : DrawingElement.rotation sel3 = Some (turned sel2))
        by reflexivity.
      set (a := JS.orNum (DrawingElement.rotation sel) 0).
      assert (Ha : a == 0 \/ a == 90 \/ a == 180 \/ a == 270).
      { unfold a, quarterTurn in *.
        destruct (DrawingElement.rotation sel) as [r|];
          [rewrite orNum_zero; exact Hq | left; reflexivity]. }
      destruct Ha as [H|[H|[H|H]]]; rewrite H.
      * pose proof (proj1 (turned_spec sel) H) as H1.
        pose proof (proj1 (proj2 (turned_spec sel1))
                      (turned_next sel sel1 _ R1 H1)) as H2.
        pose proof (proj1 (proj2 (proj2 (turned_spec sel2)))
                      (turned_next sel1 sel2 _ R2 H2)) as H3.
        exact (proj2 (proj2 (proj2 (turned_spec sel3)))
                 (turned_next sel2 sel3 _ R3 H3)).
      * pose proof (proj1 (proj2 (turned_spec sel)) H) as H1.
        pose proof (proj1 (proj2 (proj2 (turned_spec sel1)))
                      (turned_next sel sel1 _ R1 H1)) as H2.
        pose proof (proj2 (proj2 (proj2 (turned_spec sel2)))
                      (turned_next sel1 sel2 _ R2 H2)) as H3.
        exact (proj1 (turned_spec sel3) (turned_next sel2 sel3 _ R3 H3)).
      * pose proof (proj1 (proj2 (proj2 (turned_spec sel))) H) as H1.
        pose proof (proj2 (proj2 (proj2 (turned_spec sel1)))
                      (turned_next sel sel1 _ R1 H1)) as H2.
        pose proof (proj1 (turned_spec sel2)
                      (turned_next sel1 sel2 _ R2 H2)) as H3.
        exact (proj1 (proj2 (turned_spec sel3))
                 (turned_next sel2 sel3 _ R3 H3)).
      * pose proof (proj2 (proj2 (proj2 (turned_spec sel))) H) as H1.
        pose proof (proj1 (turned_spec sel1)
                      (turned_next sel sel1 _ R1 H1)) as H2.
        pose proof (proj1 (proj2 (turned_spec sel2))
                      (turned_next sel1 sel2 _ R2 H2)) as H3.
        exact (proj1 (proj2 (proj2 (turned_spec sel3)))
                 (turned_next sel2 sel3 _ R3 H3)).
    + rewrite C4.
      apply (updatedDoc_twice s s3 i (withRotation (turned sel2)));
        [reflexivity | | reflexivity].
      rewrite C3.
      apply (updatedDoc_twice s s2 i (withRotation (turned sel1)));
        [reflexivity | | reflexivity].
      rewrite C2.
      apply (updatedDoc_twice s s1 i (withRotation (turned sel)));
        [reflexivity | exact C1 | reflexivity].
  - destruct (panel_step s i sel FlipX Hi Hne Hsel eq_refl)
      as (s1 & E1 & C1 & S1).
    assert (I1 : selectedElementId (canvasState s1) = Some i)
      by (rewrite C1; reflexivity).
    destruct (panel_step s1 i _ FlipX I1 Hne S1 eq_refl)
      as (s2 & E2 & C2 & S2).
    exists s2. split.
    + change [PanelUpdate FlipX; PanelUpdate FlipX]
        with ([PanelUpdate FlipX] ++ [PanelUpdate FlipX]).
      rewrite (run_app [PanelUpdate FlipX] _ s s1)
        by (rewrite run_one; exact E1).
      rewrite run_one. exact E2.
    + rewrite C2.
      apply (updatedDoc_twice s s1 i
               (withFlipX (negb (JS.truthyBool (DrawingElement.flipX sel)))));
        [reflexivity | exact C1 |].
      intros e. simpl. rewrite negb_involutive. reflexivity.
Qed.

End Gestures.

(** ** The further properties on the session *)

Lemma selection_never_dangles_witness :
  exists s,
    Scenario.runFresh Session.start Session.events = Some s
    /\ selectionOK (canvasState s) /\ Forall selectionOK (history s).
Proof.
  eexists. split; [vm_compute; reflexivity|].
  refine (selection_never_dangles JS.sqrtFloor Scenario.measure
            Scenario.freshIds Scenario.canvas _
            (Reachable_Shared _ _ _ _ _ (ex_intro _ Session.events _))).
  vm_compute. reflexivity.
Defined.

Lemma elements_stay_complete_witness :
  exists s,
    Scenario.runFresh Session.start Session.events = Some s
    /\ forallb complete (elements (canvasState s)) = true
    /\ Forall (fun cs => forallb complete (elements cs) = true) (history s).
Proof.
  eexists. split; [vm_compute; reflexivity|].
  refine (elements_stay_complete JS.sqrtFloor Scenario.measure
            Scenario.freshIds Scenario.canvas _
            (Reachable_Shared _ _ _ _ _ (ex_intro _ Session.events _))).
  vm_compute. reflexivity.
Defined.

Lemma rotation_is_quarter_turn_witness :
  exists s,
    Scenario.runFresh Session.start Session.events = Some s
    /\ Forall quarterTurn (elements (canvasState s))
    /\ Forall (fun cs => Forall quarterTurn (elements cs)) (history s).
Proof.
  eexists. split; [vm_compute; reflexivity|].
  refine (rotation_is_quarter_turn JS.sqrtFloor Scenario.measure
            Scenario.freshIds Scenario.canvas _
            (Reachable_Shared _ _ _ _ _ (ex_intro _ Session.events _))).
  vm_compute. reflexivity.
Defined.

Lemma zoom_stays_in_range_witness :
  exists s,
    Scenario.runFresh Session.start Session.events = Some s
    /\ zoomInRange s /\ ~ zoom s == 0.
Proof.
  eexists. split; [vm_compute; reflexivity|].
  refine (zoom_stays_in_range JS.sqrtFloor Scenario.measure
            Scenario.freshIds Scenario.canvas _
            (ex_intro _ Session.events _)).
  vm_compute. reflexivity.
Defined.

Lemma history_stays_valid_witness :
  exists s,
    Scenario.runFresh Session.start Session.events = Some s
    /\ historyValid s
    /\ nth_error (history s) 0 = Some emptyCanvasState
    /\ forall evs, exists s', Scenario.runFresh s evs = Some s'.
Proof.
  eexists. split; [vm_compute; reflexivity|].
  refine (history_stays_valid JS.sqrtFloor Scenario.measure
            Scenario.freshIds Scenario.canvas _
            (Reachable_Shared _ _ _ _ _ (ex_intro _ Session.events _))).
  vm_compute. reflexivity.
Defined.

Lemma buttons_enabled_iff_effective_witness :
  let s := commit (Scenario.doc "a") Session.start in
  (undo s = Some s <-> canUndo s = false)
  /\ (redo s = Some s <-> canRedo s = false).
Proof.
  apply (buttons_enabled_iff_effective
           (commit (Scenario.doc "a") Session.start)).
  unfold historyValid. simpl. lia.
Defined.

Lemma undo_redo_inverse_witness :
  let s := commit (Scenario.doc "a") Session.start in
  exists s1, undo s = Some s1 /\ redo s1 = Some s.
Proof.
  refine (proj1
    (undo_redo_inverse (commit (Scenario.doc "a") Session.start) _ _) _).
  - unfold historyValid. simpl. lia.
  - reflexivity.
  - simpl. lia.
Defined.

Lemma gesture_commit_undo_redo_witness :
  let s := drawingState Session.start Session.rectA in
  exists s1 s2 s3,
    s1 = render handleMouseUp s
    /\ history s1 = firstn (historyIndex s + 1) (history s) ++ [canvasState s]
    /\ canvasState s1 = canvasState s
    /\ undo s1 = Some s2 /\ canvasState s2 = emptyCanvasState
    /\ redo s2 = Some s3 /\ canvasState s3 = canvasState s
    /\ history s3 = history s1 /\ historyIndex s3 = historyIndex s1.
Proof.
  apply (gesture_commit_undo_redo
           (drawingState Session.start Session.rectA) emptyCanvasState).
  - unfold historyValid. simpl. lia.
  - reflexivity.
  - reflexivity.
Defined.

Lemma delete_removes_the_selection_witness :
  let s' := render deleteSelectedElement Session.selected in
  selectedElementId (canvasState s') = None
  /\ ids (canvasState s') = ["B"%string].
Proof.
  destruct (proj2 (delete_removes_the_selection Session.selected)
              "A"%string eq_refl) as (H1 & H2 & _).
  - discriminate.
  - split; [exact H1 | exact H2].
Defined.

Lemma update_touches_only_the_selection_witness :
  let s' :=
    render (fun s => updateSelectedElement s Session.red) Session.selected in
  nth_error (elements (canvasState s')) 0
  = Some (Partial.merge Session.rectA Session.red)
  /\ nth_error (elements (canvasState s')) 1 = Some Session.rectB.
Proof.
  destruct (proj2 (update_touches_only_the_selection Session.selected
                     Session.red) eq_refl) as (_ & _ & H).
  split.
  - exact (H 0%nat Session.rectA eq_refl).
  - exact (H 1%nat Session.rectB eq_refl).
Defined.

Lemma pointer_move_preserves_witness :
  let s := panningState Session.selected (Point.mk 0 0) (Point.mk 10 10) in
  let s' :=
    render (fun s => handleMouseMove JS.sqrtFloor s (Scenario.down 30 40)) s in
  canvasState s' = canvasState s /\ history s' = history s.
Proof.
  pose proof (pointer_move_preserves JS.sqrtFloor
                (panningState Session.selected (Point.mk 0 0)
                   (Point.mk 10 10))
                (Scenario.down 30 40)) as H.
  cbv zeta in H.
  destruct H as (_ & _ & _ & _ & _ & _ & _ & _ & _ & _ & H & _).
  exact (H eq_refl).
Defined.

Lemma upload_centres_the_image_witness :
  let s := Session.start in
  let s' :=
    render
      (fun s =>
         handleImageUpload Scenario.freshIds s (Some (Scenario.png 1600 600)))
      s in
  exists el w' h',
    elements (canvasState s') = elements (canvasState s) ++ [el]
    /\ DrawingElement.type el = Tool.image
    /\ DrawingElement.x el + w' / 2 == 800 / 2
    /\ DrawingElement.y el + h' / 2 == 600 / 2.
Proof.
  cbv zeta.
  destruct (proj2 (proj2
    (upload_centres_the_image Scenario.freshIds Session.start
       (Some (Scenario.png 1600 600))))
    (Scenario.png 1600 600) (mkCanvasEl 0 0 800 600 true) 1600 600
    eq_refl eq_refl eq_refl eq_refl eq_refl eq_refl eq_refl eq_refl)
    as (el & w' & h' & H1 & _ & H2 & _ & _ & _ & _ & _ & H3 & H4 & _).
  exists el, w', h'. repeat split; assumption.
Defined.

Lemma finishing_a_text_witness :
  exists s',
    step JS.sqrtFloor Scenario.measure Scenario.freshIds Session.typing
      TextBlur = Some s'
    /\ isEditingText s' = false
    /\ canvasState s'
       = mkCanvasState
           [newText Session.typing "x"%string] (Some "x"%string).
Proof.
  destruct (proj2
    (finishing_a_text JS.sqrtFloor Scenario.measure Scenario.freshIds
       Session.typing eq_refl) TextBlur (or_intror (or_introl eq_refl)))
    as (s' & H1 & H2 & _ & _ & H3).
  exists s'. split; [exact H1|]. split; [exact H2|]. exact (H3 eq_refl).
Defined.

Lemma rectangle_hit_box_witness :
  hitElement JS.sqrtFloor Scenario.measure Scenario.canvas (Point.mk 25 25)
    Session.rectA = true.
Proof.
  destruct (rectangle_hit_box JS.sqrtFloor Scenario.measure Scenario.canvas
              (Point.mk 25 25) Session.rectA (or_introl eq_refl) eq_refl)
    as [[_ H] _].
  apply H. vm_compute. repeat split; discriminate.
Defined.

Lemma zero_length_line_is_never_hit_witness :
  hitElement JS.sqrtFloor Scenario.measure Scenario.canvas (Point.mk 7 7)
    Session.dot = false.
Proof.
  apply (proj1 (zero_length_line_is_never_hit JS.sqrtFloor Scenario.measure
                  Scenario.canvas (Point.mk 7 7)) Session.dot);
    reflexivity.
Defined.

Lemma disc_hit_witness :
  hitElement JS.sqrtFloor Scenario.measure Scenario.canvas (Point.mk 3 4)
    Session.circle = true.
Proof.
  destruct (disc_hit JS.sqrtFloor Scenario.measure Scenario.canvas
              (Point.mk 3 4) Session.circle (or_introl eq_refl) eq_refl)
    as [H _].
  - vm_compute. discriminate.
  - reflexivity.
  - apply H; vm_compute; discriminate.
Defined.

Lemma drawing_a_shape_witness :
  let s := setTool Tool.rectangle Session.start in
  exists s' el,
    Scenario.runFresh s
      [MouseDown (Scenario.down 10 10); MouseMove (Scenario.down 30 30);
       MouseMove (Scenario.down 60 40); MouseUp] = Some s'
    /\ canvasState s' = mkCanvasState [el] (Some "x"%string)
    /\ DrawingElement.type el = Tool.rectangle
    /\ DrawingElement.x el = 10 - 0 - 0 /\ DrawingElement.y el = 10 - 0 - 0.
Proof.
  destruct (drawing_a_shape JS.sqrtFloor Scenario.measure Scenario.freshIds
              (setTool Tool.rectangle Session.start) (Scenario.down 10 10)
              [Scenario.down 30 30] (Scenario.down 60 40)
              eq_refl eq_refl eq_refl eq_refl eq_refl)
    as (s' & el & H1 & H2 & _ & _ & H3 & H4 & H5 & _).
  exists s', el. repeat split; assumption.
Defined.

Lemma brush_records_the_path_witness :
  let s := setTool Tool.brush Session.start in
  exists s' el,
    Scenario.runFresh s
      [MouseDown (Scenario.down 10 10); MouseMove (Scenario.down 30 30);
       MouseMove (Scenario.down 60 40); MouseUp] = Some s'
    /\ canvasState s' = mkCanvasState [el] (Some "x"%string)
    /\ DrawingElement.points el
       = Some (map (getMousePos s)
                 [Scenario.down 10 10; Scenario.down 30 30;
                  Scenario.down 60 40]).
Proof.
  destruct (brush_records_the_path JS.sqrtFloor Scenario.measure
              Scenario.freshIds
              (setTool Tool.brush Session.start) (Scenario.down 10 10)
              [Scenario.down 30 30; Scenario.down 60 40]
              eq_refl eq_refl eq_refl eq_refl eq_refl)
    as (s' & el & H1 & H2 & H3 & _).
  exists s', el. repeat split; assumption.
Defined.

Lemma panning_follows_the_pointer_witness :
  exists s',
    Scenario.runFresh Session.selected
      [MouseDown (Session.middle 10 10); MouseMove (Session.middle 30 5);
       MouseMove (Session.middle 50 70); MouseUp] = Some s'
    /\ Point.x (panOffset s') == 40 /\ Point.y (panOffset s') == 60
    /\ canvasState s' = canvasState Session.selected.
Proof.
  destruct (panning_follows_the_pointer JS.sqrtFloor Scenario.measure
              Scenario.freshIds Session.selected (Session.middle 10 10)
              [Session.middle 30 5] (Session.middle 50 70)
              eq_refl eq_refl eq_refl eq_refl)
    as (s' & H1 & H2 & H3 & _ & H4 & _).
  exists s'. split; [exact H1|]. split; [|split].
  - rewrite H2. reflexivity.
  - rewrite H3. reflexivity.
  - exact H4.
Defined.

Lemma dragging_moves_the_selection_witness :
  exists s' e',
    Scenario.runFresh Session.unselected
      [MouseDown (Scenario.down 25 25); MouseMove (Scenario.down 90 90);
       MouseMove (Scenario.down 35 45); MouseUp] = Some s'
    /\ selectedElementId (canvasState s') = Some "A"%string
    /\ nth_error (elements (canvasState s')) 1 = Some e'
    /\ DrawingElement.x e' == 30 /\ DrawingElement.y e' == 40
    /\ DrawingElement.width e' = Some 10.
Proof.
  destruct (dragging_moves_the_selection JS.sqrtFloor Scenario.measure
              Scenario.freshIds Session.unselected (Scenario.down 25 25)
              [Scenario.down 90 90] (Scenario.down 35 45) "A"%string
              Session.rectA eq_refl eq_refl eq_refl eq_refl)
    as (s' & H1 & H2 & _ & H3 & _).
  - vm_compute. reflexivity.
  - discriminate.
  - reflexivity.
  - destruct (H3 1%nat Session.rectA eq_refl)
      as (e' & Hn & _ & _ & _ & He).
    exists s', e'. split; [exact H1|]. split; [exact H2|].
    split; [exact Hn|].
    rewrite (He eq_refl) by discriminate.
    repeat split; reflexivity.
Defined.

Lemma placing_a_text_witness :
  let s := setTool Tool.text Session.start in
  exists s' el,
    Scenario.runFresh s
      [MouseDown (Scenario.down 120 120); MouseUp; TextChange Scenario.hi;
       TextKeyDown Enter] = Some s'
    /\ canvasState s' = mkCanvasState [el] (Some "x"%string)
    /\ DrawingElement.text el = Some Scenario.hi
    /\ isEditingText s' = false.
Proof.
  destruct (placing_a_text JS.sqrtFloor Scenario.measure Scenario.freshIds
              (setTool Tool.text Session.start) (Scenario.down 120 120)
              Scenario.hi eq_refl eq_refl eq_refl eq_refl)
    as (s1 & s' & el & _ & _ & _ & _ & _ & H1 & H2 & _ & _ & H3 & _ & _ & _
        & _ & _ & _ & H4 & _).
  exists s', el. repeat split; assumption.
Defined.

Lemma pan_tool_leaves_a_stray_element_witness :
  let s := setTool Tool.pan Session.start in
  exists s',
    Scenario.runFresh s
      [MouseDown (Session.right 50 50); MouseMove (Session.right 60 60);
       MouseUp] = Some s'
    /\ ids (canvasState s') = ["x"%string]
    /\ findElementAtPosition JS.sqrtFloor Scenario.measure s'
         (Point.mk 50 50) = None.
Proof.
  destruct (pan_tool_leaves_a_stray_element JS.sqrtFloor Scenario.measure
              Scenario.freshIds (setTool Tool.pan Session.start)
              (Session.right 50 50) [Session.right 60 60]
              eq_refl eq_refl eq_refl eq_refl)
    as (s' & H1 & H2 & _).
  - simpl. lia.
  - exists s'. split; [exact H1|]. unfold findElementAtPosition.
    rewrite H2. split; reflexivity.
Defined.

Lemma four_turns_and_two_flips_cancel_witness :
  exists s' r,
    Scenario.runFresh Session.selected
      [PanelUpdate Rotate; PanelUpdate Rotate; PanelUpdate Rotate;
       PanelUpdate Rotate] = Some s'
    /\ r == 0
    /\ canvasState s' = updatedDoc Session.selected "A" (withRotation r).
Proof.
  destruct (proj1
    (four_turns_and_two_flips_cancel JS.sqrtFloor Scenario.measure
       Scenario.freshIds Session.selected "A" Session.rectA eq_refl
       ltac:(discriminate) eq_refl I))
    as (s' & r & H1 & H2 & H3).
  exists s', r. split; [exact H1|]. split; [exact H2 | exact H3].
Defined.

